(** * fftokens: the token connector plugin of FireFly

  A shallow embedding of [internal/tokens/fftokens/fftokens.go]: the
  decoders for the events of the token connector (receipt, token pool,
  mint / burn / transfer, approval), the websocket event loop with its
  acknowledgement protocol, and the REST operations that issue commands.

  Go values are modelled as follows.
  - [string] is [string]; a nil-able pointer [*T] is [option T]; [error]
    is [option error] with [None] for [nil].
  - [fftypes.JSONObject] (a [map[string]interface{}]) is a finite map from
    strings to JSON values.
  - Calls that leave the plugin (callbacks of the node, frames sent on the
    websocket, REST requests) are appended to a history kept in the
    [World]; what a collaborator answers is a function of the history so
    far, which covers any deterministic stateful collaborator.
  - Library functions the file calls ([encoding/json], [math/big], and the
    parsers of package [fftypes]) are the fields of the class [Platform]. *)

From Stdlib Require Import ZArith NArith String Ascii List Bool Lia.
From stdpp Require Import base option strings gmap.
Import ListNotations.

Local Open Scope string_scope.
Local Open Scope Z_scope.

(* ================================================================== *)
(** ** Package fftypes: JSON objects and scalar types                  *)
(* ================================================================== *)

Module fftypes.

#[warnings="-register-all"] Inductive JSON : Type :=
| JNull
| JBool (b : bool)
| JNum (n : Z)
| JStr (s : string)
| JArr (l : list JSON)
| JObj (m : gmap string JSON).

Abbreviation JSONObject := (gmap string JSON).

(** Modelled from the spec: [JSONObject.GetString] is declared in package
    [fftypes], which is not among the sources.  The payload is "a
    semi-structured map of named fields" read by "dynamic field lookup":
    the string stored under the key, and the empty string when the key is
    absent or holds something else. *)
Definition GetString (jd : JSONObject) (key : string) : string :=
  match jd !! key with
  | Some (JStr s) => s
  | _ => ""
  end.

(** Modelled from the spec: [JSONObject.GetBool] is declared in package
    [fftypes], which is not among the sources.  The flags it reads are
    "boolean" fields: the boolean stored under the key, and [false] when
    the key is absent or holds something else. *)
Definition GetBool (jd : JSONObject) (key : string) : bool :=
  match jd !! key with
  | Some (JBool b) => b
  | _ => false
  end.

(** Modelled from the spec: [JSONObject.GetObject] is declared in package
    [fftypes], which is not among the sources.  The "optional nested
    sub-object" under the key, and the empty object when the key is absent
    or holds something else (the source reads fields of the result without
    a nil check). *)
Definition GetObject (jd : JSONObject) (key : string) : JSONObject :=
  match jd !! key with
  | Some (JObj m) => m
  | _ => ∅
  end.

(** [fftypes.UUID] is a 16-byte array, [fftypes.Bytes32] a 32-byte array,
    [fftypes.FFTime] a number of nanoseconds, [fftypes.FFBigInt] an
    arbitrary-precision integer. *)
Definition UUID := N.
Definition Bytes32 := N.
Definition FFTime := Z.
Definition FFBigInt := Z.

(** [fftypes.FFEnum] is a string type; [TokenType] and [TransactionType]
    are aliases of it and are read off the wire unchecked. *)
Definition FFEnum := string.
Definition TokenType := FFEnum.
Definition TransactionType := FFEnum.

(** The three transfer kinds the event loop passes to the decoder. *)
Inductive TokenTransferType :=
| TokenTransferTypeMint
| TokenTransferTypeBurn
| TokenTransferTypeTransfer.

Definition TokenTransferType_eqb (a b : TokenTransferType) : bool :=
  match a, b with
  | TokenTransferTypeMint, TokenTransferTypeMint
  | TokenTransferTypeBurn, TokenTransferTypeBurn
  | TokenTransferTypeTransfer, TokenTransferTypeTransfer => true
  | _, _ => false
  end.

Inductive OpStatus :=
| OpStatusPending
| OpStatusSucceeded
| OpStatusFailed.

Record TransactionRef := {
  tx_ID : option UUID;
  tx_Type : TransactionType;
}.

(** The fields of [fftypes.TokenPool] that the plugin reads. *)
Record TokenPool := {
  pool_Type : TokenType;
  pool_Locator : string;
  pool_Name : string;
  pool_Symbol : string;
  pool_Key : string;
  pool_Config : JSONObject;
  pool_TX : TransactionRef;
}.

(** The fields of [fftypes.TokenTransfer] that the plugin reads or sets. *)
Record TokenTransfer := {
  tt_Type : TokenTransferType;
  tt_TokenIndex : string;
  tt_URI : string;
  tt_Connector : string;
  tt_From : string;
  tt_To : string;
  tt_Amount : FFBigInt;
  tt_Subject : string;
  tt_Key : string;
  tt_Message : option UUID;
  tt_MessageHash : option Bytes32;
  tt_TX : TransactionRef;
}.

(** The fields of [fftypes.TokenApproval] that the plugin reads or sets. *)
Record TokenApproval := {
  ta_Connector : string;
  ta_Key : string;
  ta_Operator : string;
  ta_Approved : bool;
  ta_Subject : string;
  ta_Config : JSONObject;
  ta_TX : TransactionRef;
}.

End fftypes.
Export fftypes.

(** Go's [s == ""]. *)
Definition emptyb (s : string) : bool := String.eqb s "".

(* ================================================================== *)
(** ** Packages blockchain and tokens: the records handed to the node  *)
(* ================================================================== *)

Module blockchain.

Record Event := {
  ev_ProtocolID : string;
  ev_BlockchainTXID : string;
  ev_Source : string;
  ev_Name : string;
  ev_Output : JSONObject;
  ev_Location : string;
  ev_Signature : string;
  ev_Info : JSONObject;
  ev_Timestamp : option FFTime;
}.

(** The zero value of the struct: what a field of type [blockchain.Event]
    holds when nothing was assigned to it. *)
Definition zero : Event :=
  {| ev_ProtocolID := ""; ev_BlockchainTXID := ""; ev_Source := ""; ev_Name := "";
     ev_Output := ∅; ev_Location := ""; ev_Signature := ""; ev_Info := ∅;
     ev_Timestamp := None |}.

End blockchain.

Module tokens.

Record TokenPool := {
  tp_Type : TokenType;
  tp_PoolLocator : string;
  tp_TX : TransactionRef;
  tp_Connector : string;
  tp_Standard : string;
  tp_Symbol : string;
  tp_Info : JSONObject;
  tp_Event : blockchain.Event;
}.

Record TokenTransfer := {
  tr_PoolLocator : string;
  tr_TokenTransfer : fftypes.TokenTransfer;
  tr_Event : blockchain.Event;
}.

Record TokenApproval := {
  apv_PoolLocator : string;
  apv_TokenApproval : fftypes.TokenApproval;
  apv_Event : blockchain.Event;
}.

End tokens.

(* ================================================================== *)
(** ** Package fftokens: wire types                                    *)
(* ================================================================== *)

Definition msgType := string.

Definition messageReceipt : msgType := "receipt".
Definition messageTokenPool : msgType := "token-pool".
Definition messageTokenMint : msgType := "token-mint".
Definition messageTokenBurn : msgType := "token-burn".
Definition messageTokenTransfer : msgType := "token-transfer".
Definition messageTokenApproval : msgType := "token-approval".

Record wsEvent := {
  ws_Event : msgType;
  ws_ID : string;
  ws_Data : JSONObject;
}.

Record tokenData := {
  td_TX : option UUID;
  td_TXType : TransactionType;
  td_Message : option UUID;
  td_MessageHash : option Bytes32;
}.

(** The zero value [tokenData{}]. *)
Definition tokenData_zero : tokenData :=
  {| td_TX := None; td_TXType := ""; td_Message := None; td_MessageHash := None |}.

Record createPool := {
  cp_Type : TokenType;
  cp_RequestID : string;
  cp_Signer : string;
  cp_Data : string;
  cp_Config : JSONObject;
  cp_Name : string;
  cp_Symbol : string;
}.

Record activatePool := {
  ap_PoolLocator : string;
  ap_Config : JSONObject;
  ap_RequestID : string;
}.

Record mintTokens := {
  mt_PoolLocator : string;
  mt_TokenIndex : string;
  mt_To : string;
  mt_Amount : string;
  mt_RequestID : string;
  mt_Signer : string;
  mt_Data : string;
}.

Record burnTokens := {
  bt_PoolLocator : string;
  bt_TokenIndex : string;
  bt_From : string;
  bt_Amount : string;
  bt_RequestID : string;
  bt_Signer : string;
  bt_Data : string;
}.

Record transferTokens := {
  xt_PoolLocator : string;
  xt_TokenIndex : string;
  xt_From : string;
  xt_To : string;
  xt_Amount : string;
  xt_RequestID : string;
  xt_Signer : string;
  xt_Data : string;
}.

Record tokenApproval := {
  tap_Signer : string;
  tap_Operator : string;
  tap_Approved : bool;
  tap_PoolLocator : string;
  tap_RequestID : string;
  tap_Data : string;
  tap_Config : JSONObject;
}.

(** What [SetBody] is given, one constructor per request struct. *)
Inductive RequestBody :=
| BodyCreatePool (b : createPool)
| BodyActivatePool (b : activatePool)
| BodyMintTokens (b : mintTokens)
| BodyBurnTokens (b : burnTokens)
| BodyTransferTokens (b : transferTokens)
| BodyTokenApproval (b : tokenApproval).

(** What [Post] gives back: the transport error if any, the status code and
    the body.  [IsSuccess] is resty's: a status in the 2xx range. *)
Record Response := {
  res_err : option string;
  res_StatusCode : Z;
  res_Body : string;
}.

Definition IsSuccess (res : Response) : bool :=
  (199 <? res_StatusCode res) && (res_StatusCode res <? 300).

(** Go errors.  [CollaboratorErr] is an error made outside the plugin (by a
    callback of the node or by the websocket client); the other two are
    the errors the plugin makes itself: [ffresty.WrapRestErr] with
    [MsgTokensRESTErr], and [i18n.WrapError] with
    [MsgJSONObjectParseFailed]. *)
Inductive error :=
| CollaboratorErr (msg : string)
| TokensRESTErr (res : Response)
| JSONObjectParseFailed (body : string).

(** Go's [err == nil]. *)
Definition isNil (err : option error) : bool :=
  match err with
  | None => true
  | Some _ => false
  end.

(* ================================================================== *)
(** ** The world outside the plugin                                    *)
(* ================================================================== *)

(** A call that leaves the plugin.  The first argument of every callback is
    the plugin itself and is left out. *)
Inductive Action :=
| CallTokenOpUpdate (opID : UUID) (status : OpStatus)
    (transactionHash message : string) (data : JSONObject)
| CallTokenPoolCreated (pool : tokens.TokenPool)
| CallTokensTransferred (transfer : tokens.TokenTransfer)
| CallTokensApproved (approval : tokens.TokenApproval)
| WSSend (frame : string)
| WSClose
| HTTPPost (path : string) (body : RequestBody).

Inductive Level := Debug | Info | Error.

(** A log line: its level and the format string of the call site. *)
Definition LogLine : Type := Level * string.

Record World := {
  calls : list Action;
  logs : list LogLine;
}.

(** The interface [tokens.Callbacks], as far as it returns something: the
    answer may depend on every call made so far. *)
Record Callbacks := {
  TokenPoolCreated : list Action -> tokens.TokenPool -> option error;
  TokensTransferred : list Action -> tokens.TokenTransfer -> option error;
  TokensApproved : list Action -> tokens.TokenApproval -> option error;
}.

(** The interface [wsclient.WSClient], as far as it returns something. *)
Record WSClient := {
  Send : list Action -> string -> option error;
}.

(** The resty client: the answer to a POST. *)
Record RestClient := {
  Post : list Action -> string -> RequestBody -> Response;
}.

Record FFTokens := {
  callbacks : Callbacks;
  configuredName : string;
  client : RestClient;
  wsconn : WSClient;
}.

(** Library functions called by the plugin and not part of its sources.
    A parser returns [None] where the Go function returns an error. *)
Class Platform := {
  (** [fftypes.ParseUUID] and the [String] method of a UUID pointer *)
  ParseUUID : string -> option UUID;
  UUID_String : option UUID -> string;
  (** [fftypes.ParseTimeString] *)
  ParseTimeString : string -> option FFTime;
  (** [fftypes.TransactionTypeTokenPool] and its two siblings *)
  TransactionTypeTokenPool : TransactionType;
  TransactionTypeTokenTransfer : TransactionType;
  TransactionTypeTokenApproval : TransactionType;
  (** [SetString(s, 10)] and [String] of [big.Int] *)
  big_SetString10 : string -> option Z;
  big_String : Z -> string;
  (** [json.Marshal] and [json.Unmarshal] at the types the plugin uses *)
  json_Marshal_tokenData : tokenData -> string;
  json_Unmarshal_tokenData : string -> option tokenData;
  json_Marshal_JSONObject : JSONObject -> string;
  json_Unmarshal_JSONObject : string -> option JSONObject;
  json_Unmarshal_wsEvent : string -> option wsEvent;
}.

(* ================================================================== *)
(** ** A state monad over the world                                    *)
(* ================================================================== *)

Definition M (A : Type) : Type := World -> A * World.

Definition ret {A} (a : A) : M A := fun w => (a, w).

Definition bind {A B} (m : M A) (k : A -> M B) : M B :=
  fun w => let (a, w') := m w in k a w'.

Declare Scope go_scope.
Delimit Scope go_scope with go.
Notation "'let*' x := m 'in' k" := (bind m (fun x => k))
  (at level 10, x name, m at level 100, k at level 200) : go_scope.
Notation "'exec' m 'then' k" := (bind m (fun _ => k))
  (at level 10, m at level 100, k at level 200) : go_scope.
Local Open Scope go_scope.

(** A log call. *)
Definition log (l : Level) (fmt : string) : M unit :=
  fun w => (tt, {| calls := calls w; logs := logs w ++ [(l, fmt)] |}).

(** A call that leaves the plugin: the collaborator answers from the history,
    and the call joins the history. *)
Definition perform {A} (answer : list Action -> A) (a : Action) : M A :=
  fun w => (answer (calls w), {| calls := calls w ++ [a]; logs := logs w |}).

(* ================================================================== *)
(** ** The plugin                                                      *)
(* ================================================================== *)

Section Plugin.

Context {P : Platform}.

Definition Name (ft : FFTokens) : string := "fftokens".

(** [timestamp, err := fftypes.ParseTimeString(s); if err != nil
    { timestamp = fftypes.Now() }], with [now] the reading of the clock. *)
Definition timestampOrNow (now : FFTime) (timestampStr : string) : FFTime :=
  match ParseTimeString timestampStr with
  | Some t => t
  | None => now
  end.

(** [json.Unmarshal] of the opaque data string into a [tokenData], which is
    reset to the zero value when the string does not parse. *)
Definition decodeTokenData (fmt : string) (s : string) : M tokenData :=
  match json_Unmarshal_tokenData s with
  | Some d => ret d
  | None => exec log Info fmt then ret tokenData_zero
  end.

(** The struct literal [blockchain.Event{...}] that the three decoders
    share field for field. *)
Definition makeEvent (ft : FFTokens) (blockchainEvent : JSONObject)
    (blockchainID txHash : string) (blockchainInfo : JSONObject)
    (timestamp : FFTime) : blockchain.Event :=
  {| blockchain.ev_ProtocolID := blockchainID;
     blockchain.ev_BlockchainTXID := txHash;
     blockchain.ev_Source := Name ft ++ ":" ++ configuredName ft;
     blockchain.ev_Name := GetString blockchainEvent "name";
     blockchain.ev_Output := GetObject blockchainEvent "output";
     blockchain.ev_Location := GetString blockchainEvent "location";
     blockchain.ev_Signature := GetString blockchainEvent "signature";
     blockchain.ev_Info := blockchainInfo;
     blockchain.ev_Timestamp := Some timestamp |}.

(** The assignment [pool.Event = e]. *)
Definition setEvent (pool : tokens.TokenPool) (e : blockchain.Event)
  : tokens.TokenPool :=
  {| tokens.tp_Type := tokens.tp_Type pool;
     tokens.tp_PoolLocator := tokens.tp_PoolLocator pool;
     tokens.tp_TX := tokens.tp_TX pool;
     tokens.tp_Connector := tokens.tp_Connector pool;
     tokens.tp_Standard := tokens.tp_Standard pool;
     tokens.tp_Symbol := tokens.tp_Symbol pool;
     tokens.tp_Info := tokens.tp_Info pool;
     tokens.tp_Event := e |}.

Definition handleReceipt (ft : FFTokens) (data : JSONObject) : M unit :=
  let requestID := GetString data "id" in
  let success := GetBool data "success" in
  let message := GetString data "message" in
  let transactionHash := GetString data "transactionHash" in
  if emptyb requestID then
    log Error "Reply cannot be processed - missing fields: %+v"
  else
    match ParseUUID requestID with
    | None => log Error "Reply cannot be processed - bad ID: %+v"
    | Some opID =>
        let replyType := if negb success then OpStatusFailed else OpStatusSucceeded in
        exec log Info "Tokens '%s' reply: request=%s message=%s" then
        perform (fun _ => tt)
          (CallTokenOpUpdate opID replyType transactionHash message data)
    end.

Definition handleTokenPoolCreate (ft : FFTokens) (now : FFTime)
    (data : JSONObject) : M (option error) :=
  let tokenType := GetString data "type" in
  let poolLocator := GetString data "poolLocator" in
  let standard := GetString data "standard" in
  let symbol := GetString data "symbol" in
  let info := GetObject data "info" in
  let blockchainEvent := GetObject data "blockchain" in
  let blockchainID := GetString blockchainEvent "id" in
  let blockchainInfo := GetObject blockchainEvent "info" in
  let txHash := GetString blockchainInfo "transactionHash" in
  let timestampStr := GetString blockchainEvent "timestamp" in
  let timestamp := timestampOrNow now timestampStr in
  if emptyb tokenType || emptyb poolLocator then
    exec log Error "TokenPool event is not valid - missing data: %+v" then
    ret None
  else
    let poolDataString := GetString data "data" in
    let* poolData :=
      decodeTokenData
        "TokenPool event data could not be parsed - continuing anyway (%s): %+v"
        poolDataString in
    let txType :=
      if emptyb (td_TXType poolData) then TransactionTypeTokenPool
      else td_TXType poolData in
    let pool :=
      {| tokens.tp_Type := tokenType;
         tokens.tp_PoolLocator := poolLocator;
         tokens.tp_TX := {| tx_ID := td_TX poolData; tx_Type := txType |};
         tokens.tp_Connector := configuredName ft;
         tokens.tp_Standard := standard;
         tokens.tp_Symbol := symbol;
         tokens.tp_Info := info;
         tokens.tp_Event := blockchain.zero |} in
    let pool :=
      if negb (emptyb blockchainID) || negb (emptyb txHash) then
        setEvent pool
          (makeEvent ft blockchainEvent blockchainID txHash blockchainInfo timestamp)
      else pool in
    perform (fun h => TokenPoolCreated (callbacks ft) h pool)
      (CallTokenPoolCreated pool).

Definition handleTokenTransfer (ft : FFTokens) (now : FFTime)
    (t : TokenTransferType) (data : JSONObject) : M (option error) :=
  let subject := GetString data "subject" in
  let poolLocator := GetString data "poolLocator" in
  let signerAddress := GetString data "signer" in
  let fromAddress := GetString data "from" in
  let toAddress := GetString data "to" in
  let value := GetString data "amount" in
  let tokenIndex := GetString data "tokenIndex" in
  let uri := GetString data "uri" in
  let blockchainEvent := GetObject data "blockchain" in
  let blockchainID := GetString blockchainEvent "id" in
  let blockchainInfo := GetObject blockchainEvent "info" in
  let txHash := GetString blockchainInfo "transactionHash" in
  let timestampStr := GetString blockchainEvent "timestamp" in
  let timestamp := timestampOrNow now timestampStr in
  if emptyb subject ||
     emptyb poolLocator ||
     emptyb signerAddress ||
     emptyb value ||
     (negb (TokenTransferType_eqb t TokenTransferTypeMint) && emptyb fromAddress) ||
     (negb (TokenTransferType_eqb t TokenTransferTypeBurn) && emptyb toAddress)
  then
    exec log Error "%s event is not valid - missing data: %+v" then
    ret None
  else
    let transferDataString := GetString data "data" in
    let* transferData :=
      decodeTokenData
        "%s event data could not be parsed - continuing anyway (%s): %+v"
        transferDataString in
    match big_SetString10 value with
    | None =>
        exec log Error "%s event is not valid - invalid amount: %+v" then
        ret None
    | Some amount =>
        let txType :=
          if emptyb (td_TXType transferData) then TransactionTypeTokenTransfer
          else td_TXType transferData in
        let transfer :=
          {| tokens.tr_PoolLocator := poolLocator;
             tokens.tr_TokenTransfer :=
               {| tt_Type := t;
                  tt_TokenIndex := tokenIndex;
                  tt_URI := uri;
                  tt_Connector := configuredName ft;
                  tt_From := fromAddress;
                  tt_To := toAddress;
                  tt_Amount := amount;
                  tt_Subject := subject;
                  tt_Key := signerAddress;
                  tt_Message := td_Message transferData;
                  tt_MessageHash := td_MessageHash transferData;
                  tt_TX := {| tx_ID := td_TX transferData; tx_Type := txType |} |};
             tokens.tr_Event :=
               makeEvent ft blockchainEvent blockchainID txHash blockchainInfo
                 timestamp |} in
        perform (fun h => TokensTransferred (callbacks ft) h transfer)
          (CallTokensTransferred transfer)
    end.

Definition handleTokenApproval (ft : FFTokens) (now : FFTime)
    (data : JSONObject) : M (option error) :=
  let subject := GetString data "subject" in
  let signerAddress := GetString data "signer" in
  let poolLocator := GetString data "poolLocator" in
  let operatorAddress := GetString data "operator" in
  let approved := GetBool data "approved" in
  let blockchainEvent := GetObject data "blockchain" in
  let blockchainID := GetString blockchainEvent "id" in
  let blockchainInfo := GetObject blockchainEvent "info" in
  let txHash := GetString blockchainInfo "transactionHash" in
  let timestampStr := GetString blockchainEvent "timestamp" in
  let timestamp := timestampOrNow now timestampStr in
  if emptyb subject ||
     emptyb poolLocator ||
     emptyb signerAddress ||
     emptyb operatorAddress
  then
    exec log Error "Approval event is not valid - missing data: %+v" then
    ret None
  else
    let approvalDataString := GetString data "data" in
    let* transferData :=
      decodeTokenData
        "TokenApproval event data could not be parsed - continuing anyway (%s): %+v"
        approvalDataString in
    let txType :=
      if emptyb (td_TXType transferData) then TransactionTypeTokenApproval
      else td_TXType transferData in
    let approval :=
      {| tokens.apv_PoolLocator := poolLocator;
         tokens.apv_TokenApproval :=
           {| ta_Connector := configuredName ft;
              ta_Key := signerAddress;
              ta_Operator := operatorAddress;
              ta_Approved := approved;
              ta_Subject := subject;
              ta_Config := ∅;
              ta_TX := {| tx_ID := td_TX transferData; tx_Type := txType |} |};
         tokens.apv_Event :=
           makeEvent ft blockchainEvent blockchainID txHash blockchainInfo
             timestamp |} in
    perform (fun h => TokensApproved (callbacks ft) h approval)
      (CallTokensApproved approval).

(** One outcome of the [select] at the head of the loop: the context was
    cancelled, the receive channel was closed, or a frame arrived (at the
    time [now]). *)
Inductive selected :=
| CtxDone
| ReceiveClosed
| Received (now : FFTime) (msgBytes : string).

(** How a run over finitely many [select] outcomes ends: the loop has
    returned, or it is back at the [select], waiting. *)
Inductive loopState := Exited | Waiting.

(** The acknowledgement [{"event": "ack", "data": {"id": id}}]. *)
Definition ackFrame (id : string) : JSONObject :=
  <["event" := JStr "ack"]> (<["data" := JObj (<["id" := JStr id]> ∅)]> ∅).

(** The [switch msg.Event] of the event loop; the result is the value of
    [err] after it. *)
Definition dispatch (ft : FFTokens) (now : FFTime) (msg : wsEvent)
  : M (option error) :=
  if String.eqb (ws_Event msg) messageReceipt then
    exec handleReceipt ft (ws_Data msg) then ret None
  else if String.eqb (ws_Event msg) messageTokenPool then
    handleTokenPoolCreate ft now (ws_Data msg)
  else if String.eqb (ws_Event msg) messageTokenMint then
    handleTokenTransfer ft now TokenTransferTypeMint (ws_Data msg)
  else if String.eqb (ws_Event msg) messageTokenBurn then
    handleTokenTransfer ft now TokenTransferTypeBurn (ws_Data msg)
  else if String.eqb (ws_Event msg) messageTokenTransfer then
    handleTokenTransfer ft now TokenTransferTypeTransfer (ws_Data msg)
  else if String.eqb (ws_Event msg) messageTokenApproval then
    handleTokenApproval ft now (ws_Data msg)
  else
    exec log Error "Message unexpected: %s" then ret None.

(** The acknowledgement step that follows the [switch]. *)
Definition acknowledge (ft : FFTokens) (msg : wsEvent) (err : option error)
  : M (option error) :=
  if isNil err &&
     negb (String.eqb (ws_Event msg) messageReceipt) &&
     negb (emptyb (ws_ID msg))
  then
    exec log Debug "Sending ack %s" then
    let ack := json_Marshal_JSONObject (ackFrame (ws_ID msg)) in
    perform (fun h => Send (wsconn ft) h ack) (WSSend ack)
  else ret err.

(** [defer ft.wsconn.Close()], run at each [return] of the loop. *)
Definition closeAndExit : M loopState :=
  exec perform (fun _ => tt) WSClose then ret Exited.

Fixpoint eventLoop (ft : FFTokens) (inbound : list selected) : M loopState :=
  match inbound with
  | [] => ret Waiting
  | CtxDone :: _ =>
      exec log Debug "Event loop exiting (context cancelled)" then
      closeAndExit
  | ReceiveClosed :: _ =>
      exec log Debug "Event loop exiting (receive channel closed)" then
      closeAndExit
  | Received now msgBytes :: rest =>
      match json_Unmarshal_wsEvent msgBytes with
      | None =>
          exec log Error "Message cannot be parsed as JSON: %s\n%s" then
          eventLoop ft rest
      | Some msg =>
          exec log Debug "Received %s event %s" then
          let* err := dispatch ft now msg in
          let* err := acknowledge ft msg err in
          match err with
          | Some _ =>
              exec log Error "Event loop exiting: %s" then
              closeAndExit
          | None => eventLoop ft rest
          end
      end
  end.

(** [ft.client.R().SetContext(ctx).SetBody(body).Post(path)] *)
Definition post (ft : FFTokens) (path : string) (body : RequestBody)
  : M Response :=
  perform (fun h => Post (client ft) h path body) (HTTPPost path body).

(** [err != nil || !res.IsSuccess()] *)
Definition restFailed (res : Response) : bool :=
  match res_err res with
  | Some _ => true
  | None => negb (IsSuccess res)
  end.

(** The synchronous branch shared by [CreateTokenPool] and
    [ActivateTokenPool]: everything after the request was made. *)
Definition poolResponse (ft : FFTokens) (now : FFTime) (res : Response)
  : M (bool * option error) :=
  if restFailed res then
    ret (false, Some (TokensRESTErr res))
  else if res_StatusCode res =? 200 then
    match json_Unmarshal_JSONObject (res_Body res) with
    | None => ret (false, Some (JSONObjectParseFailed (res_Body res)))
    | Some obj =>
        let* err := handleTokenPoolCreate ft now obj in
        ret (true, err)
    end
  else ret (false, None).

Definition CreateTokenPool (ft : FFTokens) (now : FFTime)
    (opID : option UUID) (pool : fftypes.TokenPool) : M (bool * option error) :=
  let data :=
    json_Marshal_tokenData
      {| td_TX := tx_ID (pool_TX pool);
         td_TXType := tx_Type (pool_TX pool);
         td_Message := None;
         td_MessageHash := None |} in
  let* res :=
    post ft "/api/v1/createpool"
      (BodyCreatePool
         {| cp_Type := pool_Type pool;
            cp_RequestID := UUID_String opID;
            cp_Signer := pool_Key pool;
            cp_Data := data;
            cp_Config := pool_Config pool;
            cp_Name := pool_Name pool;
            cp_Symbol := pool_Symbol pool |}) in
  poolResponse ft now res.

Definition ActivateTokenPool (ft : FFTokens) (now : FFTime)
    (opID : option UUID) (pool : fftypes.TokenPool) : M (bool * option error) :=
  let* res :=
    post ft "/api/v1/activatepool"
      (BodyActivatePool
         {| ap_RequestID := UUID_String opID;
            ap_PoolLocator := pool_Locator pool;
            ap_Config := pool_Config pool |}) in
  poolResponse ft now res.

(** The end of the four fire-and-forget operations. *)
Definition submitResponse (res : Response) : option error :=
  if restFailed res then Some (TokensRESTErr res) else None.

(** The [tokenData] the three transfer operations serialize. *)
Definition transferTokenData (t : fftypes.TokenTransfer) : tokenData :=
  {| td_TX := tx_ID (tt_TX t);
     td_TXType := tx_Type (tt_TX t);
     td_Message := tt_Message t;
     td_MessageHash := tt_MessageHash t |}.

Definition MintTokens (ft : FFTokens) (opID : option UUID)
    (poolLocator : string) (mint : fftypes.TokenTransfer) : M (option error) :=
  let data := json_Marshal_tokenData (transferTokenData mint) in
  let* res :=
    post ft "/api/v1/mint"
      (BodyMintTokens
         {| mt_PoolLocator := poolLocator;
            mt_TokenIndex := tt_TokenIndex mint;
            mt_To := tt_To mint;
            mt_Amount := big_String (tt_Amount mint);
            mt_RequestID := UUID_String opID;
            mt_Signer := tt_Key mint;
            mt_Data := data |}) in
  ret (submitResponse res).

Definition BurnTokens (ft : FFTokens) (opID : option UUID)
    (poolLocator : string) (burn : fftypes.TokenTransfer) : M (option error) :=
  let data := json_Marshal_tokenData (transferTokenData burn) in
  let* res :=
    post ft "/api/v1/burn"
      (BodyBurnTokens
         {| bt_PoolLocator := poolLocator;
            bt_TokenIndex := tt_TokenIndex burn;
            bt_From := tt_From burn;
            bt_Amount := big_String (tt_Amount burn);
            bt_RequestID := UUID_String opID;
            bt_Signer := tt_Key burn;
            bt_Data := data |}) in
  ret (submitResponse res).

Definition TransferTokens (ft : FFTokens) (opID : option UUID)
    (poolLocator : string) (transfer : fftypes.TokenTransfer)
  : M (option error) :=
  let data := json_Marshal_tokenData (transferTokenData transfer) in
  let* res :=
    post ft "/api/v1/transfer"
      (BodyTransferTokens
         {| xt_PoolLocator := poolLocator;
            xt_TokenIndex := tt_TokenIndex transfer;
            xt_From := tt_From transfer;
            xt_To := tt_To transfer;
            xt_Amount := big_String (tt_Amount transfer);
            xt_RequestID := UUID_String opID;
            xt_Signer := tt_Key transfer;
            xt_Data := data |}) in
  ret (submitResponse res).

Definition TokensApproval (ft : FFTokens) (opID : option UUID)
    (poolLocator : string) (approval : fftypes.TokenApproval)
  : M (option error) :=
  let data :=
    json_Marshal_tokenData
      {| td_TX := tx_ID (ta_TX approval);
         td_TXType := tx_Type (ta_TX approval);
         td_Message := None;
         td_MessageHash := None |} in
  let* res :=
    post ft "/api/v1/approval"
      (BodyTokenApproval
         {| tap_PoolLocator := poolLocator;
            tap_Signer := ta_Key approval;
            tap_Operator := ta_Operator approval;
            tap_Approved := ta_Approved approval;
            tap_RequestID := UUID_String opID;
            tap_Data := data;
            tap_Config := ta_Config approval |}) in
  ret (submitResponse res).

End Plugin.

(* ================================================================== *)
(** ** An executable platform                                          *)
(* ================================================================== *)

(** A small instance of [Platform] on which the plugin can be run: UUIDs in
    their canonical 36-character form, decimal integers, and JSON texts
    made of [null], booleans, integers, strings (with the escapes of the
    quote and of the backslash), arrays and objects.  It serves to evaluate
    the plugin on concrete frames; the theorems below hold for every
    platform. *)
Module Reference.

Definition quote : ascii := ascii_of_nat 34.
Definition backslash : ascii := ascii_of_nat 92.

(** *** Decimal integers *)

Definition digitVal (c : ascii) : option Z :=
  let n := nat_of_ascii c in
  if Nat.leb 48 n && Nat.leb n 57 then Some (Z.of_nat (n - 48)) else None.

Fixpoint parseDigits (acc : Z) (s : string) : option Z :=
  match s with
  | EmptyString => Some acc
  | String c r =>
      match digitVal c with
      | Some d => parseDigits (10 * acc + d) r
      | None => None
      end
  end.

Definition parseUnsigned (s : string) : option Z :=
  if emptyb s then None else parseDigits 0 s.

Definition SetString10 (s : string) : option Z :=
  match s with
  | String "-" r => option_map Z.opp (parseUnsigned r)
  | String "+" r => parseUnsigned r
  | _ => parseUnsigned s
  end.

Definition digitChar (d : Z) : ascii := ascii_of_nat (48 + Z.to_nat d).

Fixpoint printDigits (fuel : nat) (n : Z) (acc : string) : string :=
  match fuel with
  | O => acc
  | S f =>
      let acc' := String (digitChar (n mod 10)) acc in
      if n / 10 =? 0 then acc' else printDigits f (n / 10) acc'
  end.

Definition printDecimal (n : Z) : string :=
  if n <? 0 then String "-" (printDigits (Z.to_nat (- n)) (- n) "")
  else printDigits (S (Z.to_nat n)) n "".

(** *** Hexadecimal identifiers *)

Definition hexVal (c : ascii) : option N :=
  let n := nat_of_ascii c in
  if Nat.leb 48 n && Nat.leb n 57 then Some (N.of_nat (n - 48))
  else if Nat.leb 97 n && Nat.leb n 102 then Some (N.of_nat (n - 87))
  else if Nat.leb 65 n && Nat.leb n 70 then Some (N.of_nat (n - 55))
  else None.

Fixpoint parseHex (acc : N) (s : string) : option N :=
  match s with
  | EmptyString => Some acc
  | String c r =>
      match hexVal c with
      | Some d => parseHex (16 * acc + d)%N r
      | None => None
      end
  end.

Definition hexChar (d : N) : ascii :=
  match String.get (N.to_nat d) "0123456789abcdef" with
  | Some c => c
  | None => "0"%char
  end.

(** The [digits] lowest hexadecimal digits of [u], highest first. *)
Fixpoint printHex (digits : nat) (u : N) : string :=
  match digits with
  | O => EmptyString
  | S d =>
      String (hexChar (N.land (N.shiftr u (4 * N.of_nat d)) 15)) (printHex d u)
  end.

Definition uuidString (u : option UUID) : string :=
  match u with
  | None => EmptyString
  | Some u =>
      let h := printHex 32 u in
      substring 0 8 h ++ "-" ++ substring 8 4 h ++ "-" ++ substring 12 4 h
        ++ "-" ++ substring 16 4 h ++ "-" ++ substring 20 12 h
  end.

Definition parseUUID (s : string) : option UUID :=
  if Nat.eqb (String.length s) 36
     && String.eqb (substring 8 1 s) "-" && String.eqb (substring 13 1 s) "-"
     && String.eqb (substring 18 1 s) "-" && String.eqb (substring 23 1 s) "-"
  then
    parseHex 0%N
      (substring 0 8 s ++ substring 9 4 s ++ substring 14 4 s
         ++ substring 19 4 s ++ substring 24 12 s)
  else None.

Definition parseBytes32 (s : string) : option Bytes32 :=
  if Nat.eqb (String.length s) 64 then parseHex 0%N s else None.

(** *** JSON texts *)

Fixpoint skipWS (s : string) : string :=
  match s with
  | String " " r => skipWS r
  | _ => s
  end.

(** The characters of a string literal after its opening quote, and what
    follows the closing quote. *)
Fixpoint parseChars (s : string) : option (string * string) :=
  match s with
  | EmptyString => None
  | String c r =>
      if Ascii.eqb c quote then Some (EmptyString, r)
      else if Ascii.eqb c backslash then
        match r with
        | String e r' =>
            if Ascii.eqb e quote || Ascii.eqb e backslash then
              match parseChars r' with
              | Some (str, rest) => Some (String e str, rest)
              | None => None
              end
            else None
        | EmptyString => None
        end
      else
        match parseChars r with
        | Some (str, rest) => Some (String c str, rest)
        | None => None
        end
  end.

Fixpoint spanDigits (s : string) : string * string :=
  match s with
  | String c r =>
      match digitVal c with
      | Some _ => let (d, rest) := spanDigits r in (String c d, rest)
      | None => (EmptyString, s)
      end
  | EmptyString => (EmptyString, EmptyString)
  end.

Definition stripPrefix (p s : string) : option string :=
  if String.prefix p s
  then Some (substring (String.length p) (String.length s - String.length p) s)
  else None.

Definition parseNumber (s : string) : option (JSON * string) :=
  let (sign, body) :=
    match s with
    | String "-" r => (-1, r)
    | _ => (1, s)
    end in
  let (d, rest) := spanDigits body in
  match parseUnsigned d with
  | Some n => Some (JNum (sign * n), rest)
  | None => None
  end.

Fixpoint parseValue (fuel : nat) (s : string) : option (JSON * string) :=
  match fuel with
  | O => None
  | S f =>
      match skipWS s with
      | EmptyString => None
      | String c r =>
          if Ascii.eqb c quote then
            match parseChars r with
            | Some (str, rest) => Some (JStr str, rest)
            | None => None
            end
          else if Ascii.eqb c "{" then
            match skipWS r with
            | String "}" rest => Some (JObj ∅, rest)
            | r' => parseMembers f ∅ r'
            end
          else if Ascii.eqb c "[" then
            match skipWS r with
            | String "]" rest => Some (JArr [], rest)
            | r' => parseElements f [] r'
            end
          else
            match stripPrefix "null" (String c r) with
            | Some rest => Some (JNull, rest)
            | None =>
            match stripPrefix "true" (String c r) with
            | Some rest => Some (JBool true, rest)
            | None =>
            match stripPrefix "false" (String c r) with
            | Some rest => Some (JBool false, rest)
            | None => parseNumber (String c r)
            end end end
      end
  end

with parseMembers (fuel : nat) (acc : JSONObject) (s : string)
  : option (JSON * string) :=
  match fuel with
  | O => None
  | S f =>
      match skipWS s with
      | String c r =>
          if Ascii.eqb c quote then
            match parseChars r with
            | Some (key, rest) =>
                match skipWS rest with
                | String ":" rest' =>
                    match parseValue f rest' with
                    | Some (v, rest'') =>
                        match skipWS rest'' with
                        | String "," more => parseMembers f (<[key := v]> acc) more
                        | String "}" more => Some (JObj (<[key := v]> acc), more)
                        | _ => None
                        end
                    | None => None
                    end
                | _ => None
                end
            | None => None
            end
          else None
      | EmptyString => None
      end
  end

with parseElements (fuel : nat) (acc : list JSON) (s : string)
  : option (JSON * string) :=
  match fuel with
  | O => None
  | S f =>
      match parseValue f s with
      | Some (v, rest) =>
          match skipWS rest with
          | String "," more => parseElements f (acc ++ [v]) more
          | String "]" more => Some (JArr (acc ++ [v]), more)
          | _ => None
          end
      | None => None
      end
  end.

(** A whole text: one value and nothing but blanks after it. *)
Definition parseJSON (s : string) : option JSON :=
  match parseValue (S (String.length s)) s with
  | Some (v, rest) => if emptyb (skipWS rest) then Some v else None
  | None => None
  end.

(** Decoding into a struct field: an absent member and [null] leave the
    zero value, a member of another JSON type is an error. *)
Definition fieldString (m : JSONObject) (k : string) : option string :=
  match m !! k with
  | None | Some JNull => Some EmptyString
  | Some (JStr s) => Some s
  | Some _ => None
  end.

Definition fieldObject (m : JSONObject) (k : string) : option JSONObject :=
  match m !! k with
  | None | Some JNull => Some ∅
  | Some (JObj o) => Some o
  | Some _ => None
  end.

Definition fieldPointer {A} (parse : string -> option A) (m : JSONObject)
    (k : string) : option (option A) :=
  match m !! k with
  | None | Some JNull => Some None
  | Some (JStr s) => option_map Some (parse s)
  | Some _ => None
  end.

Definition unmarshalJSONObject (s : string) : option JSONObject :=
  match parseJSON s with
  | Some (JObj m) => Some m
  | Some JNull => Some ∅
  | _ => None
  end.

Definition unmarshalWsEvent (s : string) : option wsEvent :=
  m ← unmarshalJSONObject s;
  event ← fieldString m "event";
  id ← fieldString m "id";
  data ← fieldObject m "data";
  Some {| ws_Event := event; ws_ID := id; ws_Data := data |}.

Definition unmarshalTokenData (s : string) : option tokenData :=
  m ← unmarshalJSONObject s;
  tx ← fieldPointer parseUUID m "tx";
  txtype ← fieldString m "txtype";
  message ← fieldPointer parseUUID m "message";
  messageHash ← fieldPointer parseBytes32 m "messageHash";
  Some {| td_TX := tx; td_TXType := txtype; td_Message := message;
          td_MessageHash := messageHash |}.

Fixpoint escape (s : string) : string :=
  match s with
  | EmptyString => EmptyString
  | String c r =>
      if Ascii.eqb c quote || Ascii.eqb c backslash
      then String backslash (String c (escape r))
      else String c (escape r)
  end.

Definition printString (s : string) : string :=
  String quote (escape s ++ String quote EmptyString).

Definition printMember (k : string) (v : string) : string :=
  printString k ++ ":" ++ v.

(** An object whose members are all strings, in the order given. *)
Definition printObject (members : list (string * string)) : string :=
  "{" ++
  String.concat ","
    (map (fun kv => printMember (fst kv) (printString (snd kv))) members)
  ++ "}".

(** The members of a [tokenData]; those tagged [omitempty] are left out
    when nil or empty. *)
Definition tokenDataMembers (td : tokenData) : list (string * string) :=
  (match td_TX td with
   | Some u => [("tx", uuidString (Some u))]
   | None => []
   end ++
   (if emptyb (td_TXType td) then [] else [("txtype", td_TXType td)]) ++
   match td_Message td with
   | Some u => [("message", uuidString (Some u))]
   | None => []
   end ++
   match td_MessageHash td with
   | Some h => [("messageHash", printHex 64 h)]
   | None => []
   end)%list.

Definition marshalTokenData (td : tokenData) : string :=
  printObject (tokenDataMembers td).

Fixpoint insertMember (kv : string * string) (l : list (string * string))
  : list (string * string) :=
  match l with
  | [] => [kv]
  | kv' :: l' =>
      if String.leb (fst kv) (fst kv') then kv :: l
      else kv' :: insertMember kv l'
  end.

(** Go writes the members of a map in the order of their keys. *)
Definition sortMembers (l : list (string * string)) : list (string * string) :=
  fold_right insertMember [] l.

Fixpoint printJSON (fuel : nat) (v : JSON) : string :=
  match fuel with
  | O => EmptyString
  | S f =>
      match v with
      | JNull => "null"
      | JBool true => "true"
      | JBool false => "false"
      | JNum n => printDecimal n
      | JStr s => printString s
      | JArr l => "[" ++ String.concat "," (map (printJSON f) l) ++ "]"
      | JObj m =>
          "{" ++
          String.concat ","
            (map (fun kv => printMember (fst kv) (snd kv))
               (sortMembers
                  (map (fun kv => (fst kv, printJSON f (snd kv)))
                     (map_to_list m))))
          ++ "}"
      end
  end.

Definition marshalJSONObject (m : JSONObject) : string :=
  printJSON 64 (JObj m).

(** The object that [parseMembers] builds from members that are all
    strings, starting from [acc]. *)
Definition membersObject (members : list (string * string)) (acc : JSONObject)
  : JSONObject :=
  fold_left (fun o kv => <[fst kv := JStr (snd kv)]> o) members acc.

(** The values a [tokenData] can hold: identifiers of 128 bits, a hash of
    256 bits. *)
Definition tokenData_valid (td : tokenData) : Prop :=
  (forall u, td_TX td = Some u -> (u < 2 ^ 128)%N) /\
  (forall u, td_Message td = Some u -> (u < 2 ^ 128)%N) /\
  (forall h, td_MessageHash td = Some h -> (h < 2 ^ 256)%N).

Definition platform : Platform :=
  {| ParseUUID := parseUUID;
     UUID_String := uuidString;
     ParseTimeString := parseUnsigned;
     TransactionTypeTokenPool := "token_pool";
     TransactionTypeTokenTransfer := "token_transfer";
     TransactionTypeTokenApproval := "token_approval";
     big_SetString10 := SetString10;
     big_String := printDecimal;
     json_Marshal_tokenData := marshalTokenData;
     json_Unmarshal_tokenData := unmarshalTokenData;
     json_Marshal_JSONObject := marshalJSONObject;
     json_Unmarshal_JSONObject := unmarshalJSONObject;
     json_Unmarshal_wsEvent := unmarshalWsEvent |}.

End Reference.

(* ================================================================== *)
(** ** Vocabulary of the properties                                    *)
(* ================================================================== *)

(** The world after more log lines, and after more calls. *)
Definition logged (w : World) (lines : list LogLine) : World :=
  {| calls := calls w; logs := logs w ++ lines |}.

Definition called (w : World) (acts : list Action) : World :=
  {| calls := calls w ++ acts; logs := logs w |}.

(** The calls made between two worlds of one run. *)
Definition callsSince (w w' : World) : list Action :=
  drop (List.length (calls w)) (calls w').

(** The frames sent on the websocket among some calls. *)
Definition sentFrames (acts : list Action) : list string :=
  omap (fun a => match a with WSSend f => Some f | _ => None end) acts.

(** The calls that are callbacks of the node. *)
Definition isCallback (a : Action) : bool :=
  match a with
  | CallTokenOpUpdate _ _ _ _ _
  | CallTokenPoolCreated _
  | CallTokensTransferred _
  | CallTokensApproved _ => true
  | _ => false
  end.

(** What the node answered to a callback made after the history [h]. *)
Definition callbackAnswer (ft : FFTokens) (h : list Action) (a : Action)
  : option error :=
  match a with
  | CallTokenPoolCreated pool => TokenPoolCreated (callbacks ft) h pool
  | CallTokensTransferred transfer => TokensTransferred (callbacks ft) h transfer
  | CallTokensApproved approval => TokensApproved (callbacks ft) h approval
  | _ => None
  end.

(** The world in which the [switch] of the event loop starts. *)
Definition afterReceive (w : World) : World :=
  logged w [(Debug, "Received %s event %s")].

(** The event kinds decoded as transfers, with the kind each stands for. *)
Definition transferKind (e : msgType) : option TokenTransferType :=
  if String.eqb e messageTokenMint then Some TokenTransferTypeMint
  else if String.eqb e messageTokenBurn then Some TokenTransferTypeBurn
  else if String.eqb e messageTokenTransfer then Some TokenTransferTypeTransfer
  else None.

(** The required fields of a transfer payload of kind [t]. *)
Definition transferFieldsPresent (t : TokenTransferType) (data : JSONObject)
  : Prop :=
  GetString data "subject" <> "" /\
  GetString data "poolLocator" <> "" /\
  GetString data "signer" <> "" /\
  GetString data "amount" <> "" /\
  (t <> TokenTransferTypeMint -> GetString data "from" <> "") /\
  (t <> TokenTransferTypeBurn -> GetString data "to" <> "").

(** The required fields of an approval payload. *)
Definition approvalFieldsPresent (data : JSONObject) : Prop :=
  GetString data "subject" <> "" /\
  GetString data "poolLocator" <> "" /\
  GetString data "signer" <> "" /\
  GetString data "operator" <> "".

(** The world in which the loop returns after an error. *)
Definition exited (w : World) : World :=
  called (logged w [(Error, "Event loop exiting: %s")]) [WSClose].

(** The event a decoder builds from the nested "blockchain" object. *)
Definition payloadEvent {P : Platform} (ft : FFTokens) (now : FFTime) (data : JSONObject)
  : blockchain.Event :=
  makeEvent ft (GetObject data "blockchain")
    (GetString (GetObject data "blockchain") "id")
    (GetString (GetObject (GetObject data "blockchain") "info")
       "transactionHash")
    (GetObject (GetObject data "blockchain") "info")
    (timestampOrNow now (GetString (GetObject data "blockchain") "timestamp")).

(** The transaction reference a decoder reads from the opaque data. *)
Definition payloadTX {P : Platform} (default : TransactionType) (data : JSONObject)
  : TransactionRef :=
  match json_Unmarshal_tokenData (GetString data "data") with
  | Some d =>
      {| tx_ID := td_TX d;
         tx_Type := if emptyb (td_TXType d) then default else td_TXType d |}
  | None => {| tx_ID := None; tx_Type := default |}
  end.

(** A request that failed in transit or was answered outside the 2xx
    range. *)
Definition transportFailure (res : Response) : Prop :=
  res_err res <> None \/ ~ (200 <= res_StatusCode res <= 299).

(* ================================================================== *)
(** ** Concrete frames and collaborators                               *)
(* ================================================================== *)

Module Examples.

(** A node that accepts every record, and one whose storage is down. *)
Definition nodeAccepting : Callbacks :=
  {| TokenPoolCreated := fun _ _ => None;
     TokensTransferred := fun _ _ => None;
     TokensApproved := fun _ _ => None |}.

Definition nodeRefusing : Callbacks :=
  {| TokenPoolCreated := fun _ _ => Some (CollaboratorErr "storage down");
     TokensTransferred := fun _ _ => Some (CollaboratorErr "storage down");
     TokensApproved := fun _ _ => Some (CollaboratorErr "storage down") |}.

(** A websocket that takes every frame, and one that has gone away. *)
Definition socketUp : WSClient := {| Send := fun _ _ => None |}.

Definition socketDown : WSClient :=
  {| Send := fun _ _ => Some (CollaboratorErr "connection reset") |}.

(** A connector that answers every request with one status and body. *)
Definition connector (status : Z) (body : string) : RestClient :=
  {| Post := fun _ _ _ =>
       {| res_err := None; res_StatusCode := status; res_Body := body |} |}.

Definition plugin (node : Callbacks) (socket : WSClient) (rest : RestClient)
  : FFTokens :=
  {| callbacks := node; configuredName := "erc1155"; client := rest;
     wsconn := socket |}.

Definition ft : FFTokens := plugin nodeAccepting socketUp (connector 202 "").

Definition start : World := {| calls := []; logs := [] |}.

Definition object (members : list (string * JSON)) : JSONObject :=
  list_to_map members.

(** The text of a frame, as the connector would write it. *)
Definition frame (event id : string) (data : JSONObject) : string :=
  Reference.marshalJSONObject
    (object [("event", JStr event); ("id", JStr id); ("data", JObj data)]).

Definition opID : UUID := 0x6b5c6e1e4f2a4d7c9b1e3a5d7f9e1c2b%N.

Definition mintPayload : JSONObject :=
  object [("subject", JStr "0x5:12:3"); ("poolLocator", JStr "pool1");
          ("signer", JStr "0x01"); ("to", JStr "0x02");
          ("amount", JStr "100")].

Definition mintWithoutTo : JSONObject :=
  object [("subject", JStr "0x5:12:3"); ("poolLocator", JStr "pool1");
          ("signer", JStr "0x01"); ("amount", JStr "100")].

Definition mintBadAmount : JSONObject :=
  object [("subject", JStr "0x5:12:3"); ("poolLocator", JStr "pool1");
          ("signer", JStr "0x01"); ("to", JStr "0x02");
          ("amount", JStr "12x")].

Definition poolPayload : JSONObject :=
  object [("type", JStr "fungible"); ("poolLocator", JStr "pool1")].

(** A pool payload whose "blockchain" object is there, with a name and
    nothing else. *)
Definition poolWithBareBlockchain : JSONObject :=
  object [("type", JStr "fungible"); ("poolLocator", JStr "pool1");
          ("blockchain", JObj (object [("name", JStr "TokenPoolCreation")]))].

Definition poolWithoutLocator : JSONObject :=
  object [("type", JStr "fungible")].

(** An approval payload with no "approved" member. *)
Definition approvalPayload : JSONObject :=
  object [("subject", JStr "0x5:12:4"); ("poolLocator", JStr "pool1");
          ("signer", JStr "0x01"); ("operator", JStr "0x03")].

Definition receiptPayload : JSONObject :=
  object [("id", JStr (Reference.uuidString (Some opID)));
          ("success", JBool true); ("transactionHash", JStr "0xabc")].

Definition receiptWithBadID : JSONObject :=
  object [("id", JStr "r1"); ("success", JBool true)].

(** A pool whose transaction has a kind, and one whose transaction has
    none. *)
Definition poolToCreate (kind : TransactionType) : fftypes.TokenPool :=
  {| pool_Type := "fungible"; pool_Locator := ""; pool_Name := "coins";
     pool_Symbol := "C"; pool_Key := "0x01"; pool_Config := ∅;
     pool_TX := {| tx_ID := Some opID; tx_Type := kind |} |}.




Definition aTransfer : fftypes.TokenTransfer :=
  {| tt_Type := TokenTransferTypeMint; tt_TokenIndex := ""; tt_URI := "";
     tt_Connector := "erc1155"; tt_From := ""; tt_To := "0x02";
     tt_Amount := 100; tt_Subject := ""; tt_Key := "0x01";
     tt_Message := None; tt_MessageHash := None;
     tt_TX := {| tx_ID := Some opID; tx_Type := "token_transfer" |} |}.

Definition anApproval : fftypes.TokenApproval :=
  {| ta_Connector := "erc1155"; ta_Key := "0x01"; ta_Operator := "0x03";
     ta_Approved := true; ta_Subject := ""; ta_Config := ∅;
     ta_TX := {| tx_ID := Some opID; tx_Type := "token_approval" |} |}.

(** The pool frame numbered 7, its text and its envelope. *)
Definition poolFrame : string := frame "token-pool" "7" poolPayload.

Definition poolEnvelope : wsEvent :=
  {| ws_Event := "token-pool"; ws_ID := "7"; ws_Data := poolPayload |}.

Definition receiptFrame : string := frame "receipt" "r1" receiptPayload.

Definition receiptEnvelope : wsEvent :=
  {| ws_Event := "receipt"; ws_ID := "r1"; ws_Data := receiptPayload |}.

(** The plugin in front of a node that refuses, and in front of a socket
    that is down. *)
Definition ftRefused : FFTokens := plugin nodeRefusing socketUp (connector 202 "").

Definition ftCutOff : FFTokens := plugin nodeAccepting socketDown (connector 202 "").

(** The plugin in front of a connector that answers 200 with a pool, and
    one that answers 200 with a body that is not JSON. *)
Definition ftSynchronous : FFTokens :=
  plugin nodeAccepting socketUp
    (connector 200 (Reference.marshalJSONObject poolPayload)).

Definition ftGarbled : FFTokens :=
  plugin nodeAccepting socketUp (connector 200 "OK").

(** A word between double quotes, and the text of the acknowledgement of
    the frame with a given identifier, character by character. *)
Definition quoted (s : string) : string :=
  String Reference.quote (s ++ String Reference.quote "").

Definition ackText (id : string) : string :=
  "{" ++ quoted "data" ++ ":{" ++ quoted "id" ++ ":" ++ quoted id ++ "},"
  ++ quoted "event" ++ ":" ++ quoted "ack" ++ "}".

End Examples.

(* ================================================================== *)
(** ** Initialisation of the plugin                                    *)
(* ================================================================== *)

(** The interface [config.Prefix], as far as [Init] reads it. *)
Record Prefix := {
  prefix_GetString : string -> string;
}.

(** [wsclient.WSConfig]: the path, which [Init] may set, and the other
    settings, which it hands on as they come. *)
Record WSConfig := {
  WSKeyPath : string;
  WSSettings : list (string * string);
}.

(** [tokens.Capabilities], a struct without content in this version. *)
Inductive Capabilities := NoCapabilities.

(** The constructors that [Init] calls and that live in other packages:
    the key [ffresty.HTTPConfigURL], [ffresty.New],
    [wsconfig.GenerateConfigFromPrefix] and [wsclient.New], which gives a
    client and an error as Go functions do. *)
Class Wiring := {
  HTTPConfigURL : string;
  ffresty_New : Prefix -> RestClient;
  GenerateConfigFromPrefix : Prefix -> WSConfig;
  wsclient_New : WSConfig -> option WSClient * option error;
}.

(** What [Init] can return: the error it makes itself
    ([MsgMissingPluginConfig] with its two arguments), or the error of
    [wsclient.New] as it came. *)
Inductive InitError :=
| MissingPluginConfig (key plugin : string)
| WSClientError (e : error).

(** The struct [FFTokens] while it is being filled: a field not assigned
    yet is nil. *)
Record Fields := {
  f_callbacks : option Callbacks;
  f_configuredName : string;
  f_client : option RestClient;
  f_capabilities : option Capabilities;
  f_wsconn : option WSClient;
}.

(** The outcome of [Init]: the struct as it was left, the configuration
    [wsclient.New] was called with (if it was called), whether
    [go ft.eventLoop()] was reached, and the error returned. *)
Record Initialised := {
  init_fields : Fields;
  init_wsConfig : option WSConfig;
  init_eventLoop : bool;
  init_err : option InitError;
}.

Definition Init {W : Wiring} (name : string) (prefix : Prefix)
    (callbacks : Callbacks) : Initialised :=
  if emptyb (prefix_GetString prefix HTTPConfigURL) then
    {| init_fields :=
         {| f_callbacks := Some callbacks; f_configuredName := name;
            f_client := None; f_capabilities := None; f_wsconn := None |};
       init_wsConfig := None;
       init_eventLoop := false;
       init_err := Some (MissingPluginConfig "url" "tokens.fftokens") |}
  else
    let client := ffresty_New prefix in
    let wsConfig := GenerateConfigFromPrefix prefix in
    let wsConfig :=
      if emptyb (WSKeyPath wsConfig)
      then {| WSKeyPath := "/api/ws"; WSSettings := WSSettings wsConfig |}
      else wsConfig in
    let (wsconn, err) := wsclient_New wsConfig in
    let fields :=
      {| f_callbacks := Some callbacks; f_configuredName := name;
         f_client := Some client; f_capabilities := Some NoCapabilities;
         f_wsconn := wsconn |} in
    match err with
    | Some e =>
        {| init_fields := fields; init_wsConfig := Some wsConfig;
           init_eventLoop := false; init_err := Some (WSClientError e) |}
    | None =>
        {| init_fields := fields; init_wsConfig := Some wsConfig;
           init_eventLoop := true; init_err := None |}
    end.

(** The plugin once every field the operations use is there. *)
Definition ready (f : Fields) : option FFTokens :=
  match f_callbacks f, f_client f, f_wsconn f with
  | Some cb, Some cl, Some ws =>
      Some {| callbacks := cb; configuredName := f_configuredName f;
              client := cl; wsconn := ws |}
  | _, _, _ => None
  end.

(* ================================================================== *)
(** ** Vocabulary of whole runs                                        *)
(* ================================================================== *)

(** A frame that is acknowledged when its handler returns no error. *)
Definition eligible (msg : wsEvent) : bool :=
  negb (String.eqb (ws_Event msg) messageReceipt) && negb (emptyb (ws_ID msg)).

(** The acknowledgement of a frame, as sent. *)
Definition ackOf {P : Platform} (msg : wsEvent) : string :=
  json_Marshal_JSONObject (ackFrame (ws_ID msg)).

(** The envelopes of the frames that arrive and parse, in order. *)
Definition parsedFrames {P : Platform} (inbound : list selected)
  : list wsEvent :=
  omap (fun s => match s with
                 | Received _ msgBytes => json_Unmarshal_wsEvent msgBytes
                 | _ => None
                 end) inbound.

(** The acknowledgements due for what arrives, in order. *)
Definition acksDue {P : Platform} (inbound : list selected) : list string :=
  map ackOf (List.filter eligible (parsedFrames inbound)).

(** Nothing but frames arrives. *)
Definition framesOnly (inbound : list selected) : Prop :=
  Forall (fun s => match s with Received _ _ => True | _ => False end) inbound.

(** Collaborators that never fail. *)
Definition healthy (ft : FFTokens) : Prop :=
  (forall h pool, TokenPoolCreated (callbacks ft) h pool = None) /\
  (forall h transfer, TokensTransferred (callbacks ft) h transfer = None) /\
  (forall h approval, TokensApproved (callbacks ft) h approval = None) /\
  (forall h frame, Send (wsconn ft) h frame = None).

(** The event kinds the [switch] of the loop knows. *)
Definition knownKind (e : msgType) : bool :=
  String.eqb e messageReceipt || String.eqb e messageTokenPool
  || String.eqb e messageTokenMint || String.eqb e messageTokenBurn
  || String.eqb e messageTokenTransfer || String.eqb e messageTokenApproval.

(** A computation whose result and calls do not depend on the log. *)
Definition logBlind {A} (m : M A) : Prop :=
  forall w1 w2,
    calls w1 = calls w2 ->
    fst (m w1) = fst (m w2) /\ calls (snd (m w1)) = calls (snd (m w2)).

(* ================================================================== *)
(** ** Vocabulary of commands and their confirmations                  *)
(* ================================================================== *)

(** The [tokenData] a decoder works with: what the "data" string of the
    payload holds, or the zero value when it does not parse. *)
Definition payloadData {P : Platform} (data : JSONObject) : tokenData :=
  match json_Unmarshal_tokenData (GetString data "data") with
  | Some d => d
  | None => tokenData_zero
  end.

(** What a connector is asked to move: the fields of a mint, burn or
    transfer request, whichever it is.  A mint request has no "from", a
    burn request no "to". *)
Record Requested := {
  rq_Type : TokenTransferType;
  rq_PoolLocator : string;
  rq_TokenIndex : string;
  rq_From : string;
  rq_To : string;
  rq_Amount : string;
  rq_Signer : string;
  rq_Data : string;
}.

Definition requested (body : RequestBody) : option Requested :=
  match body with
  | BodyMintTokens b =>
      Some {| rq_Type := TokenTransferTypeMint;
              rq_PoolLocator := mt_PoolLocator b;
              rq_TokenIndex := mt_TokenIndex b;
              rq_From := ""; rq_To := mt_To b; rq_Amount := mt_Amount b;
              rq_Signer := mt_Signer b; rq_Data := mt_Data b |}
  | BodyBurnTokens b =>
      Some {| rq_Type := TokenTransferTypeBurn;
              rq_PoolLocator := bt_PoolLocator b;
              rq_TokenIndex := bt_TokenIndex b;
              rq_From := bt_From b; rq_To := ""; rq_Amount := bt_Amount b;
              rq_Signer := bt_Signer b; rq_Data := bt_Data b |}
  | BodyTransferTokens b =>
      Some {| rq_Type := TokenTransferTypeTransfer;
              rq_PoolLocator := xt_PoolLocator b;
              rq_TokenIndex := xt_TokenIndex b;
              rq_From := xt_From b; rq_To := xt_To b;
              rq_Amount := xt_Amount b;
              rq_Signer := xt_Signer b; rq_Data := xt_Data b |}
  | _ => None
  end.

(** An event payload that confirms a request: it carries the fields of the
    request as they were sent, and a subject of its own. *)
Definition confirms (data : JSONObject) (rq : Requested) : Prop :=
  GetString data "subject" <> "" /\
  GetString data "poolLocator" = rq_PoolLocator rq /\
  GetString data "tokenIndex" = rq_TokenIndex rq /\
  GetString data "from" = rq_From rq /\
  GetString data "to" = rq_To rq /\
  GetString data "amount" = rq_Amount rq /\
  GetString data "signer" = rq_Signer rq /\
  GetString data "data" = rq_Data rq.

(** The same for an approval request. *)
Definition confirmsApproval (data : JSONObject) (b : tokenApproval) : Prop :=
  GetString data "subject" <> "" /\
  GetString data "poolLocator" = tap_PoolLocator b /\
  GetString data "signer" = tap_Signer b /\
  GetString data "operator" = tap_Operator b /\
  GetBool data "approved" = tap_Approved b /\
  GetString data "data" = tap_Data b.

(** The three operations that move tokens, each with the kind of transfer
    it asks for. *)
Definition transferOperations {P : Platform}
  : list ((FFTokens -> option UUID -> string -> fftypes.TokenTransfer
           -> M (option error)) * TokenTransferType) :=
  [(MintTokens, TokenTransferTypeMint);
   (BurnTokens, TokenTransferTypeBurn);
   (TransferTokens, TokenTransferTypeTransfer)].

(* ================================================================== *)
(** ** Concrete runs and commands                                      *)
(* ================================================================== *)

Module Scenarios.

Import Examples.

(** A receipt, a pool frame and a mint frame, one after the other. *)
Definition mintFrame : string := frame "token-mint" "8" mintPayload.

Definition threeFrames : list selected :=
  [Received 0 receiptFrame; Received 1 poolFrame; Received 2 mintFrame].

(** Something that is not JSON. *)
Definition garbage : string := "<html>".

(** A frame of a kind nobody has heard of. *)
Definition strangeFrame : string := frame "token-mystery" "9" ∅.

Definition strangeEnvelope : wsEvent :=
  {| ws_Event := "token-mystery"; ws_ID := "9"; ws_Data := ∅ |}.

(** The event by which a connector confirms the mint of [aTransfer] in
    "pool1". *)
Definition mintConfirmation : JSONObject :=
  object [("subject", JStr "0x5:12:3"); ("poolLocator", JStr "pool1");
          ("signer", JStr "0x01"); ("to", JStr "0x02");
          ("amount", JStr "100");
          ("data", JStr (Reference.marshalTokenData
                           (transferTokenData aTransfer)))].

(** The event by which a connector confirms the approval [anApproval] in
    "pool1". *)
Definition approvalConfirmation : JSONObject :=
  object [("subject", JStr "0x5:12:4"); ("poolLocator", JStr "pool1");
          ("signer", JStr "0x01"); ("operator", JStr "0x03");
          ("approved", JBool true);
          ("data", JStr (Reference.marshalTokenData
                           {| td_TX := tx_ID (ta_TX anApproval);
                              td_TXType := tx_Type (ta_TX anApproval);
                              td_Message := None;
                              td_MessageHash := None |}))].

(** A pool payload whose correlation data is not JSON. *)
Definition poolWithBrokenData : JSONObject :=
  object [("type", JStr "fungible"); ("poolLocator", JStr "pool1");
          ("data", JStr "<html>")].

(** The plugin in front of a connector that answers 200 with an empty
    object. *)
Definition ftEmptyAnswer : FFTokens :=
  plugin nodeAccepting socketUp
    (connector 200 (Reference.marshalJSONObject ∅)).

(** A configuration with a URL and no websocket path, and the
    constructors of a test bench. *)
Definition aPrefix : Prefix :=
  {| prefix_GetString :=
       fun key => if String.eqb key "url" then "http://localhost:3000" else "" |}.

Definition bench : Wiring :=
  {| HTTPConfigURL := "url";
     ffresty_New := fun _ => connector 202 "";
     GenerateConfigFromPrefix :=
       fun prefix =>
         {| WSKeyPath := prefix_GetString prefix "ws.path";
            WSSettings := [("ws.heartbeatInterval", "30s")] |};
     wsclient_New := fun _ => (Some socketUp, None) |}.

End Scenarios.

Local Open Scope list_scope.

(* ================================================================== *)
(** ** Properties                                                      *)
(* ================================================================== *)

Section Properties.

Context {P : Platform}.

Lemma emptyb_true (s : string) : emptyb s = true <-> s = "".
Proof. unfold emptyb. apply String.eqb_eq. Qed.

Lemma emptyb_false (s : string) : emptyb s = false <-> s <> "".
Proof. unfold emptyb. apply String.eqb_neq. Qed.

Lemma callsSince_app (w w' : World) (acts : list Action) :
  calls w' = calls w ++ acts -> callsSince w w' = acts.
Proof.
  intros E. unfold callsSince. rewrite E. apply drop_app_length.
Qed.

Lemma callsSince_same_calls (w w' : World) :
  calls w' = calls w -> callsSince w w' = [].
Proof.
  intros E. apply callsSince_app. rewrite E, app_nil_r. reflexivity.
Qed.

Lemma TokenTransferType_eqb_eq (a b : TokenTransferType) :
  TokenTransferType_eqb a b = true <-> a = b.
Proof. destruct a, b; simpl; split; congruence. Qed.

(** The validation of [handleTokenTransfer], as a boolean and as a
    proposition. *)
Lemma transfer_validation (t : TokenTransferType) (data : JSONObject) :
  emptyb (GetString data "subject") ||
  emptyb (GetString data "poolLocator") ||
  emptyb (GetString data "signer") ||
  emptyb (GetString data "amount") ||
  (negb (TokenTransferType_eqb t TokenTransferTypeMint)
   && emptyb (GetString data "from")) ||
  (negb (TokenTransferType_eqb t TokenTransferTypeBurn)
   && emptyb (GetString data "to")) = false
  <-> transferFieldsPresent t data.
Proof.
  unfold transferFieldsPresent.
  rewrite !orb_false_iff, !andb_false_iff, !negb_false_iff, !emptyb_false,
    !TokenTransferType_eqb_eq.
  split.
  - intros [[[[[Hs Hp] Hk] Ha] Hf] Ht]. repeat split; try assumption.
    + intros Hm. destruct Hf; [contradiction | assumption].
    + intros Hb. destruct Ht; [contradiction | assumption].
  - intros (Hs & Hp & Hk & Ha & Hf & Ht). repeat split; try assumption.
    + destruct t; (left; reflexivity) || (right; apply Hf; discriminate).
    + destruct t; (left; reflexivity) || (right; apply Ht; discriminate).
Qed.

(** What [decodeTokenData] does to the world: at most one log line. *)
Lemma decodeTokenData_run (fmt s : string) (w : World) :
  exists lines,
    decodeTokenData fmt s w
    = (match json_Unmarshal_tokenData s with
       | Some d => d
       | None => tokenData_zero
       end, logged w lines).
Proof.
  unfold decodeTokenData.
  destruct (json_Unmarshal_tokenData s).
  - exists []. unfold ret, logged. rewrite app_nil_r. destruct w; reflexivity.
  - exists [(Info, fmt)]. reflexivity.
Qed.

(** Every run of [handleTokenTransfer] either skips the event, leaving a
    log line and no call, or calls [TokensTransferred] once and returns
    its answer. *)
Lemma handleTokenTransfer_run (ft : FFTokens) (now : FFTime)
    (t : TokenTransferType) (data : JSONObject) (w : World) :
  (exists lines,
      handleTokenTransfer ft now t data w = (None, logged w lines) /\
      (~ transferFieldsPresent t data \/
       big_SetString10 (GetString data "amount") = None))
  \/
  (exists lines transfer amount,
      handleTokenTransfer ft now t data w
      = (TokensTransferred (callbacks ft) (calls w) transfer,
         called (logged w lines) [CallTokensTransferred transfer]) /\
      transferFieldsPresent t data /\
      big_SetString10 (GetString data "amount") = Some amount /\
      tokens.tr_PoolLocator transfer = GetString data "poolLocator" /\
      tt_Type (tokens.tr_TokenTransfer transfer) = t /\
      tt_Amount (tokens.tr_TokenTransfer transfer) = amount /\
      tokens.tr_Event transfer
      = makeEvent ft (GetObject data "blockchain")
          (GetString (GetObject data "blockchain") "id")
          (GetString (GetObject (GetObject data "blockchain") "info")
             "transactionHash")
          (GetObject (GetObject data "blockchain") "info")
          (timestampOrNow now
             (GetString (GetObject data "blockchain") "timestamp"))).
Proof.
  unfold handleTokenTransfer.
  match goal with
  | |- context [if ?c then _ else _] => destruct c eqn:V
  end.
  - left. exists [(Error, "%s event is not valid - missing data: %+v")].
    split; [reflexivity|]. left. intros Hp.
    apply transfer_validation in Hp. congruence.
  - apply transfer_validation in V.
    unfold bind.
    destruct (decodeTokenData_run
      "%s event data could not be parsed - continuing anyway (%s): %+v"
      (GetString data "data") w) as [lines ->].
    destruct (big_SetString10 (GetString data "amount")) as [amount|] eqn:A.
    + right. eexists lines, _, amount. split; [reflexivity|].
      repeat split; try apply V; reflexivity.
    + left. exists (lines ++ [(Error, "%s event is not valid - invalid amount: %+v")]).
      split; [|right; reflexivity].
      unfold log, ret, logged; simpl. rewrite app_assoc. reflexivity.
Qed.

(** *** Worlds *)

Lemma logged_logged (w : World) (l1 l2 : list LogLine) :
  logged (logged w l1) l2 = logged w (l1 ++ l2).
Proof. unfold logged; simpl. rewrite app_assoc. reflexivity. Qed.

Lemma called_called (w : World) (a1 a2 : list Action) :
  called (called w a1) a2 = called w (a1 ++ a2).
Proof. unfold called; simpl. rewrite app_assoc. reflexivity. Qed.

Lemma logged_called (w : World) (l : list LogLine) (a : list Action) :
  logged (called w a) l = called (logged w l) a.
Proof. reflexivity. Qed.

Lemma logged_nil (w : World) : logged w [] = w.
Proof. unfold logged. rewrite app_nil_r. destruct w; reflexivity. Qed.

Lemma called_nil (w : World) : called w [] = w.
Proof. unfold called. rewrite app_nil_r. destruct w; reflexivity. Qed.

Lemma calls_logged (w : World) (l : list LogLine) :
  calls (logged w l) = calls w.
Proof. reflexivity. Qed.

Lemma calls_called (w : World) (a : list Action) :
  calls (called w a) = calls w ++ a.
Proof. reflexivity. Qed.

Lemma log_run (l : Level) (fmt : string) (w : World) :
  log l fmt w = (tt, logged w [(l, fmt)]).
Proof. reflexivity. Qed.

Lemma perform_run {A} (answer : list Action -> A) (a : Action) (w : World) :
  perform answer a w = (answer (calls w), called w [a]).
Proof. reflexivity. Qed.

Lemma callsSince_called_logged (w : World) (l : list LogLine)
    (a : list Action) :
  callsSince w (called (logged w l) a) = a.
Proof. apply callsSince_app. reflexivity. Qed.

Lemma callsSince_logged (w : World) (l : list LogLine) :
  callsSince w (logged w l) = [].
Proof. apply callsSince_same_calls. reflexivity. Qed.

Create Rewrite HintDb world.

#[local] Hint Rewrite logged_logged called_called logged_called logged_nil
  called_nil calls_logged calls_called callsSince_called_logged
  callsSince_logged : world.

(** *** The event loop, one frame at a time *)

(** What [acknowledge] does: it sends the acknowledgement when the handler
    returned no error, the event is not a receipt and the frame has an
    identifier, and does nothing otherwise. *)
Lemma acknowledge_run (ft : FFTokens) (msg : wsEvent) (err : option error)
    (w : World) :
  acknowledge ft msg err w =
  if isNil err && negb (String.eqb (ws_Event msg) messageReceipt)
     && negb (emptyb (ws_ID msg))
  then
    (Send (wsconn ft) (calls w) (json_Marshal_JSONObject (ackFrame (ws_ID msg))),
     called (logged w [(Debug, "Sending ack %s")])
       [WSSend (json_Marshal_JSONObject (ackFrame (ws_ID msg)))])
  else (err, w).
Proof.
  unfold acknowledge.
  destruct (isNil err && negb (String.eqb (ws_Event msg) messageReceipt)
            && negb (emptyb (ws_ID msg))); reflexivity.
Qed.

Lemma eventLoop_frame (ft : FFTokens) (now : FFTime) (b : string)
    (msg : wsEvent) (rest : list selected) (w : World) :
  json_Unmarshal_wsEvent b = Some msg ->
  eventLoop ft (Received now b :: rest) w =
  let (err, wd) := dispatch ft now msg (afterReceive w) in
  let (err', wa) := acknowledge ft msg err wd in
  match err' with
  | Some _ => (Exited, exited wa)
  | None => eventLoop ft rest wa
  end.
Proof.
  intros U. simpl. rewrite U. unfold bind. rewrite log_run.
  fold (afterReceive w).
  destruct (dispatch ft now msg (afterReceive w)) as [err wd].
  destruct (acknowledge ft msg err wd) as [[e|] wa]; reflexivity.
Qed.

Lemma transferKind_dispatch (ft : FFTokens) (now : FFTime) (msg : wsEvent)
    (t : TokenTransferType) :
  transferKind (ws_Event msg) = Some t ->
  String.eqb (ws_Event msg) messageReceipt = false /\
  dispatch ft now msg = handleTokenTransfer ft now t (ws_Data msg).
Proof.
  unfold transferKind, dispatch.
  destruct (String.eqb (ws_Event msg) messageTokenMint) eqn:E1;
    [|destruct (String.eqb (ws_Event msg) messageTokenBurn) eqn:E2;
      [|destruct (String.eqb (ws_Event msg) messageTokenTransfer) eqn:E3]];
    intros [= <-];
    match goal with
    | H : String.eqb _ _ = true |- _ => apply String.eqb_eq in H; rewrite H in *
    end; clear; split; reflexivity.
Qed.

(** *** Transfers *)

(** C1.  The transfer decoder hands a record to the node only when subject,
    pool locator, signer and amount are non-empty, "from" is non-empty
    unless the kind is mint, and "to" is non-empty unless the kind is burn.
    A payload that breaks one of these is skipped: the decoder returns no
    error, makes no call, and only leaves log lines.  A payload that meets
    them, with an amount that parses, does yield a record of the kind. *)
Theorem handleTokenTransfer_required_fields (ft : FFTokens) (now : FFTime)
    (t : TokenTransferType) (data : JSONObject) (w : World) :
  (~ transferFieldsPresent t data ->
   exists lines, handleTokenTransfer ft now t data w = (None, logged w lines))
  /\
  (forall transfer,
      In (CallTokensTransferred transfer)
        (callsSince w (snd (handleTokenTransfer ft now t data w))) ->
      transferFieldsPresent t data)
  /\
  (forall amount,
      transferFieldsPresent t data ->
      big_SetString10 (GetString data "amount") = Some amount ->
      exists lines transfer,
        handleTokenTransfer ft now t data w
        = (TokensTransferred (callbacks ft) (calls w) transfer,
           called (logged w lines) [CallTokensTransferred transfer]) /\
        tt_Type (tokens.tr_TokenTransfer transfer) = t /\
        tt_Amount (tokens.tr_TokenTransfer transfer) = amount).
Proof.
  destruct (handleTokenTransfer_run ft now t data w)
    as [(lines & E & Why)
       | (lines & transfer & amount & E & Hp & Ha & _ & Et & Eam & _)].
  - split; [|split].
    + intros _. exists lines. exact E.
    + intros transfer. rewrite E. simpl. autorewrite with world.
      intros [].
    + intros amount Hp Ha. destruct Why; [contradiction | congruence].
  - split; [|split].
    + intros Hn. contradiction.
    + intros _ _. exact Hp.
    + intros amount' _ Ha'. exists lines, transfer.
      split; [exact E|]. split; [exact Et | congruence].
Qed.

(** C2.  When the amount of a transfer payload does not parse as a base-10
    integer, the decoder returns no error and makes no call; the event loop
    then acknowledges the frame and goes on to the next one, as long as
    the acknowledgement itself can be sent.  (A frame without identifier
    is never acknowledged; the loop goes on all the same.) *)
Theorem handleTokenTransfer_bad_amount (ft : FFTokens) (now : FFTime)
    (t : TokenTransferType) (data : JSONObject) (w : World) :
  big_SetString10 (GetString data "amount") = None ->
  (exists lines, handleTokenTransfer ft now t data w = (None, logged w lines))
  /\
  (forall b msg rest,
      json_Unmarshal_wsEvent b = Some msg ->
      transferKind (ws_Event msg) = Some t ->
      ws_Data msg = data ->
      ws_ID msg <> "" ->
      let ack := json_Marshal_JSONObject (ackFrame (ws_ID msg)) in
      exists lines,
        eventLoop ft (Received now b :: rest) w =
        match Send (wsconn ft) (calls w) ack with
        | None => eventLoop ft rest (called (logged w lines) [WSSend ack])
        | Some _ => (Exited, exited (called (logged w lines) [WSSend ack]))
        end)
  /\
  (forall b msg rest,
      json_Unmarshal_wsEvent b = Some msg ->
      transferKind (ws_Event msg) = Some t ->
      ws_Data msg = data ->
      ws_ID msg = "" ->
      exists lines,
        eventLoop ft (Received now b :: rest) w
        = eventLoop ft rest (logged w lines)).
Proof.
  intros A.
  assert (Skip : forall w0, exists lines,
             handleTokenTransfer ft now t data w0 = (None, logged w0 lines)).
  { intros w0.
    destruct (handleTokenTransfer_run ft now t data w0)
      as [(lines & E & _) | (lines & transfer & amount & _ & _ & Ha & _)].
    - exists lines. exact E.
    - congruence. }
  split; [apply Skip|]. split.
  - intros b msg rest U K D I ack.
    rewrite (eventLoop_frame ft now b msg rest w U).
    destruct (transferKind_dispatch ft now msg t K) as [NR ->].
    rewrite D. destruct (Skip (afterReceive w)) as [lines ->].
    rewrite acknowledge_run, NR.
    apply emptyb_false in I. rewrite I. simpl.
    unfold afterReceive. autorewrite with world.
    eexists. fold ack.
    destruct (Send (wsconn ft) (calls w) ack); reflexivity.
  - intros b msg rest U K D I.
    rewrite (eventLoop_frame ft now b msg rest w U).
    destruct (transferKind_dispatch ft now msg t K) as [NR ->].
    rewrite D. destruct (Skip (afterReceive w)) as [lines ->].
    rewrite acknowledge_run, NR.
    apply emptyb_true in I. rewrite I. simpl.
    unfold afterReceive. autorewrite with world.
    eexists. reflexivity.
Qed.

(** *** The other decoders *)

Lemma handleReceipt_run (ft : FFTokens) (data : JSONObject) (w : World) :
  handleReceipt ft data w =
  if emptyb (GetString data "id") then
    (tt, logged w [(Error, "Reply cannot be processed - missing fields: %+v")])
  else
    match ParseUUID (GetString data "id") with
    | None => (tt, logged w [(Error, "Reply cannot be processed - bad ID: %+v")])
    | Some opID =>
        (tt,
         called (logged w [(Info, "Tokens '%s' reply: request=%s message=%s")])
           [CallTokenOpUpdate opID
              (if GetBool data "success" then OpStatusSucceeded
               else OpStatusFailed)
              (GetString data "transactionHash") (GetString data "message")
              data])
    end.
Proof.
  unfold handleReceipt.
  destruct (emptyb (GetString data "id")); [reflexivity|].
  destruct (ParseUUID (GetString data "id")); [|reflexivity].
  destruct (GetBool data "success"); reflexivity.
Qed.

Lemma handleTokenPoolCreate_run (ft : FFTokens) (now : FFTime)
    (data : JSONObject) (w : World) :
  (handleTokenPoolCreate ft now data w
   = (None,
      logged w [(Error, "TokenPool event is not valid - missing data: %+v")]) /\
   (GetString data "type" = "" \/ GetString data "poolLocator" = ""))
  \/
  (exists lines pool,
      handleTokenPoolCreate ft now data w
      = (TokenPoolCreated (callbacks ft) (calls w) pool,
         called (logged w lines) [CallTokenPoolCreated pool]) /\
      GetString data "type" <> "" /\
      GetString data "poolLocator" <> "" /\
      tokens.tp_Type pool = GetString data "type" /\
      tokens.tp_PoolLocator pool = GetString data "poolLocator" /\
      tokens.tp_Connector pool = configuredName ft /\
      tokens.tp_TX pool = payloadTX TransactionTypeTokenPool data /\
      tokens.tp_Event pool
      = if negb (emptyb (GetString (GetObject data "blockchain") "id"))
           || negb (emptyb (GetString
                              (GetObject (GetObject data "blockchain") "info")
                              "transactionHash"))
        then payloadEvent ft now data
        else blockchain.zero).
Proof.
  unfold handleTokenPoolCreate.
  destruct (emptyb (GetString data "type") || emptyb (GetString data "poolLocator"))
    eqn:V.
  - left. split; [reflexivity|].
    apply orb_true_iff in V. rewrite !emptyb_true in V. exact V.
  - right. apply orb_false_iff in V. rewrite !emptyb_false in V.
    destruct V as [Vt Vl].
    unfold bind.
    destruct (decodeTokenData_run
      "TokenPool event data could not be parsed - continuing anyway (%s): %+v"
      (GetString data "data") w) as [lines ->].
    rewrite perform_run. eexists lines, _. split; [reflexivity|].
    unfold payloadTX.
    destruct (json_Unmarshal_tokenData (GetString data "data"));
      destruct (negb (emptyb (GetString (GetObject data "blockchain") "id"))
                || negb (emptyb (GetString
                                   (GetObject (GetObject data "blockchain") "info")
                                   "transactionHash")));
      repeat split; assumption.
Qed.

Lemma approval_validation (data : JSONObject) :
  emptyb (GetString data "subject") ||
  emptyb (GetString data "poolLocator") ||
  emptyb (GetString data "signer") ||
  emptyb (GetString data "operator") = false
  <-> approvalFieldsPresent data.
Proof.
  unfold approvalFieldsPresent.
  rewrite !orb_false_iff, !emptyb_false. tauto.
Qed.

Lemma handleTokenApproval_run (ft : FFTokens) (now : FFTime)
    (data : JSONObject) (w : World) :
  (handleTokenApproval ft now data w
   = (None,
      logged w [(Error, "Approval event is not valid - missing data: %+v")]) /\
   ~ approvalFieldsPresent data)
  \/
  (exists lines approval,
      handleTokenApproval ft now data w
      = (TokensApproved (callbacks ft) (calls w) approval,
         called (logged w lines) [CallTokensApproved approval]) /\
      approvalFieldsPresent data /\
      tokens.apv_PoolLocator approval = GetString data "poolLocator" /\
      ta_Approved (tokens.apv_TokenApproval approval) = GetBool data "approved" /\
      ta_TX (tokens.apv_TokenApproval approval)
      = payloadTX TransactionTypeTokenApproval data /\
      tokens.apv_Event approval = payloadEvent ft now data).
Proof.
  unfold handleTokenApproval.
  match goal with
  | |- context [if ?c then _ else _] => destruct c eqn:V
  end.
  - left. split; [reflexivity|]. intros Hp.
    apply approval_validation in Hp. congruence.
  - right. apply approval_validation in V.
    unfold bind.
    destruct (decodeTokenData_run
      "TokenApproval event data could not be parsed - continuing anyway (%s): %+v"
      (GetString data "data") w) as [lines ->].
    rewrite perform_run. eexists lines, _. split; [reflexivity|].
    repeat split; try apply V.
    unfold payloadTX.
    destruct (json_Unmarshal_tokenData (GetString data "data")); reflexivity.
Qed.

(** Whatever the frame, the [switch] of the loop makes no call and returns
    no error, or makes one call, a callback of the node, and returns what
    the node answered. *)
Lemma dispatch_run (ft : FFTokens) (now : FFTime) (msg : wsEvent) (w : World) :
  exists lines,
    dispatch ft now msg w = (None, logged w lines) \/
    exists a,
      isCallback a = true /\
      dispatch ft now msg w
      = (callbackAnswer ft (calls w) a, called (logged w lines) [a]).
Proof.
  unfold dispatch.
  destruct (String.eqb (ws_Event msg) messageReceipt).
  { unfold bind. rewrite handleReceipt_run.
    destruct (emptyb (GetString (ws_Data msg) "id")).
    { eexists. left. reflexivity. }
    destruct (ParseUUID (GetString (ws_Data msg) "id")).
    - eexists. right. eexists (CallTokenOpUpdate _ _ _ _ _).
      split; reflexivity.
    - eexists. left. reflexivity. }
  destruct (String.eqb (ws_Event msg) messageTokenPool).
  { destruct (handleTokenPoolCreate_run ft now (ws_Data msg) w)
      as [[E _] | (lines & pool & E & _)]; rewrite E.
    - eexists. left. reflexivity.
    - exists lines. right. exists (CallTokenPoolCreated pool).
      split; reflexivity. }
  assert (T : forall t, exists lines,
             handleTokenTransfer ft now t (ws_Data msg) w = (None, logged w lines) \/
             exists a, isCallback a = true /\
               handleTokenTransfer ft now t (ws_Data msg) w
               = (callbackAnswer ft (calls w) a, called (logged w lines) [a])).
  { intros t.
    destruct (handleTokenTransfer_run ft now t (ws_Data msg) w)
      as [(lines & E & _) | (lines & transfer & amount & E & _)]; rewrite E.
    - exists lines. left. reflexivity.
    - exists lines. right. exists (CallTokensTransferred transfer).
      split; reflexivity. }
  destruct (String.eqb (ws_Event msg) messageTokenMint); [apply T|].
  destruct (String.eqb (ws_Event msg) messageTokenBurn); [apply T|].
  destruct (String.eqb (ws_Event msg) messageTokenTransfer); [apply T|].
  destruct (String.eqb (ws_Event msg) messageTokenApproval).
  { destruct (handleTokenApproval_run ft now (ws_Data msg) w)
      as [[E _] | (lines & approval & E & _)]; rewrite E.
    - eexists. left. reflexivity.
    - exists lines. right. exists (CallTokensApproved approval).
      split; reflexivity. }
  eexists. left. reflexivity.
Qed.

(** *** Acknowledgements and the end of the loop *)

Lemma sentFrames_app (l1 l2 : list Action) :
  sentFrames (l1 ++ l2) = sentFrames l1 ++ sentFrames l2.
Proof. unfold sentFrames. apply omap_app. Qed.

Lemma sentFrames_callbacks (l : list Action) :
  forallb isCallback l = true -> sentFrames l = [].
Proof.
  induction l as [|a l IH]; [reflexivity|].
  simpl. intros H. apply andb_true_iff in H as [Ha Hl].
  destruct a; try discriminate; simpl; apply IH, Hl.
Qed.

Lemma calls_exited (w : World) : calls (exited w) = calls w ++ [WSClose].
Proof. reflexivity. Qed.

(** The calls of the [switch]: none, or one callback. *)
Lemma dispatch_calls (ft : FFTokens) (now : FFTime) (msg : wsEvent)
    (w : World) (err : option error) (wd : World) :
  dispatch ft now msg (afterReceive w) = (err, wd) ->
  (calls wd = calls w /\ err = None) \/
  (exists a, isCallback a = true /\ calls wd = calls w ++ [a] /\
             err = callbackAnswer ft (calls w) a).
Proof.
  intros D.
  destruct (dispatch_run ft now msg (afterReceive w))
    as [lines [E | (a & Ha & E)]]; rewrite E in D; inversion D; subst.
  - left. split; reflexivity.
  - right. exists a. repeat split; assumption || reflexivity.
Qed.

(** A frame that gets no acknowledgement: the loop goes on or returns
    according to the error of the handler alone. *)
Lemma frame_without_ack (ft : FFTokens) (now : FFTime) (b : string)
    (msg : wsEvent) (rest : list selected) (w : World) (err : option error)
    (wd : World) :
  json_Unmarshal_wsEvent b = Some msg ->
  dispatch ft now msg (afterReceive w) = (err, wd) ->
  err <> None \/ ws_Event msg = messageReceipt \/ ws_ID msg = "" ->
  eventLoop ft (Received now b :: rest) w =
  match err with
  | None => eventLoop ft rest wd
  | Some _ => (Exited, exited wd)
  end.
Proof.
  intros U D Why.
  assert (G : isNil err && negb (String.eqb (ws_Event msg) messageReceipt)
              && negb (emptyb (ws_ID msg)) = false).
  { destruct Why as [Herr | [HR | HI]].
    - destruct err; [reflexivity | congruence].
    - apply String.eqb_eq in HR. rewrite HR.
      destruct (isNil err); reflexivity.
    - apply emptyb_true in HI. rewrite HI.
      destruct (isNil err), (String.eqb (ws_Event msg) messageReceipt);
        reflexivity. }
  rewrite (eventLoop_frame ft now b msg rest w U), D, acknowledge_run, G.
  destruct err; reflexivity.
Qed.

(** A frame that gets one: the loop goes on or returns according to the
    answer of [Send]. *)
Lemma frame_with_ack (ft : FFTokens) (now : FFTime) (b : string)
    (msg : wsEvent) (rest : list selected) (w wd : World) :
  json_Unmarshal_wsEvent b = Some msg ->
  dispatch ft now msg (afterReceive w) = (None, wd) ->
  ws_Event msg <> messageReceipt ->
  ws_ID msg <> "" ->
  eventLoop ft (Received now b :: rest) w =
  match Send (wsconn ft) (calls wd)
          (json_Marshal_JSONObject (ackFrame (ws_ID msg))) with
  | None =>
      eventLoop ft rest
        (called (logged wd [(Debug, "Sending ack %s")])
           [WSSend (json_Marshal_JSONObject (ackFrame (ws_ID msg)))])
  | Some _ =>
      (Exited,
       exited
         (called (logged wd [(Debug, "Sending ack %s")])
            [WSSend (json_Marshal_JSONObject (ackFrame (ws_ID msg)))]))
  end.
Proof.
  intros U D NR I.
  apply String.eqb_neq in NR. apply emptyb_false in I.
  rewrite (eventLoop_frame ft now b msg rest w U), D, acknowledge_run.
  rewrite NR, I. simpl.
  destruct (Send (wsconn ft) (calls wd) _); reflexivity.
Qed.

(** C4.  For a frame that is not a receipt and has an identifier, when the
    handler returns no error the loop sends one acknowledgement, after
    every call of the handler, and it is the only frame sent for that
    frame.  The acknowledgement is the serialized object with the two
    members "event", which is the string "ack", and "data", which is the
    object with the one member "id", the identifier of the frame.  For a
    receipt, for a frame without identifier and for a frame whose handler
    returned an error, nothing is sent. *)
Theorem eventLoop_acknowledgement (ft : FFTokens) (now : FFTime) (b : string)
    (msg : wsEvent) (rest : list selected) (w : World) (err : option error)
    (wd : World) :
  json_Unmarshal_wsEvent b = Some msg ->
  dispatch ft now msg (afterReceive w) = (err, wd) ->
  let ack :=
    json_Marshal_JSONObject
      (<["event" := JStr "ack"]>
         (<["data" := JObj (<["id" := JStr (ws_ID msg)]> ∅)]> ∅)) in
  let wa := called (logged wd [(Debug, "Sending ack %s")]) [WSSend ack] in
  (exists cbs, calls wd = calls w ++ cbs /\ forallb isCallback cbs = true) /\
  (err = None -> ws_Event msg <> messageReceipt -> ws_ID msg <> "" ->
   calls wa = calls wd ++ [WSSend ack] /\
   sentFrames (callsSince w (snd (eventLoop ft [Received now b] w))) = [ack] /\
   eventLoop ft (Received now b :: rest) w =
   match Send (wsconn ft) (calls wd) ack with
   | None => eventLoop ft rest wa
   | Some _ => (Exited, exited wa)
   end) /\
  (err <> None \/ ws_Event msg = messageReceipt \/ ws_ID msg = "" ->
   sentFrames (callsSince w (snd (eventLoop ft [Received now b] w))) = [] /\
   eventLoop ft (Received now b :: rest) w =
   match err with
   | None => eventLoop ft rest wd
   | Some _ => (Exited, exited wd)
   end).
Proof.
  intros U D ack wa.
  assert (C : exists cbs, calls wd = calls w ++ cbs /\ forallb isCallback cbs = true).
  { destruct (dispatch_calls ft now msg w err wd D)
      as [[E _] | (a & Ha & E & _)].
    - exists []. rewrite app_nil_r. split; [exact E | reflexivity].
    - exists [a]. split; [exact E|]. simpl. rewrite Ha. reflexivity. }
  split; [exact C|].
  destruct C as (cbs & Ecbs & Hcbs).
  pose proof (sentFrames_callbacks cbs Hcbs) as Scbs.
  split.
  - intros -> NR I.
    rewrite !(frame_with_ack ft now b msg _ w wd U D NR I).
    unfold ackFrame. fold ack. fold wa.
    split; [reflexivity|]. split; [|reflexivity].
    assert (Ewa : calls wa = calls w ++ (cbs ++ [WSSend ack])).
    { unfold wa. simpl. rewrite Ecbs, <- app_assoc. reflexivity. }
    destruct (Send (wsconn ft) (calls wd) ack); simpl.
    + erewrite callsSince_app
        by (rewrite calls_exited, Ewa, <- !app_assoc; reflexivity).
      rewrite !sentFrames_app, Scbs. reflexivity.
    + erewrite callsSince_app by exact Ewa.
      rewrite sentFrames_app, Scbs. reflexivity.
  - intros Why.
    rewrite !(frame_without_ack ft now b msg _ w err wd U D Why).
    split; [|reflexivity].
    destruct err; simpl.
    + erewrite callsSince_app
        by (rewrite calls_exited, Ecbs, <- !app_assoc; reflexivity).
      rewrite sentFrames_app, Scbs. reflexivity.
    + erewrite callsSince_app by exact Ecbs. exact Scbs.
Qed.

(** C5.  When the callback made for a frame returns an error, or when the
    acknowledgement of the frame cannot be sent, the loop returns right
    after that frame: the connection is closed, and whatever was still to
    arrive is neither processed nor acknowledged. *)
Theorem eventLoop_fail_fast (ft : FFTokens) (now : FFTime) (b : string)
    (msg : wsEvent) (w : World) (err : option error) (wd : World) :
  json_Unmarshal_wsEvent b = Some msg ->
  dispatch ft now msg (afterReceive w) = (err, wd) ->
  let ack := json_Marshal_JSONObject (ackFrame (ws_ID msg)) in
  ((exists a e, isCallback a = true /\ calls wd = calls w ++ [a] /\
                callbackAnswer ft (calls w) a = Some e) ->
   exists final,
     calls final = calls wd ++ [WSClose] /\
     forall rest, eventLoop ft (Received now b :: rest) w = (Exited, final))
  /\
  (err = None -> ws_Event msg <> messageReceipt -> ws_ID msg <> "" ->
   Send (wsconn ft) (calls wd) ack <> None ->
   exists final,
     calls final = calls wd ++ [WSSend ack; WSClose] /\
     forall rest, eventLoop ft (Received now b :: rest) w = (Exited, final)).
Proof.
  intros U D ack. split.
  - intros (a & e & Ha & Ea & Ans).
    assert (Eerr : err = Some e).
    { destruct (dispatch_calls ft now msg w err wd D)
        as [[E _] | (a' & _ & E & ->)].
      - rewrite E in Ea. apply (f_equal (@List.length Action)) in Ea.
        rewrite length_app in Ea. simpl in Ea. lia.
      - rewrite E in Ea. apply app_inj_tail in Ea as [_ ->]. exact Ans. }
    subst err. exists (exited wd). split; [reflexivity|]. intros rest.
    rewrite (frame_without_ack ft now b msg rest w (Some e) wd U D);
      [reflexivity | left; discriminate].
  - intros -> NR I S.
    exists (exited (called (logged wd [(Debug, "Sending ack %s")]) [WSSend ack])).
    split; [simpl; rewrite <- app_assoc; reflexivity|]. intros rest.
    rewrite (frame_with_ack ft now b msg rest w wd U D NR I). fold ack.
    destruct (Send (wsconn ft) (calls wd) ack); [reflexivity | congruence].
Qed.

(** C6.  A receipt whose "id" is empty or is not a UUID is logged and
    dropped without any call.  Otherwise [TokenOpUpdate] is called with
    the status succeeded when "success" is true and failed when it is not,
    and with the transaction hash and the message.  Either way the loop
    sends nothing for the frame and goes on to the next one. *)
Theorem receipt_handling (ft : FFTokens) (data : JSONObject) (w : World) :
  ((GetString data "id" = "" \/ ParseUUID (GetString data "id") = None) ->
   exists line, handleReceipt ft data w = (tt, logged w [(Error, line)]))
  /\
  (forall opID,
      GetString data "id" <> "" ->
      ParseUUID (GetString data "id") = Some opID ->
      exists lines,
        handleReceipt ft data w
        = (tt,
           called (logged w lines)
             [CallTokenOpUpdate opID
                (if GetBool data "success" then OpStatusSucceeded
                 else OpStatusFailed)
                (GetString data "transactionHash") (GetString data "message")
                data]))
  /\
  (forall now b msg rest,
      json_Unmarshal_wsEvent b = Some msg ->
      ws_Event msg = messageReceipt ->
      ws_Data msg = data ->
      let wr := snd (handleReceipt ft data (afterReceive w)) in
      sentFrames (callsSince w wr) = [] /\
      eventLoop ft (Received now b :: rest) w = eventLoop ft rest wr).
Proof.
  split; [|split].
  - intros Bad. rewrite handleReceipt_run.
    destruct (emptyb (GetString data "id")) eqn:E; [eexists; reflexivity|].
    destruct Bad as [B | B].
    + apply emptyb_false in E. contradiction.
    + rewrite B. eexists; reflexivity.
  - intros opID I U. rewrite handleReceipt_run.
    apply emptyb_false in I. rewrite I, U. eexists; reflexivity.
  - intros now b msg rest U R D wr.
    assert (Edisp : dispatch ft now msg (afterReceive w) = (None, wr)).
    { unfold dispatch. rewrite R. simpl. unfold bind. rewrite D.
      unfold wr. destruct (handleReceipt ft data (afterReceive w)) as [[] w'].
      reflexivity. }
    split;
      [|exact (frame_without_ack ft now b msg rest w None wr U Edisp
                 (or_intror (or_introl R)))].
    destruct (dispatch_calls ft now msg w None wr Edisp)
      as [[E _] | (a & Ha & E & _)].
    + rewrite (callsSince_same_calls w wr E). reflexivity.
    + rewrite (callsSince_app w wr [a] E).
      apply sentFrames_callbacks. simpl. rewrite Ha. reflexivity.
Qed.

(** *** Records and their on-chain event *)

Lemma payloadEvent_not_zero (ft : FFTokens) (now : FFTime)
    (data : JSONObject) :
  payloadEvent ft now data <> blockchain.zero.
Proof.
  intros E. apply (f_equal blockchain.ev_Timestamp) in E. discriminate E.
Qed.

(** C7.  A pool payload without type or without locator is skipped: no
    error, no call.  Any other pool payload yields a record handed to
    [TokenPoolCreated], and that record carries an on-chain event exactly
    when the "blockchain" object has a non-empty identifier or a non-empty
    transaction hash; a "blockchain" object that is there but has neither
    leaves the record without event. *)
Theorem handleTokenPoolCreate_event_gate (ft : FFTokens) (now : FFTime)
    (data : JSONObject) (w : World) :
  let blockchainID := GetString (GetObject data "blockchain") "id" in
  let txHash :=
    GetString (GetObject (GetObject data "blockchain") "info")
      "transactionHash" in
  ((GetString data "type" = "" \/ GetString data "poolLocator" = "") ->
   exists lines, handleTokenPoolCreate ft now data w = (None, logged w lines))
  /\
  (GetString data "type" <> "" -> GetString data "poolLocator" <> "" ->
   exists lines pool,
     handleTokenPoolCreate ft now data w
     = (TokenPoolCreated (callbacks ft) (calls w) pool,
        called (logged w lines) [CallTokenPoolCreated pool]) /\
     tokens.tp_Type pool = GetString data "type" /\
     tokens.tp_PoolLocator pool = GetString data "poolLocator" /\
     (tokens.tp_Event pool <> blockchain.zero
      <-> blockchainID <> "" \/ txHash <> "") /\
     (blockchainID <> "" \/ txHash <> "" ->
      tokens.tp_Event pool = payloadEvent ft now data) /\
     (forall o, data !! "blockchain" = Some (JObj o) ->
                GetString o "id" = "" ->
                GetString (GetObject o "info") "transactionHash" = "" ->
                tokens.tp_Event pool = blockchain.zero)).
Proof.
  intros blockchainID txHash.
  destruct (handleTokenPoolCreate_run ft now data w)
    as [[E Why] | (lines & pool & E & Ht & Hl & Et & El & _ & _ & Ee)].
  - split.
    + intros _. eexists. exact E.
    + intros Ht Hl. destruct Why; contradiction.
  - split.
    + intros [H | H]; contradiction.
    + intros _ _. exists lines, pool.
      fold blockchainID txHash in Ee.
      split; [exact E|]. split; [exact Et|]. split; [exact El|].
      destruct (emptyb blockchainID) eqn:Bi;
        [apply emptyb_true in Bi | apply emptyb_false in Bi];
        (destruct (emptyb txHash) eqn:Bt;
         [apply emptyb_true in Bt | apply emptyb_false in Bt]);
        simpl in Ee.
      * split; [|split].
        -- rewrite Ee. split; [intros H; contradiction H; reflexivity|].
           intros [H | H]; contradiction.
        -- intros [H | H]; contradiction.
        -- intros _ _ _ _. exact Ee.
      * split; [|split].
        -- rewrite Ee. split; [intros _; right; exact Bt|].
           intros _. apply payloadEvent_not_zero.
        -- intros _. exact Ee.
        -- intros o Ho _ Hh. exfalso. apply Bt. unfold txHash, GetObject at 2.
           rewrite Ho. exact Hh.
      * split; [|split].
        -- rewrite Ee. split; [intros _; left; exact Bi|].
           intros _. apply payloadEvent_not_zero.
        -- intros _. exact Ee.
        -- intros o Ho Hi _. exfalso. apply Bi. unfold blockchainID, GetObject.
           rewrite Ho. exact Hi.
      * split; [|split].
        -- rewrite Ee. split; [intros _; left; exact Bi|].
           intros _. apply payloadEvent_not_zero.
        -- intros _. exact Ee.
        -- intros o Ho Hi _. exfalso. apply Bi. unfold blockchainID, GetObject.
           rewrite Ho. exact Hi.
Qed.

Lemma GetBool_not_true (data : JSONObject) (key : string) :
  data !! key <> Some (JBool true) -> GetBool data key = false.
Proof.
  unfold GetBool. destruct (data !! key) as [[| [|] | | | |]|];
    congruence.
Qed.

(** C9.  The "approved" field of an approval payload is not validated.  A
    payload with the four required fields always yields a record handed to
    [TokensApproved]; its flag is what [GetBool] reads, so that a payload
    without "approved", or with anything there but the boolean true, is
    reported with the flag false. *)
Theorem handleTokenApproval_flag_not_validated (ft : FFTokens) (now : FFTime)
    (data : JSONObject) (w : World) :
  approvalFieldsPresent data ->
  exists lines approval,
    handleTokenApproval ft now data w
    = (TokensApproved (callbacks ft) (calls w) approval,
       called (logged w lines) [CallTokensApproved approval]) /\
    ta_Approved (tokens.apv_TokenApproval approval) = GetBool data "approved" /\
    (data !! "approved" <> Some (JBool true) ->
     ta_Approved (tokens.apv_TokenApproval approval) = false).
Proof.
  intros Hp.
  destruct (handleTokenApproval_run ft now data w)
    as [[_ Hn] | (lines & approval & E & _ & _ & Ea & _)].
  - contradiction.
  - exists lines, approval. split; [exact E|]. split; [exact Ea|].
    intros Hk. rewrite Ea. apply GetBool_not_true, Hk.
Qed.

(** C10.  Every record handed to [TokensTransferred] or to [TokensApproved]
    carries an on-chain event, whatever the payload has under "blockchain":
    its source is "fftokens:" followed by the configured name, its
    timestamp is the one parsed from the payload or else the time of
    reception, and it is never the empty event that a pool record without
    significant data is left with. *)
Theorem transfer_approval_event_always (ft : FFTokens) (now : FFTime)
    (data : JSONObject) (w : World) :
  let e := payloadEvent ft now data in
  (forall t amount,
      transferFieldsPresent t data ->
      big_SetString10 (GetString data "amount") = Some amount ->
      exists lines transfer,
        handleTokenTransfer ft now t data w
        = (TokensTransferred (callbacks ft) (calls w) transfer,
           called (logged w lines) [CallTokensTransferred transfer]) /\
        tokens.tr_Event transfer = e)
  /\
  (approvalFieldsPresent data ->
   exists lines approval,
     handleTokenApproval ft now data w
     = (TokensApproved (callbacks ft) (calls w) approval,
        called (logged w lines) [CallTokensApproved approval]) /\
     tokens.apv_Event approval = e)
  /\
  blockchain.ev_Source e = ("fftokens:" ++ configuredName ft)%string /\
  blockchain.ev_Timestamp e
  = Some (match ParseTimeString
                  (GetString (GetObject data "blockchain") "timestamp") with
          | Some parsed => parsed
          | None => now
          end) /\
  e <> blockchain.zero /\
  (data !! "blockchain" = None ->
   blockchain.ev_ProtocolID e = "" /\ blockchain.ev_BlockchainTXID e = "" /\
   blockchain.ev_Timestamp e
   = Some (match ParseTimeString "" with
           | Some parsed => parsed
           | None => now
           end)).
Proof.
  intros e. split; [|split; [|split; [|split; [|split]]]].
  - intros t amount Hp Ha.
    destruct (handleTokenTransfer_run ft now t data w)
      as [(lines & _ & [Hn | Hn])
         | (lines & transfer & amount' & E & _ & _ & _ & _ & _ & Ee)].
    + contradiction.
    + congruence.
    + exists lines, transfer. split; [exact E | exact Ee].
  - intros Hp.
    destruct (handleTokenApproval_run ft now data w)
      as [[_ Hn] | (lines & approval & E & _ & _ & _ & _ & Ee)].
    + contradiction.
    + exists lines, approval. split; [exact E | exact Ee].
  - reflexivity.
  - reflexivity.
  - apply payloadEvent_not_zero.
  - intros Hb. unfold e, payloadEvent, makeEvent, timestampOrNow, GetObject.
    rewrite Hb. simpl. repeat split; reflexivity.
Qed.

(** *** Issuing commands *)

Lemma restFailed_true (res : Response) :
  restFailed res = true <-> transportFailure res.
Proof.
  unfold restFailed, transportFailure, IsSuccess.
  destruct (res_err res).
  - split; [intros _; left; discriminate | reflexivity].
  - rewrite negb_true_iff, andb_false_iff, !Z.ltb_ge. split.
    + intros H. right. lia.
    + intros [H | H]; [congruence | lia].
Qed.

Lemma restFailed_false (res : Response) :
  restFailed res = false <-> ~ transportFailure res.
Proof.
  rewrite <- restFailed_true. destruct (restFailed res); split; congruence.
Qed.

Lemma poolResponse_cases (ft : FFTokens) (now : FFTime) (res : Response)
    (w : World) :
  (transportFailure res /\
   poolResponse ft now res w = ((false, Some (TokensRESTErr res)), w))
  \/
  (~ transportFailure res /\ res_StatusCode res <> 200 /\
   poolResponse ft now res w = ((false, None), w))
  \/
  (~ transportFailure res /\ res_StatusCode res = 200 /\
   json_Unmarshal_JSONObject (res_Body res) = None /\
   poolResponse ft now res w
   = ((false, Some (JSONObjectParseFailed (res_Body res))), w))
  \/
  (exists obj,
      ~ transportFailure res /\ res_StatusCode res = 200 /\
      json_Unmarshal_JSONObject (res_Body res) = Some obj /\
      poolResponse ft now res w
      = (let (err, w') := handleTokenPoolCreate ft now obj w in
         ((true, err), w'))).
Proof.
  unfold poolResponse.
  destruct (restFailed res) eqn:F.
  { left. split; [apply restFailed_true, F | reflexivity]. }
  apply restFailed_false in F. right.
  destruct (res_StatusCode res =? 200) eqn:S200.
  - apply Z.eqb_eq in S200. right.
    destruct (json_Unmarshal_JSONObject (res_Body res)) as [obj|].
    + right. exists obj. repeat split; try assumption.
    + left. repeat split; assumption.
  - apply Z.eqb_neq in S200. left. repeat split; assumption.
Qed.

(** C8, as the code has it.  [CreateTokenPool] and [ActivateTokenPool]
    report completion exactly when the request went through with status
    200 and the body of the answer decodes as a JSON object; the object
    then goes through the pool decoder, whose error is returned with the
    flag.  With status 200 and a body that does not decode they return no
    completion and a parse error; with another 2xx status, no completion
    and no error; on a transport failure or another status, the REST
    error.  Mint, burn, transfer and approval return an error or nil and
    nothing else: the REST error on a failure, nil otherwise. *)
Theorem synchronous_completion (ft : FFTokens) (now : FFTime)
    (opID : option UUID) (pool : fftypes.TokenPool) (poolLocator : string)
    (transfer : fftypes.TokenTransfer) (approval : fftypes.TokenApproval)
    (w : World) :
  (forall op, In op [CreateTokenPool; ActivateTokenPool] ->
     exists path body,
       let res := Post (client ft) (calls w) path body in
       let w1 := called w [HTTPPost path body] in
       let out := op ft now opID pool w in
       (fst (fst out) = true <->
        ~ transportFailure res /\ res_StatusCode res = 200 /\
        json_Unmarshal_JSONObject (res_Body res) <> None) /\
       (forall obj,
           ~ transportFailure res -> res_StatusCode res = 200 ->
           json_Unmarshal_JSONObject (res_Body res) = Some obj ->
           out = (let (err, w') := handleTokenPoolCreate ft now obj w1 in
                  ((true, err), w'))) /\
       (~ transportFailure res -> res_StatusCode res = 200 ->
        json_Unmarshal_JSONObject (res_Body res) = None ->
        out = ((false, Some (JSONObjectParseFailed (res_Body res))), w1)) /\
       (~ transportFailure res -> res_StatusCode res <> 200 ->
        out = ((false, None), w1)) /\
       (transportFailure res ->
        out = ((false, Some (TokensRESTErr res)), w1)))
  /\
  (forall op,
     In op [MintTokens ft opID poolLocator transfer;
            BurnTokens ft opID poolLocator transfer;
            TransferTokens ft opID poolLocator transfer;
            TokensApproval ft opID poolLocator approval] ->
     exists path body,
       let res := Post (client ft) (calls w) path body in
       let w1 := called w [HTTPPost path body] in
       (transportFailure res -> op w = (Some (TokensRESTErr res), w1)) /\
       (~ transportFailure res -> op w = (None, w1))).
Proof.
  split.
  - assert (G : forall path body,
               let res := Post (client ft) (calls w) path body in
               let w1 := called w [HTTPPost path body] in
               let out := poolResponse ft now res w1 in
               (fst (fst out) = true <->
                ~ transportFailure res /\ res_StatusCode res = 200 /\
                json_Unmarshal_JSONObject (res_Body res) <> None) /\
               (forall obj,
                   ~ transportFailure res -> res_StatusCode res = 200 ->
                   json_Unmarshal_JSONObject (res_Body res) = Some obj ->
                   out = (let (err, w') := handleTokenPoolCreate ft now obj w1 in
                          ((true, err), w'))) /\
               (~ transportFailure res -> res_StatusCode res = 200 ->
                json_Unmarshal_JSONObject (res_Body res) = None ->
                out = ((false, Some (JSONObjectParseFailed (res_Body res))), w1)) /\
               (~ transportFailure res -> res_StatusCode res <> 200 ->
                out = ((false, None), w1)) /\
               (transportFailure res ->
                out = ((false, Some (TokensRESTErr res)), w1))).
    { intros path body res w1 out. subst out.
      destruct (poolResponse_cases ft now res w1)
        as [[F E] | [(F & S & E) | [(F & S & U & E) | (obj & F & S & U & E)]]];
        rewrite E; (split; [split|]).
      - simpl. discriminate.
      - intros (NF & _). contradiction.
      - repeat split; intros; contradiction || reflexivity.
      - simpl. discriminate.
      - intros (_ & S' & _). contradiction.
      - repeat split; intros; contradiction || congruence.
      - simpl. discriminate.
      - intros (_ & _ & U'). contradiction.
      - repeat split; intros; contradiction || congruence.
      - intros _. repeat split; try assumption. rewrite U. discriminate.
      - intros _. destruct (handleTokenPoolCreate ft now obj w1). reflexivity.
      - repeat split; intros; try (contradiction || congruence).
        assert (obj0 = obj) as -> by congruence. reflexivity. }
    intros op [<- | [<- | []]].
    + eexists _, _. unfold CreateTokenPool, bind, post.
      rewrite perform_run. apply G.
    + eexists _, _. unfold ActivateTokenPool, bind, post.
      rewrite perform_run. apply G.
  - assert (G : forall path body,
               let res := Post (client ft) (calls w) path body in
               (transportFailure res ->
                submitResponse res = Some (TokensRESTErr res)) /\
               (~ transportFailure res -> submitResponse res = None)).
    { intros path body res. unfold submitResponse.
      destruct (restFailed res) eqn:F.
      - apply restFailed_true in F. split; [reflexivity | contradiction].
      - apply restFailed_false in F. split; [contradiction | reflexivity]. }
    intros op [<- | [<- | [<- | [<- | []]]]];
      eexists _, _;
      unfold MintTokens, BurnTokens, TransferTokens, TokensApproval, bind, post,
        ret;
      rewrite perform_run;
      (split; intros F; (f_equal; [apply G, F])).
Qed.

End Properties.

(* ================================================================== *)
(** ** The executable platform reads back what it writes               *)
(* ================================================================== *)

Section ReferenceCodec.

Import Reference.

(** *** String literals *)

Lemma append_empty (s : string) : ("" ++ s)%string = s.
Proof. reflexivity. Qed.

Lemma append_String (c : ascii) (s t : string) :
  (String c s ++ t)%string = String c (s ++ t)%string.
Proof. reflexivity. Qed.

Lemma append_assoc (s t u : string) :
  ((s ++ t) ++ u)%string = (s ++ (t ++ u))%string.
Proof.
  induction s as [|c s IH]; [reflexivity|].
  rewrite !append_String, IH. reflexivity.
Qed.

Lemma length_append (s t : string) :
  String.length (s ++ t)%string = (String.length s + String.length t)%nat.
Proof.
  induction s as [|c s IH]; [reflexivity|].
  rewrite append_String. cbn [String.length]. rewrite IH. reflexivity.
Qed.

Lemma parseChars_escape (s rest : string) :
  parseChars (escape s ++ String quote rest)%string = Some (s, rest).
Proof.
  induction s as [|c s IH]; cbn [escape].
  - rewrite append_empty. cbn [parseChars].
    rewrite Ascii.eqb_refl. reflexivity.
  - destruct (Ascii.eqb c quote || Ascii.eqb c backslash) eqn:E;
      rewrite !append_String; cbn [parseChars].
    + change (Ascii.eqb backslash quote) with false.
      rewrite Ascii.eqb_refl. cbn iota. rewrite E, IH. reflexivity.
    + apply orb_false_iff in E as [Q B]. rewrite Q, B, IH. reflexivity.
Qed.

Lemma parseChars_printString (s rest : string) :
  exists tail,
    (printString s ++ rest)%string = String quote tail /\
    parseChars tail = Some (s, rest).
Proof.
  exists (escape s ++ String quote rest)%string. split.
  - unfold printString. rewrite append_String. f_equal.
    rewrite append_assoc. reflexivity.
  - apply parseChars_escape.
Qed.

(** *** Hexadecimal identifiers *)

Lemma hexVal_hexChar (d : N) : (d < 16)%N -> hexVal (hexChar d) = Some d.
Proof.
  intros H.
  assert (C : In d (map N.of_nat (seq 0 16))).
  { apply in_map_iff. exists (N.to_nat d). split; [lia|].
    apply in_seq. lia. }
  simpl in C.
  repeat (destruct C as [<- | C]; [reflexivity|]). destruct C.
Qed.

Lemma parseHex_printHex (n : nat) (u acc : N) :
  parseHex acc (printHex n u)
  = Some (acc * 16 ^ N.of_nat n + u mod 16 ^ N.of_nat n)%N.
Proof.
  revert acc. induction n as [|n IH]; intros acc.
  - simpl. rewrite N.mod_1_r. f_equal. lia.
  - cbn [printHex parseHex].
    set (d := N.land (N.shiftr u (4 * N.of_nat n)) 15).
    assert (Ed : d = ((u / 16 ^ N.of_nat n) mod 16)%N).
    { unfold d. change 15%N with (N.ones 4). rewrite N.land_ones.
      rewrite N.shiftr_div_pow2. change (2 ^ 4)%N with 16%N.
      rewrite N.pow_mul_r. reflexivity. }
    rewrite hexVal_hexChar by (rewrite Ed; apply N.mod_lt; lia).
    rewrite IH. f_equal.
    rewrite Nat2N.inj_succ, N.pow_succ_r'.
    rewrite (N.mul_comm 16 (16 ^ N.of_nat n)).
    rewrite N.Div0.mod_mul_r, <- Ed. lia.
Qed.

Lemma length_printHex (n : nat) (u : N) : String.length (printHex n u) = n.
Proof. induction n as [|n IH]; simpl; congruence. Qed.

(** The canonical form of a UUID: 32 digits cut in five groups. *)
Lemma parseUUID_groups (h : string) :
  String.length h = 32%nat ->
  parseUUID
    (substring 0 8 h ++ "-" ++ substring 8 4 h ++ "-" ++ substring 12 4 h
       ++ "-" ++ substring 16 4 h ++ "-" ++ substring 20 12 h)%string
  = parseHex 0%N h.
Proof.
  intros L.
  do 32 (destruct h as [|? h]; [discriminate L|]).
  destruct h; [|discriminate L].
  reflexivity.
Qed.

Lemma parseUUID_uuidString (u : UUID) :
  (u < 2 ^ 128)%N -> parseUUID (uuidString (Some u)) = Some u.
Proof.
  intros B. unfold uuidString.
  rewrite parseUUID_groups by apply length_printHex.
  rewrite parseHex_printHex. f_equal.
  change (16 ^ N.of_nat 32)%N with (2 ^ 128)%N.
  rewrite N.mod_small by exact B. reflexivity.
Qed.

Lemma parseBytes32_printHex (h : Bytes32) :
  (h < 2 ^ 256)%N -> parseBytes32 (printHex 64 h) = Some h.
Proof.
  intros B. unfold parseBytes32.
  rewrite length_printHex, parseHex_printHex. cbn [Nat.eqb]. f_equal.
  change (16 ^ N.of_nat 64)%N with (2 ^ 256)%N.
  rewrite N.mod_small by exact B. reflexivity.
Qed.

(** *** Objects with string members *)

Lemma skipWS_quote (s : string) : skipWS (String quote s) = String quote s.
Proof. reflexivity. Qed.

(** One printed member, and what follows it. *)
Lemma printMember_shape (k v rest : string) :
  exists tail tail',
    (printMember k (printString v) ++ rest)%string = String quote tail /\
    parseChars tail = Some (k, String ":" (String quote tail')) /\
    parseChars tail' = Some (v, rest).
Proof.
  unfold printMember.
  destruct (parseChars_printString v rest) as (tail' & Ev & Pv).
  destruct (parseChars_printString k (":" ++ printString v ++ rest)%string)
    as (tail & Ek & Pk).
  exists tail, tail'. split; [|split].
  - rewrite <- Ek, !append_assoc. reflexivity.
  - rewrite Pk, Ev. reflexivity.
  - exact Pv.
Qed.

Lemma parseValue_string (f : nat) (tail : string) :
  parseValue (S f) (String quote tail)
  = match parseChars tail with
    | Some (str, rest) => Some (JStr str, rest)
    | None => None
    end.
Proof. reflexivity. Qed.

(** One member read by [parseMembers], when its key and its value are
    string literals. *)
Lemma parseMembers_member (f : nat) (acc : JSONObject)
    (tail tail' k v rest : string) :
  parseChars tail = Some (k, String ":" (String quote tail')) ->
  parseChars tail' = Some (v, rest) ->
  parseMembers (S (S f)) acc (String quote tail)
  = match skipWS rest with
    | String "," more => parseMembers (S f) (<[k := JStr v]> acc) more
    | String "}" more => Some (JObj (<[k := JStr v]> acc), more)
    | _ => None
    end.
Proof.
  intros Pk Pv. remember (S f) as g eqn:G.
  cbn [parseMembers]. rewrite skipWS_quote, Ascii.eqb_refl, Pk.
  change (skipWS (String ":" (String quote tail')))
    with (String ":" (String quote tail')).
  cbv iota beta. subst g. rewrite parseValue_string, Pv. reflexivity.
Qed.

Lemma concat_cons_map {A} (sep x : string) (f : A -> string) (y : A)
    (l : list A) :
  String.concat sep (x :: map f (y :: l))
  = (x ++ sep ++ String.concat sep (map f (y :: l)))%string.
Proof. reflexivity. Qed.

Lemma parseMembers_printed (ms : list (string * string)) :
  forall (m : string * string) (f : nat) (acc : JSONObject) (more : string),
    (List.length ms < f)%nat ->
    parseMembers (S f) acc
      (String.concat ","
         (map (fun kv => printMember (fst kv) (printString (snd kv))) (m :: ms))
       ++ String "}" more)%string
    = Some (JObj (membersObject (m :: ms) acc), more).
Proof.
  induction ms as [|m' ms IH]; intros m f acc more Hf;
    destruct f as [|f]; try (simpl in Hf; lia).
  - cbn [map String.concat].
    destruct (printMember_shape (fst m) (snd m) (String "}" more))
      as (tail & tail' & -> & Pk & Pv).
    rewrite (parseMembers_member f acc tail tail' _ _ _ Pk Pv).
    reflexivity.
  - rewrite map_cons, concat_cons_map, !append_assoc, append_String,
      append_empty.
    destruct (printMember_shape (fst m) (snd m)
                (String ","
                   (String.concat ","
                      (map (fun kv => printMember (fst kv) (printString (snd kv)))
                         (m' :: ms)) ++ String "}" more))%string)
      as (tail & tail' & E & Pk & Pv).
    rewrite E.
    rewrite (parseMembers_member f acc tail tail' _ _ _ Pk Pv).
    change (skipWS (String "," ?x)) with (String "," x).
    cbv iota beta.
    apply (IH m' f (<[fst m := JStr (snd m)]> acc) more).
    simpl in Hf. lia.
Qed.

Lemma printMember_quote (k v : string) :
  exists tail, printMember k v = String quote tail.
Proof.
  unfold printMember, printString. rewrite append_String. eexists. reflexivity.
Qed.

Lemma length_printed_members (ms : list (string * string)) :
  (List.length ms
   <= String.length
        (String.concat ","
           (map (fun kv => printMember (fst kv) (printString (snd kv))) ms)))%nat.
Proof.
  induction ms as [|m ms IH]; [apply Nat.le_refl|].
  destruct (printMember_quote (fst m) (printString (snd m))) as [tail E].
  destruct ms as [|m' ms].
  - cbn [map String.concat]. rewrite E. cbn [String.length List.length]. lia.
  - rewrite map_cons, concat_cons_map, !length_append, E.
    cbn [String.length List.length] in *. lia.
Qed.

Lemma parseValue_empty_object (f : nat) (rest : string) :
  parseValue (S f) (String "{" (String "}" rest)) = Some (JObj ∅, rest).
Proof. reflexivity. Qed.

Lemma parseValue_object (f : nat) (tail : string) :
  parseValue (S f) (String "{" (String quote tail))
  = parseMembers f ∅ (String quote tail).
Proof. reflexivity. Qed.

(** A printed object is read back as the object of its members. *)
Lemma parseJSON_printObject (members : list (string * string)) :
  parseJSON (printObject members) = Some (JObj (membersObject members ∅)).
Proof.
  unfold parseJSON.
  pose proof (length_printed_members members) as L.
  unfold printObject in *. rewrite append_String, append_empty.
  set (pm := fun kv : string * string =>
               printMember (fst kv) (printString (snd kv))) in *.
  cbn [String.length]. rewrite length_append. cbn [String.length].
  destruct members as [|m ms].
  - cbn [map String.concat]. rewrite append_empty.
    rewrite parseValue_empty_object. reflexivity.
  - destruct (printMember_quote (fst m) (printString (snd m))) as [tail E].
    assert (Q : exists t,
               (String.concat "," (map pm (m :: ms)) ++ "}")%string
               = String quote t).
    { destruct ms as [|m' ms'].
      - cbn [map String.concat]. unfold pm. rewrite E, append_String.
        eexists. reflexivity.
      - rewrite map_cons, concat_cons_map. unfold pm at 1.
        rewrite E, !append_String. eexists. reflexivity. }
    destruct Q as [t Q]. rewrite Q, parseValue_object, <- Q.
    cbn [List.length] in L.
    replace (String.length (String.concat "," (map pm (m :: ms))) + 1)%nat
      with (S (String.length (String.concat "," (map pm (m :: ms)))))
      by lia.
    rewrite (parseMembers_printed ms m _ ∅ "") by lia.
    reflexivity.
Qed.

(** *** Correlation data *)

(** The executable platform reads back every [tokenData] it writes. *)
Lemma unmarshal_marshal_tokenData (td : tokenData) :
  tokenData_valid td ->
  unmarshalTokenData (marshalTokenData td) = Some td.
Proof.
  intros (Vtx & Vmsg & Vhash).
  unfold unmarshalTokenData, unmarshalJSONObject, marshalTokenData.
  rewrite parseJSON_printObject.
  destruct td as [tx ty msg hash]. unfold tokenDataMembers, membersObject.
  cbn [td_TX td_TXType td_Message td_MessageHash] in *.
  assert (Etx : forall u, tx = Some u -> parseUUID (uuidString (Some u)) = Some u)
    by (intros u E; apply parseUUID_uuidString, Vtx, E).
  assert (Emsg : forall u, msg = Some u -> parseUUID (uuidString (Some u)) = Some u)
    by (intros u E; apply parseUUID_uuidString, Vmsg, E).
  assert (Ehash : forall h, hash = Some h -> parseBytes32 (printHex 64 h) = Some h)
    by (intros h E; apply parseBytes32_printHex, Vhash, E).
  destruct tx as [u|]; destruct (emptyb ty) eqn:Ety;
    destruct msg as [v|]; destruct hash as [h|];
    cbn [app fold_left fst snd mbind option_bind];
    unfold fieldPointer, fieldString;
    rewrite ?lookup_insert, ?lookup_empty;
    repeat match goal with
      | |- context [decide (?a = ?b)] =>
          destruct (decide (a = b));
          [try discriminate | try (exfalso; congruence)]
      end;
    rewrite ?(Etx _ eq_refl), ?(Emsg _ eq_refl), ?(Ehash _ eq_refl);
    try (apply emptyb_true in Ety; subst ty);
    reflexivity.
Qed.

End ReferenceCodec.

(* ================================================================== *)
(** ** The properties at work on concrete frames                       *)
(* ================================================================== *)

Import Examples.

(** A mint without "to" is skipped. *)
Lemma handleTokenTransfer_required_fields_witness :
  ~ transferFieldsPresent TokenTransferTypeMint mintWithoutTo /\
  exists lines,
    @handleTokenTransfer Reference.platform ft 0 TokenTransferTypeMint
      mintWithoutTo start
    = (None, logged start lines).
Proof.
  assert (H : ~ transferFieldsPresent TokenTransferTypeMint mintWithoutTo).
  { intros (_ & _ & _ & _ & _ & Ht). apply Ht; [discriminate | reflexivity]. }
  split; [exact H|].
  exact (proj1 (@handleTokenTransfer_required_fields Reference.platform ft 0
                  TokenTransferTypeMint mintWithoutTo start) H).
Defined.

(** A mint of "12x" tokens is skipped. *)
Lemma handleTokenTransfer_bad_amount_witness :
  @big_SetString10 Reference.platform (GetString mintBadAmount "amount") = None
  /\
  exists lines,
    @handleTokenTransfer Reference.platform ft 0 TokenTransferTypeMint
      mintBadAmount start
    = (None, logged start lines).
Proof.
  split; [reflexivity|].
  exact (proj1 (@handleTokenTransfer_bad_amount Reference.platform ft 0
                  TokenTransferTypeMint mintBadAmount start eq_refl)).
Defined.


(** The pool frame numbered 7 is acknowledged once, after the callback,
    and the acknowledgement reads [ackText "7"]: the object with "data",
    holding the "id" 7, and the "event" ack. *)
Lemma eventLoop_acknowledgement_witness :
  @json_Unmarshal_wsEvent Reference.platform poolFrame = Some poolEnvelope /\
  calls (snd (@eventLoop Reference.platform ft [Received 0 poolFrame] start))
  = calls (snd (@dispatch Reference.platform ft 0 poolEnvelope
                  (afterReceive start)))
    ++ [WSSend (ackText "7")] /\
  sentFrames
    (callsSince start
       (snd (@eventLoop Reference.platform ft [Received 0 poolFrame] start)))
  = [ackText "7"].
Proof.
  assert (U : @json_Unmarshal_wsEvent Reference.platform poolFrame
              = Some poolEnvelope) by (vm_compute; reflexivity).
  split; [exact U|].
  destruct (@eventLoop_acknowledgement Reference.platform ft 0 poolFrame
              poolEnvelope [] start None
              (snd (@dispatch Reference.platform ft 0 poolEnvelope
                      (afterReceive start))) U)
    as (_ & Pos & _).
  - vm_compute. reflexivity.
  - destruct Pos as (_ & Sent & Loop).
    + reflexivity.
    + discriminate.
    + discriminate.
    + split; [vm_compute; reflexivity|].
      etransitivity; [exact Sent|]. vm_compute. reflexivity.
Defined.

(** In front of a node that refuses the pool, the loop returns after the
    pool frame, whatever follows. *)
Lemma eventLoop_fail_fast_witness :
  @json_Unmarshal_wsEvent Reference.platform poolFrame = Some poolEnvelope /\
  exists final,
    calls final
    = calls (snd (@dispatch Reference.platform ftRefused 0 poolEnvelope
                    (afterReceive start))) ++ [WSClose] /\
    forall rest,
      @eventLoop Reference.platform ftRefused (Received 0 poolFrame :: rest)
        start
      = (Exited, final).
Proof.
  assert (U : @json_Unmarshal_wsEvent Reference.platform poolFrame
              = Some poolEnvelope) by (vm_compute; reflexivity).
  split; [exact U|].
  refine (proj1 (@eventLoop_fail_fast Reference.platform ftRefused 0 poolFrame
                   poolEnvelope start (Some (CollaboratorErr "storage down"))
                   _ U _) _).
  - vm_compute. reflexivity.
  - eexists _, (CollaboratorErr "storage down").
    split; [|split]; [| vm_compute; reflexivity |]; reflexivity.
Defined.

(** The receipt of the scenario reaches the node as succeeded, with its
    hash. *)
Lemma receipt_handling_witness :
  GetString receiptPayload "id" <> "" /\
  @ParseUUID Reference.platform (GetString receiptPayload "id") = Some opID /\
  exists lines,
    @handleReceipt Reference.platform ft receiptPayload start
    = (tt,
       called (logged start lines)
         [CallTokenOpUpdate opID OpStatusSucceeded "0xabc" "" receiptPayload]).
Proof.
  assert (I : GetString receiptPayload "id" <> "")
    by (vm_compute; discriminate).
  assert (U : @ParseUUID Reference.platform (GetString receiptPayload "id")
              = Some opID) by (vm_compute; reflexivity).
  split; [exact I|]. split; [exact U|].
  exact (proj1 (proj2 (@receipt_handling Reference.platform ft receiptPayload
                         start)) opID I U).
Defined.

(** A pool whose "blockchain" object only has a name gets no event. *)
Lemma handleTokenPoolCreate_event_gate_witness :
  GetString poolWithBareBlockchain "type" <> "" /\
  GetString poolWithBareBlockchain "poolLocator" <> "" /\
  exists lines pool,
    @handleTokenPoolCreate Reference.platform ft 0 poolWithBareBlockchain start
    = (None, called (logged start lines) [CallTokenPoolCreated pool]) /\
    tokens.tp_Event pool = blockchain.zero.
Proof.
  assert (T : GetString poolWithBareBlockchain "type" <> "")
    by (vm_compute; discriminate).
  assert (L : GetString poolWithBareBlockchain "poolLocator" <> "")
    by (vm_compute; discriminate).
  split; [exact T|]. split; [exact L|].
  destruct (proj2 (@handleTokenPoolCreate_event_gate Reference.platform ft 0
                     poolWithBareBlockchain start) T L)
    as (lines & pool & E & _ & _ & _ & _ & Bare).
  exists lines, pool. split; [exact E|].
  apply (Bare (object [("name", JStr "TokenPoolCreation")]));
    vm_compute; reflexivity.
Defined.

(** C8 as stated fails on an answer with status 200 whose body is not
    JSON: the operation reports no completion, and a parse error. *)
Lemma completion_needs_a_decodable_body :
  (forall history path body,
      res_StatusCode (Post (client ftGarbled) history path body) = 200) /\
  fst (@CreateTokenPool Reference.platform ftGarbled 0 (Some opID)
         (poolToCreate "token_pool") start)
  = (false, Some (JSONObjectParseFailed "OK")) /\
  fst (fst (@CreateTokenPool Reference.platform ftGarbled 0 (Some opID)
              (poolToCreate "token_pool") start)) <> true.
Proof.
  split; [reflexivity|]. split; [vm_compute; reflexivity|].
  vm_compute. discriminate.
Qed.

(** An answer with status 200 and a pool in its body completes the
    operation. *)
Lemma synchronous_completion_witness :
  fst (fst (@CreateTokenPool Reference.platform ftSynchronous 0 (Some opID)
              (poolToCreate "token_pool") start)) = true /\
  snd (@MintTokens Reference.platform ft (Some opID) "pool1" aTransfer start)
  = called start
      [HTTPPost "/api/v1/mint"
         (BodyMintTokens
            {| mt_PoolLocator := "pool1"; mt_TokenIndex := "";
               mt_To := "0x02"; mt_Amount := "100";
               mt_RequestID := Reference.uuidString (Some opID);
               mt_Signer := "0x01";
               mt_Data := Reference.marshalTokenData
                            (transferTokenData aTransfer) |})].
Proof.
  destruct (@synchronous_completion Reference.platform ftSynchronous 0
              (Some opID) (poolToCreate "token_pool") "pool1" aTransfer
              anApproval start) as [PoolOps _].
  destruct (PoolOps (@CreateTokenPool Reference.platform)) as (path & body & Flag & _).
  { left. reflexivity. }
  split.
  - apply Flag. split; [|split].
    + intros [F | F]; [apply F; reflexivity | apply F; simpl; lia].
    + reflexivity.
    + change (@json_Unmarshal_JSONObject Reference.platform
                (Reference.marshalJSONObject poolPayload) <> None).
      assert (E : @json_Unmarshal_JSONObject Reference.platform
                    (Reference.marshalJSONObject poolPayload)
                  = Some poolPayload) by (vm_compute; reflexivity).
      rewrite E. discriminate.
  - vm_compute. reflexivity.
Defined.

(** An approval payload without "approved" is reported as a revocation. *)
Lemma handleTokenApproval_flag_not_validated_witness :
  approvalFieldsPresent approvalPayload /\
  approvalPayload !! "approved" = None /\
  exists lines approval,
    @handleTokenApproval Reference.platform ft 0 approvalPayload start
    = (None, called (logged start lines) [CallTokensApproved approval]) /\
    ta_Approved (tokens.apv_TokenApproval approval) = false.
Proof.
  assert (F : approvalFieldsPresent approvalPayload)
    by (repeat split; vm_compute; discriminate).
  assert (A : approvalPayload !! "approved" = None)
    by (vm_compute; reflexivity).
  split; [exact F|]. split; [exact A|].
  destruct (@handleTokenApproval_flag_not_validated Reference.platform ft 0
              approvalPayload start F)
    as (lines & approval & E & _ & Revoked).
  exists lines, approval. split; [exact E|].
  apply Revoked. rewrite A. discriminate.
Defined.

(** A mint without "blockchain" object still carries an event, stamped
    with the time of reception. *)
Lemma transfer_approval_event_always_witness :
  transferFieldsPresent TokenTransferTypeMint mintPayload /\
  @big_SetString10 Reference.platform (GetString mintPayload "amount")
  = Some 100 /\
  mintPayload !! "blockchain" = None /\
  exists lines transfer,
    @handleTokenTransfer Reference.platform ft 5 TokenTransferTypeMint
      mintPayload start
    = (None, called (logged start lines) [CallTokensTransferred transfer]) /\
    blockchain.ev_Source (tokens.tr_Event transfer) = "fftokens:erc1155" /\
    blockchain.ev_Timestamp (tokens.tr_Event transfer) = Some 5.
Proof.
  assert (F : transferFieldsPresent TokenTransferTypeMint mintPayload).
  { repeat split; try (vm_compute; discriminate).
    intros M. contradiction M. reflexivity. }
  assert (A : @big_SetString10 Reference.platform
                (GetString mintPayload "amount") = Some 100)
    by (vm_compute; reflexivity).
  assert (B : mintPayload !! "blockchain" = None)
    by (vm_compute; reflexivity).
  split; [exact F|]. split; [exact A|]. split; [exact B|].
  destruct (@transfer_approval_event_always Reference.platform ft 5
              mintPayload start)
    as (Transfers & _ & Src & Stamp & _).
  destruct (Transfers TokenTransferTypeMint 100 F A)
    as (lines & transfer & E & Ee).
  exists lines, transfer. split; [exact E|]. rewrite Ee.
  split; [exact Src|]. rewrite Stamp. vm_compute. reflexivity.
Defined.

(* ================================================================== *)
(** ** Whole runs of the event loop                                    *)
(* ================================================================== *)

Section Runs.

Context {P : Platform}.

Create Rewrite HintDb runs.

#[local] Hint Rewrite logged_logged called_called logged_called logged_nil
  called_nil calls_logged calls_called callsSince_called_logged
  callsSince_logged : runs.

(** What one frame that parses does to the loop: the handler makes its
    calls, all of them callbacks, and then the loop either goes on, with
    the acknowledgement sent if one is due, or returns because a callback
    failed, or returns because the acknowledgement could not be sent. *)
Lemma frame_outcome (ft : FFTokens) (now : FFTime) (b : string)
    (msg : wsEvent) (w : World) :
  json_Unmarshal_wsEvent b = Some msg ->
  exists cbs,
    forallb isCallback cbs = true /\
    ((exists w1,
         calls w1
         = calls w ++ cbs ++ (if eligible msg then [WSSend (ackOf msg)] else []) /\
         (forall a, In a cbs -> callbackAnswer ft (calls w) a = None) /\
         (eligible msg = true ->
          Send (wsconn ft) (calls w ++ cbs) (ackOf msg) = None) /\
         forall rest,
           eventLoop ft (Received now b :: rest) w = eventLoop ft rest w1)
     \/
     (exists wf a e,
         cbs = [a] /\ callbackAnswer ft (calls w) a = Some e /\
         calls wf = calls w ++ cbs ++ [WSClose] /\
         forall rest, eventLoop ft (Received now b :: rest) w = (Exited, wf))
     \/
     (exists wf e,
         eligible msg = true /\
         Send (wsconn ft) (calls w ++ cbs) (ackOf msg) = Some e /\
         calls wf = calls w ++ cbs ++ [WSSend (ackOf msg); WSClose] /\
         forall rest, eventLoop ft (Received now b :: rest) w = (Exited, wf))).
Proof.
  intros U.
  destruct (dispatch ft now msg (afterReceive w)) as [err wd] eqn:D.
  assert (C : exists cbs,
             calls wd = calls w ++ cbs /\ forallb isCallback cbs = true /\
             (err = None ->
              forall a, In a cbs -> callbackAnswer ft (calls w) a = None) /\
             (forall e, err = Some e ->
                        exists a, cbs = [a] /\
                                  callbackAnswer ft (calls w) a = Some e)).
  { destruct (dispatch_calls ft now msg w err wd D)
      as [[E ->] | (a & Ha & E & ->)].
    - exists []. rewrite app_nil_r. repeat split; try assumption.
      + intros _ a [].
      + intros e He. discriminate He.
    - exists [a]. repeat split; try assumption.
      + simpl. rewrite Ha. reflexivity.
      + intros He a' [<- | []]. exact He.
      + intros e He. exists a. split; [reflexivity | exact He]. }
  destruct C as (cbs & Ecbs & Hcbs & Hnone & Hsome).
  exists cbs. split; [exact Hcbs|].
  destruct err as [e|].
  - right. left. destruct (Hsome e eq_refl) as (a & -> & Ans).
    exists (exited wd), a, e. repeat split; try assumption.
    + rewrite calls_exited, Ecbs, <- app_assoc. reflexivity.
    + intros rest.
      apply (frame_without_ack ft now b msg rest w (Some e) wd U D).
      left. discriminate.
  - unfold eligible, ackOf.
    destruct (String.eqb (ws_Event msg) messageReceipt) eqn:R;
      [|destruct (emptyb (ws_ID msg)) eqn:I]; simpl.
    + left. exists wd. rewrite app_nil_r. repeat split; try assumption.
      * apply Hnone. reflexivity.
      * discriminate.
      * intros rest.
        apply (frame_without_ack ft now b msg rest w None wd U D).
        right. left. apply String.eqb_eq, R.
    + left. exists wd. rewrite app_nil_r. repeat split; try assumption.
      * apply Hnone. reflexivity.
      * discriminate.
      * intros rest.
        apply (frame_without_ack ft now b msg rest w None wd U D).
        right. right. apply emptyb_true, I.
    + apply String.eqb_neq in R. apply emptyb_false in I.
      pose proof (fun rest => frame_with_ack ft now b msg rest w wd U D R I)
        as Loop.
      rewrite Ecbs in Loop.
      destruct (Send (wsconn ft) (calls w ++ cbs)
                  (json_Marshal_JSONObject (ackFrame (ws_ID msg))))
        as [e|] eqn:S.
      * right. right.
        exists (exited (called (logged wd [(Debug, "Sending ack %s")])
                          [WSSend (json_Marshal_JSONObject
                                     (ackFrame (ws_ID msg)))])), e.
        repeat split; try assumption.
        all: try (rewrite calls_exited; simpl; rewrite Ecbs, <- !app_assoc;
                  reflexivity).
        all: intros rest; rewrite (Loop rest), S; reflexivity.
      * left.
        exists (called (logged wd [(Debug, "Sending ack %s")])
                  [WSSend (json_Marshal_JSONObject (ackFrame (ws_ID msg)))]).
        repeat split; try assumption.
        all: try (simpl; rewrite Ecbs, <- app_assoc; reflexivity).
        all: try (apply Hnone; reflexivity).
        all: intros rest; rewrite (Loop rest), S; reflexivity.
Qed.

Lemma eventLoop_unparsed (ft : FFTokens) (now : FFTime) (b : string)
    (rest : list selected) (w : World) :
  json_Unmarshal_wsEvent b = None ->
  eventLoop ft (Received now b :: rest) w
  = eventLoop ft rest
      (logged w [(Error, "Message cannot be parsed as JSON: %s\n%s")]).
Proof. intros U. simpl. rewrite U. reflexivity. Qed.

Lemma eventLoop_cancelled (ft : FFTokens) (rest : list selected) (w : World) :
  eventLoop ft (CtxDone :: rest) w
  = (Exited,
     called (logged w [(Debug, "Event loop exiting (context cancelled)")])
       [WSClose]).
Proof. reflexivity. Qed.

Lemma eventLoop_closed (ft : FFTokens) (rest : list selected) (w : World) :
  eventLoop ft (ReceiveClosed :: rest) w
  = (Exited,
     called (logged w [(Debug, "Event loop exiting (receive channel closed)")])
       [WSClose]).
Proof. reflexivity. Qed.

(** Running over two stretches of input, one after the other. *)
Lemma eventLoop_app (ft : FFTokens) (l1 l2 : list selected) (w : World) :
  eventLoop ft (l1 ++ l2) w
  = let (state, w1) := eventLoop ft l1 w in
    match state with
    | Exited => (Exited, w1)
    | Waiting => eventLoop ft l2 w1
    end.
Proof.
  revert w. induction l1 as [|s l1 IH]; intros w; [reflexivity|].
  rewrite <- app_comm_cons.
  destruct s as [| |now b].
  - rewrite !eventLoop_cancelled. reflexivity.
  - rewrite !eventLoop_closed. reflexivity.
  - destruct (json_Unmarshal_wsEvent b) as [msg|] eqn:U.
    + destruct (frame_outcome ft now b msg w U)
        as (cbs & _ & [(w1 & _ & _ & _ & Go)
                      | [(wf & a & e & _ & _ & _ & Stop)
                        | (wf & e & _ & _ & _ & Stop)]]).
      * rewrite !Go. apply IH.
      * rewrite !Stop. reflexivity.
      * rewrite !Stop. reflexivity.
    + rewrite !(eventLoop_unparsed ft now b _ w U). apply IH.
Qed.

(** The history only grows. *)
Lemma eventLoop_extends (ft : FFTokens) (l : list selected) (w : World) :
  exists d, calls (snd (eventLoop ft l w)) = calls w ++ d.
Proof.
  revert w. induction l as [|s l IH]; intros w.
  - exists []. rewrite app_nil_r. reflexivity.
  - destruct s as [| |now b].
    + exists [WSClose]. reflexivity.
    + exists [WSClose]. reflexivity.
    + destruct (json_Unmarshal_wsEvent b) as [msg|] eqn:U.
      * destruct (frame_outcome ft now b msg w U)
          as (cbs & _ & [(w1 & E & _ & _ & Go)
                        | [(wf & a & e & _ & _ & E & Stop)
                          | (wf & e & _ & _ & E & Stop)]]).
        -- rewrite Go. destruct (IH w1) as [d Ed]. rewrite Ed, E.
           rewrite <- !app_assoc. eexists. reflexivity.
        -- rewrite Stop. simpl. rewrite E. eexists. reflexivity.
        -- rewrite Stop. simpl. rewrite E. eexists. reflexivity.
      * rewrite (eventLoop_unparsed ft now b _ w U).
        destruct (IH (logged w [(Error, "Message cannot be parsed as JSON: %s\n%s")]))
          as [d Ed].
        exists d. rewrite Ed. reflexivity.
Qed.

Lemma callsSince_split (w w1 w' : World) (d1 : list Action) :
  calls w1 = calls w ++ d1 ->
  (exists d2, calls w' = calls w1 ++ d2) ->
  callsSince w w' = d1 ++ callsSince w1 w'.
Proof.
  intros E1 [d2 E2].
  rewrite (callsSince_app w1 w' d2 E2).
  apply callsSince_app. rewrite E2, E1, <- app_assoc. reflexivity.
Qed.

Lemma acksDue_frame (now : FFTime) (b : string) (rest : list selected) :
  acksDue (Received now b :: rest)
  = match json_Unmarshal_wsEvent b with
    | Some msg =>
        (if eligible msg then [ackOf msg] else []) ++ acksDue rest
    | None => acksDue rest
    end.
Proof.
  unfold acksDue, parsedFrames. simpl.
  destruct (json_Unmarshal_wsEvent b) as [msg|]; [|reflexivity].
  simpl. destruct (eligible msg); reflexivity.
Qed.

Lemma sentFrames_ack (msg : wsEvent) (cbs : list Action) :
  forallb isCallback cbs = true ->
  sentFrames (cbs ++ (if eligible msg then [WSSend (ackOf msg)] else []))
  = if eligible msg then [ackOf msg] else [].
Proof.
  intros H. rewrite sentFrames_app, (sentFrames_callbacks cbs H).
  destruct (eligible msg); reflexivity.
Qed.

(** X1.  The loop over two stretches of input, one after the other: when
    the first stretch leaves it waiting, the second is processed from the
    world the first has left; when the first makes it return, the second is
    never looked at. *)
Theorem eventLoop_composes (ft : FFTokens) (l1 l2 : list selected)
    (w w1 : World) :
  (eventLoop ft l1 w = (Waiting, w1) ->
   eventLoop ft (l1 ++ l2) w = eventLoop ft l2 w1) /\
  (eventLoop ft l1 w = (Exited, w1) ->
   eventLoop ft (l1 ++ l2) w = (Exited, w1)).
Proof.
  split; intros E; rewrite eventLoop_app, E; reflexivity.
Qed.

(** X2.  The connection is closed when and only when the loop returns:
    a run that ends with the loop returned has made exactly one [Close],
    as its very last call; a run that leaves the loop waiting has made
    none.  Nothing is ever taken back from the history. *)
Theorem eventLoop_closes_once (ft : FFTokens) (l : list selected) (w : World) :
  exists d,
    calls (snd (eventLoop ft l w)) = calls w ++ d /\
    match fst (eventLoop ft l w) with
    | Exited => exists before, d = before ++ [WSClose] /\ ~ In WSClose before
    | Waiting => ~ In WSClose d
    end.
Proof.
  assert (NoClose : forall cbs msg,
             forallb isCallback cbs = true ->
             ~ In WSClose
                 (cbs ++ (if eligible msg then [WSSend (ackOf msg)] else []))).
  { intros cbs msg H I. apply in_app_or in I as [I | I].
    - rewrite forallb_forall in H. specialize (H _ I). discriminate H.
    - destruct (eligible msg); [destruct I as [I | []]; discriminate I
                               | destruct I]. }
  revert w. induction l as [|s l IH]; intros w.
  - exists []. rewrite app_nil_r. split; [reflexivity|]. intros [].
  - destruct s as [| |now b].
    + exists [WSClose]. split; [reflexivity|].
      exists []. split; [reflexivity|]. intros [].
    + exists [WSClose]. split; [reflexivity|].
      exists []. split; [reflexivity|]. intros [].
    + destruct (json_Unmarshal_wsEvent b) as [msg|] eqn:U.
      * destruct (frame_outcome ft now b msg w U)
          as (cbs & Hcbs & [(w1 & E & _ & _ & Go)
                           | [(wf & a & e & _ & _ & E & Stop)
                             | (wf & e & _ & _ & E & Stop)]]).
        -- rewrite Go. destruct (IH w1) as (d & Ed & Hd).
           exists ((cbs ++ (if eligible msg then [WSSend (ackOf msg)] else []))
                   ++ d).
           split; [rewrite Ed, E, <- !app_assoc; reflexivity|].
           destruct (fst (eventLoop ft l w1)).
           ++ destruct Hd as (before & -> & Hb).
              exists ((cbs ++ (if eligible msg then [WSSend (ackOf msg)] else []))
                      ++ before).
              split; [rewrite <- !app_assoc; reflexivity|].
              intros I. apply in_app_or in I as [I | I];
                [exact (NoClose cbs msg Hcbs I) | exact (Hb I)].
           ++ intros I. apply in_app_or in I as [I | I];
                [exact (NoClose cbs msg Hcbs I) | exact (Hd I)].
        -- rewrite Stop. simpl. exists (cbs ++ [WSClose]).
           split; [exact E|]. exists cbs. split; [reflexivity|].
           intros I. rewrite forallb_forall in Hcbs. specialize (Hcbs _ I).
           discriminate Hcbs.
        -- rewrite Stop. simpl. exists (cbs ++ [WSSend (ackOf msg); WSClose]).
           split; [exact E|]. exists (cbs ++ [WSSend (ackOf msg)]).
           split; [rewrite <- app_assoc; reflexivity|].
           intros I. apply in_app_or in I as [I | [I | []]].
           ++ rewrite forallb_forall in Hcbs. specialize (Hcbs _ I).
              discriminate Hcbs.
           ++ discriminate I.
      * rewrite (eventLoop_unparsed ft now b _ w U).
        destruct (IH (logged w [(Error, "Message cannot be parsed as JSON: %s\n%s")]))
          as (d & Ed & Hd).
        exists d. split; [exact Ed | exact Hd].
Qed.

(** X3.  Acknowledgements follow the order of arrival.  Whatever arrives
    and however the collaborators answer, the frames sent by the loop are
    the acknowledgements of the first so many frames that are due one
    (parsed, not a receipt, with an identifier), in the order in which
    these arrived: none is skipped, none repeated, none made up. *)
Theorem eventLoop_acks_in_order (ft : FFTokens) (l : list selected)
    (w : World) :
  sentFrames (callsSince w (snd (eventLoop ft l w))) `prefix_of` acksDue l.
Proof.
  revert w. induction l as [|s l IH]; intros w.
  - change (snd (eventLoop ft [] w)) with w.
    rewrite (callsSince_same_calls w w eq_refl). apply prefix_nil.
  - destruct s as [| |now b].
    + rewrite eventLoop_cancelled. cbn [snd].
      rewrite callsSince_called_logged. apply prefix_nil.
    + rewrite eventLoop_closed. cbn [snd].
      rewrite callsSince_called_logged. apply prefix_nil.
    + rewrite acksDue_frame.
      destruct (json_Unmarshal_wsEvent b) as [msg|] eqn:U.
      * destruct (frame_outcome ft now b msg w U)
          as (cbs & Hcbs & [(w1 & E & _ & _ & Go)
                           | [(wf & a & e & _ & _ & E & Stop)
                             | (wf & e & El & _ & E & Stop)]]).
        -- rewrite Go.
           rewrite (callsSince_split w w1 _ _ E (eventLoop_extends ft l w1)).
           rewrite sentFrames_app, (sentFrames_ack msg cbs Hcbs).
           apply prefix_app, IH.
        -- rewrite Stop. simpl. rewrite (callsSince_app w wf _ E).
           rewrite sentFrames_app, (sentFrames_callbacks cbs Hcbs).
           apply prefix_nil.
        -- rewrite Stop. simpl. rewrite (callsSince_app w wf _ E).
           rewrite sentFrames_app, (sentFrames_callbacks cbs Hcbs), El.
           simpl. apply prefix_cons, prefix_nil.
      * rewrite (eventLoop_unparsed ft now b _ w U).
        exact (IH (logged w [(Error, "Message cannot be parsed as JSON: %s\n%s")])).
Qed.

(** X4.  In front of collaborators that never fail, and as long as frames
    are all that arrives, the loop never returns, and it acknowledges
    every frame that is due an acknowledgement, once, in the order of
    arrival. *)
Theorem eventLoop_healthy_run (ft : FFTokens) (l : list selected) (w : World) :
  healthy ft ->
  framesOnly l ->
  fst (eventLoop ft l w) = Waiting /\
  sentFrames (callsSince w (snd (eventLoop ft l w))) = acksDue l.
Proof.
  intros (Hpool & Htransfer & Happroval & Hsend) Hl.
  revert w. induction Hl as [|s l Hs Hl IH]; intros w.
  - split; [reflexivity|].
    change (snd (eventLoop ft [] w)) with w.
    rewrite (callsSince_same_calls w w eq_refl). reflexivity.
  - destruct s as [| |now b]; try contradiction.
    rewrite acksDue_frame.
    destruct (json_Unmarshal_wsEvent b) as [msg|] eqn:U.
    + destruct (frame_outcome ft now b msg w U)
        as (cbs & Hcbs & [(w1 & E & _ & _ & Go)
                         | [(wf & a & e & _ & Ans & _)
                           | (wf & e & _ & S & _)]]).
      * rewrite Go. destruct (IH w1) as [Hw Hacks]. split; [exact Hw|].
        rewrite (callsSince_split w w1 _ _ E (eventLoop_extends ft l w1)).
        rewrite sentFrames_app, (sentFrames_ack msg cbs Hcbs), Hacks.
        reflexivity.
      * exfalso. destruct a; simpl in Ans; try discriminate Ans.
        -- rewrite Hpool in Ans. discriminate Ans.
        -- rewrite Htransfer in Ans. discriminate Ans.
        -- rewrite Happroval in Ans. discriminate Ans.
      * exfalso. rewrite Hsend in S. discriminate S.
    + rewrite (eventLoop_unparsed ft now b _ w U).
      exact (IH (logged w [(Error, "Message cannot be parsed as JSON: %s\n%s")])).
Qed.

(** X5.  Cancellation and closure end the loop cleanly.  Once the loop
    is waiting, a cancelled context or a closed receive channel makes it
    return with the connection closed and nothing else done: no callback,
    no frame sent, and whatever was still to arrive left alone. *)
Theorem eventLoop_stops_cleanly (ft : FFTokens) (before after : list selected)
    (stop : selected) (w w1 : World) :
  eventLoop ft before w = (Waiting, w1) ->
  stop = CtxDone \/ stop = ReceiveClosed ->
  exists line,
    eventLoop ft (before ++ stop :: after) w
    = (Exited, called (logged w1 [(Debug, line)]) [WSClose]).
Proof.
  intros E Hstop. rewrite eventLoop_app, E.
  destruct Hstop as [-> | ->]; eexists; reflexivity.
Qed.

(** *** The switch of the loop *)

Lemma knownKind_false (e : msgType) :
  knownKind e = false ->
  String.eqb e messageReceipt = false /\
  String.eqb e messageTokenPool = false /\
  String.eqb e messageTokenMint = false /\
  String.eqb e messageTokenBurn = false /\
  String.eqb e messageTokenTransfer = false /\
  String.eqb e messageTokenApproval = false.
Proof.
  unfold knownKind. rewrite !orb_false_iff. tauto.
Qed.

(** X6.  A frame of a kind the loop does not know is logged and otherwise
    treated as handled: no callback is made, the frame is acknowledged if
    it has an identifier, and the loop goes on (unless the
    acknowledgement cannot be sent). *)
Theorem unknown_kind_is_acknowledged (ft : FFTokens) (now : FFTime)
    (b : string) (msg : wsEvent) (rest : list selected) (w : World) :
  json_Unmarshal_wsEvent b = Some msg ->
  knownKind (ws_Event msg) = false ->
  (ws_ID msg <> "" ->
   exists lines,
     eventLoop ft (Received now b :: rest) w
     = match Send (wsconn ft) (calls w) (ackOf msg) with
       | None =>
           eventLoop ft rest (called (logged w lines) [WSSend (ackOf msg)])
       | Some _ =>
           (Exited, exited (called (logged w lines) [WSSend (ackOf msg)]))
       end) /\
  (ws_ID msg = "" ->
   exists lines,
     eventLoop ft (Received now b :: rest) w
     = eventLoop ft rest (logged w lines)).
Proof.
  intros U K.
  destruct (knownKind_false _ K) as (K1 & K2 & K3 & K4 & K5 & K6).
  assert (D : dispatch ft now msg (afterReceive w)
              = (None,
                 logged w [(Debug, "Received %s event %s");
                           (Error, "Message unexpected: %s")])).
  { unfold dispatch. rewrite K1, K2, K3, K4, K5, K6.
    unfold bind. rewrite log_run. unfold ret, afterReceive.
    rewrite logged_logged. reflexivity. }
  split.
  - intros I.
    exists [(Debug, "Received %s event %s"); (Error, "Message unexpected: %s");
            (Debug, "Sending ack %s")].
    rewrite (frame_with_ack ft now b msg rest w _ U D
               (proj1 (String.eqb_neq _ _) K1) I).
    unfold ackOf. autorewrite with runs. reflexivity.
  - intros I. eexists.
    rewrite (frame_without_ack ft now b msg rest w None _ U D
               (or_intror (or_intror I))).
    reflexivity.
Qed.

(** X7.  One frame, at most one callback.  The switch of the loop makes
    no call at all, or exactly one, which is a callback of the node; it
    never sends a frame, closes the connection or posts a request.  The
    error it yields is the answer of that callback, and nil when no
    callback was made or when the frame is a receipt. *)
Theorem dispatch_one_callback (ft : FFTokens) (now : FFTime) (msg : wsEvent)
    (w : World) :
  (exists lines,
      dispatch ft now msg w = (None, logged w lines) \/
      exists a,
        isCallback a = true /\
        dispatch ft now msg w
        = (callbackAnswer ft (calls w) a, called (logged w lines) [a])) /\
  (ws_Event msg = messageReceipt -> fst (dispatch ft now msg w) = None).
Proof.
  split; [apply dispatch_run|].
  intros R. unfold dispatch. rewrite R. simpl. unfold bind.
  destruct (handleReceipt ft (ws_Data msg) w). reflexivity.
Qed.

(** X8.  Every callback answers its own kind of frame.  A call the
    switch makes is [TokenOpUpdate] only for a receipt, [TokenPoolCreated]
    only for a pool frame, [TokensApproved] only for an approval frame,
    and [TokensTransferred] only for a mint, burn or transfer frame, with
    a record whose type is the one the kind of the frame stands for. *)
Theorem dispatch_routing (ft : FFTokens) (now : FFTime) (msg : wsEvent)
    (w : World) (a : Action) :
  In a (callsSince w (snd (dispatch ft now msg w))) ->
  match a with
  | CallTokenOpUpdate _ _ _ _ _ => ws_Event msg = messageReceipt
  | CallTokenPoolCreated _ => ws_Event msg = messageTokenPool
  | CallTokensTransferred transfer =>
      transferKind (ws_Event msg)
      = Some (tt_Type (tokens.tr_TokenTransfer transfer))
  | CallTokensApproved _ => ws_Event msg = messageTokenApproval
  | _ => False
  end.
Proof.
  assert (T : forall t,
             In a (callsSince w (snd (handleTokenTransfer ft now t (ws_Data msg) w))) ->
             exists transfer,
               a = CallTokensTransferred transfer /\
               tt_Type (tokens.tr_TokenTransfer transfer) = t).
  { intros t.
    destruct (handleTokenTransfer_run ft now t (ws_Data msg) w)
      as [(lines & E & _)
         | (lines & transfer & amount & E & _ & _ & _ & Et & _)];
      rewrite E; cbn [snd]; autorewrite with runs.
    - intros [].
    - intros [<- | []]. exists transfer. split; [reflexivity | exact Et]. }
  unfold dispatch.
  destruct (String.eqb (ws_Event msg) messageReceipt) eqn:K1.
  { apply String.eqb_eq in K1. unfold bind, ret. rewrite handleReceipt_run.
    destruct (emptyb (GetString (ws_Data msg) "id"));
      [|destruct (ParseUUID (GetString (ws_Data msg) "id"))];
      cbn [snd]; autorewrite with runs;
      [intros [] | intros [<- | []]; exact K1 | intros []]. }
  destruct (String.eqb (ws_Event msg) messageTokenPool) eqn:K2.
  { apply String.eqb_eq in K2.
    destruct (handleTokenPoolCreate_run ft now (ws_Data msg) w)
      as [[E _] | (lines & pool & E & _)];
      rewrite E; cbn [snd]; autorewrite with runs;
      [intros [] | intros [<- | []]; exact K2]. }
  unfold transferKind.
  destruct (String.eqb (ws_Event msg) messageTokenMint) eqn:K3.
  { intros I. destruct (T _ I) as (transfer & -> & ->). reflexivity. }
  destruct (String.eqb (ws_Event msg) messageTokenBurn) eqn:K4.
  { intros I. destruct (T _ I) as (transfer & -> & ->). reflexivity. }
  destruct (String.eqb (ws_Event msg) messageTokenTransfer) eqn:K5.
  { intros I. destruct (T _ I) as (transfer & -> & ->). reflexivity. }
  destruct (String.eqb (ws_Event msg) messageTokenApproval) eqn:K6.
  { apply String.eqb_eq in K6.
    destruct (handleTokenApproval_run ft now (ws_Data msg) w)
      as [[E _] | (lines & approval & E & _)];
      rewrite E; cbn [snd]; autorewrite with runs;
      [intros [] | intros [<- | []]; exact K6]. }
  unfold bind, ret. rewrite log_run. cbn [snd]. autorewrite with runs.
  intros [].
Qed.

(** *** Logging and malformed frames *)

Lemma logBlind_ret {A} (a : A) : logBlind (ret a).
Proof. intros w1 w2 H. split; [reflexivity | exact H]. Qed.

Lemma logBlind_log (l : Level) (fmt : string) : logBlind (log l fmt).
Proof. intros w1 w2 H. split; [reflexivity | exact H]. Qed.

Lemma logBlind_perform {A} (answer : list Action -> A) (a : Action) :
  logBlind (perform answer a).
Proof.
  intros w1 w2 H. unfold perform. simpl. rewrite H. split; reflexivity.
Qed.

Lemma logBlind_bind {A B} (m : M A) (k : A -> M B) :
  logBlind m -> (forall a, logBlind (k a)) -> logBlind (bind m k).
Proof.
  intros Hm Hk w1 w2 H. unfold bind.
  destruct (Hm w1 w2 H) as [Ha Hw].
  destruct (m w1) as [a1 w1'], (m w2) as [a2 w2']. simpl in Ha, Hw. subst a2.
  apply (Hk a1 w1' w2' Hw).
Qed.

Ltac blind :=
  repeat first
    [ apply logBlind_ret
    | apply logBlind_log
    | apply logBlind_perform
    | apply logBlind_bind; [|intros ?]
    | match goal with
      | |- logBlind (if ?c then _ else _) => destruct c
      | |- logBlind (match ?x with _ => _ end) => destruct x
      end ].

Lemma logBlind_dispatch (ft : FFTokens) (now : FFTime) (msg : wsEvent) :
  logBlind (dispatch ft now msg).
Proof.
  unfold dispatch, handleReceipt, handleTokenPoolCreate, handleTokenTransfer,
    handleTokenApproval, decodeTokenData.
  cbv zeta. blind.
Qed.

Lemma logBlind_acknowledge (ft : FFTokens) (msg : wsEvent)
    (err : option error) :
  logBlind (acknowledge ft msg err).
Proof. unfold acknowledge. cbv zeta. blind. Qed.

Lemma logBlind_eventLoop (ft : FFTokens) (l : list selected) :
  logBlind (eventLoop ft l).
Proof.
  induction l as [|s l IH]; cbn [eventLoop]; [apply logBlind_ret|].
  destruct s as [| |now b]; unfold closeAndExit; blind;
    first [exact IH | apply logBlind_dispatch | apply logBlind_acknowledge].
Qed.

(** X9.  A frame that cannot be parsed changes nothing but the log: with
    it or without it, anywhere in what arrives, the loop makes the same
    calls and ends in the same state. *)
Theorem malformed_frame_is_transparent (ft : FFTokens)
    (before after : list selected) (now : FFTime) (b : string) (w : World) :
  json_Unmarshal_wsEvent b = None ->
  fst (eventLoop ft (before ++ Received now b :: after) w)
  = fst (eventLoop ft (before ++ after) w) /\
  calls (snd (eventLoop ft (before ++ Received now b :: after) w))
  = calls (snd (eventLoop ft (before ++ after) w)).
Proof.
  intros U. rewrite !eventLoop_app.
  destruct (eventLoop ft before w) as [[|] w1]; [split; reflexivity|].
  rewrite (eventLoop_unparsed ft now b after w1 U).
  apply logBlind_eventLoop. reflexivity.
Qed.

(** *** Records, field by field *)

Lemma payloadTX_payloadData (default : TransactionType) (data : JSONObject) :
  payloadTX default data
  = {| tx_ID := td_TX (payloadData data);
       tx_Type := if emptyb (td_TXType (payloadData data)) then default
                  else td_TXType (payloadData data) |}.
Proof.
  unfold payloadTX, payloadData.
  destruct (json_Unmarshal_tokenData (GetString data "data")); reflexivity.
Qed.

(** The record [handleTokenTransfer] hands over, field by field. *)
Lemma handleTokenTransfer_fields (ft : FFTokens) (now : FFTime)
    (t : TokenTransferType) (data : JSONObject) (w : World) (amount : Z) :
  transferFieldsPresent t data ->
  big_SetString10 (GetString data "amount") = Some amount ->
  exists lines r,
    handleTokenTransfer ft now t data w
    = (TokensTransferred (callbacks ft) (calls w) r,
       called (logged w lines) [CallTokensTransferred r]) /\
    tokens.tr_PoolLocator r = GetString data "poolLocator" /\
    tokens.tr_Event r = payloadEvent ft now data /\
    tokens.tr_TokenTransfer r
    = {| tt_Type := t;
         tt_TokenIndex := GetString data "tokenIndex";
         tt_URI := GetString data "uri";
         tt_Connector := configuredName ft;
         tt_From := GetString data "from";
         tt_To := GetString data "to";
         tt_Amount := amount;
         tt_Subject := GetString data "subject";
         tt_Key := GetString data "signer";
         tt_Message := td_Message (payloadData data);
         tt_MessageHash := td_MessageHash (payloadData data);
         tt_TX := payloadTX TransactionTypeTokenTransfer data |}.
Proof.
  intros Hp Ha. apply transfer_validation in Hp.
  unfold handleTokenTransfer. rewrite Hp. unfold bind.
  destruct (decodeTokenData_run
    "%s event data could not be parsed - continuing anyway (%s): %+v"
    (GetString data "data") w) as [lines ->].
  rewrite Ha, perform_run. eexists lines, _. split; [reflexivity|].
  rewrite payloadTX_payloadData. unfold payloadData.
  destruct (json_Unmarshal_tokenData (GetString data "data"));
    repeat split; reflexivity.
Qed.

(** The record [handleTokenApproval] hands over, field by field. *)
Lemma handleTokenApproval_fields (ft : FFTokens) (now : FFTime)
    (data : JSONObject) (w : World) :
  approvalFieldsPresent data ->
  exists lines r,
    handleTokenApproval ft now data w
    = (TokensApproved (callbacks ft) (calls w) r,
       called (logged w lines) [CallTokensApproved r]) /\
    tokens.apv_PoolLocator r = GetString data "poolLocator" /\
    tokens.apv_Event r = payloadEvent ft now data /\
    tokens.apv_TokenApproval r
    = {| ta_Connector := configuredName ft;
         ta_Key := GetString data "signer";
         ta_Operator := GetString data "operator";
         ta_Approved := GetBool data "approved";
         ta_Subject := GetString data "subject";
         ta_Config := ∅;
         ta_TX := payloadTX TransactionTypeTokenApproval data |}.
Proof.
  intros Hp. apply approval_validation in Hp.
  unfold handleTokenApproval. rewrite Hp. unfold bind.
  destruct (decodeTokenData_run
    "TokenApproval event data could not be parsed - continuing anyway (%s): %+v"
    (GetString data "data") w) as [lines ->].
  rewrite perform_run. eexists lines, _. split; [reflexivity|].
  rewrite payloadTX_payloadData. unfold payloadData.
  destruct (json_Unmarshal_tokenData (GetString data "data"));
    repeat split; reflexivity.
Qed.

(** X10.  Correlation data that cannot be read never costs an event.  When
    the "data" string of a payload does not parse, each decoder still
    hands its record to the node, with no transaction identifier, the
    default transaction kind of the decoder and, for a transfer, no
    message and no message hash. *)
Theorem unreadable_data_is_tolerated (ft : FFTokens) (now : FFTime)
    (data : JSONObject) (w : World) :
  json_Unmarshal_tokenData (GetString data "data") = None ->
  (GetString data "type" <> "" -> GetString data "poolLocator" <> "" ->
   exists lines pool,
     handleTokenPoolCreate ft now data w
     = (TokenPoolCreated (callbacks ft) (calls w) pool,
        called (logged w lines) [CallTokenPoolCreated pool]) /\
     tokens.tp_TX pool
     = {| tx_ID := None; tx_Type := TransactionTypeTokenPool |})
  /\
  (forall t amount,
      transferFieldsPresent t data ->
      big_SetString10 (GetString data "amount") = Some amount ->
      exists lines transfer,
        handleTokenTransfer ft now t data w
        = (TokensTransferred (callbacks ft) (calls w) transfer,
           called (logged w lines) [CallTokensTransferred transfer]) /\
        tt_TX (tokens.tr_TokenTransfer transfer)
        = {| tx_ID := None; tx_Type := TransactionTypeTokenTransfer |} /\
        tt_Message (tokens.tr_TokenTransfer transfer) = None /\
        tt_MessageHash (tokens.tr_TokenTransfer transfer) = None)
  /\
  (approvalFieldsPresent data ->
   exists lines approval,
     handleTokenApproval ft now data w
     = (TokensApproved (callbacks ft) (calls w) approval,
        called (logged w lines) [CallTokensApproved approval]) /\
     ta_TX (tokens.apv_TokenApproval approval)
     = {| tx_ID := None; tx_Type := TransactionTypeTokenApproval |}).
Proof.
  intros U. split; [|split].
  - intros Ht Hl.
    destruct (handleTokenPoolCreate_run ft now data w)
      as [[_ [H | H]] | (lines & pool & E & _ & _ & _ & _ & _ & Etx & _)];
      try contradiction.
    exists lines, pool. split; [exact E|].
    rewrite Etx. unfold payloadTX. rewrite U. reflexivity.
  - intros t amount Hp Ha.
    destruct (handleTokenTransfer_fields ft now t data w amount Hp Ha)
      as (lines & r & E & _ & _ & Er).
    exists lines, r. split; [exact E|]. rewrite Er. simpl.
    unfold payloadTX, payloadData. rewrite U. repeat split; reflexivity.
  - intros Hp.
    destruct (handleTokenApproval_fields ft now data w Hp)
      as (lines & r & E & _ & _ & Er).
    exists lines, r. split; [exact E|]. rewrite Er. simpl.
    unfold payloadTX. rewrite U. reflexivity.
Qed.

(** *** Correlation data *)



(** *** Commands and their confirmations *)

(** X11.  What goes out as a command comes back intact as an event, if
    the command was complete.  Each of mint, burn and transfer posts one
    request and nothing else, and checks none of its arguments.  Take an
    event of the matching kind that confirms that request: its fields are
    those that were sent, and it has a subject.  When the command had a
    pool locator, a signer key, an amount that prints as a non-empty text
    and the endpoints the decoder asks for ("from" unless it is a mint,
    "to" unless it is a burn), when the number library reads back the
    amount it printed and the JSON library the [tokenData] it wrote, the
    record handed to the node has the pool, the amount, the signer, the
    token index, the message, its hash and the transaction identifier of
    the command (and its transaction kind when it is not empty), the
    endpoints the request carried, and no "from" for a mint and no "to"
    for a burn, whatever the caller had put there.  When the command
    lacked one of those fields, the decoder drops the event: no callback
    is made and no error returned. *)
Theorem transfer_command_round_trip (ft : FFTokens) (opID : option UUID)
    (poolLocator : string) (transfer : fftypes.TokenTransfer) (w : World) :
  forall op t, In (op, t) transferOperations ->
  exists path body rq,
    op ft opID poolLocator transfer w
    = (submitResponse (Post (client ft) (calls w) path body),
       called w [HTTPPost path body]) /\
    requested body = Some rq /\
    rq_Type rq = t /\
    (forall ft' now' data w',
      confirms data rq ->
      poolLocator <> "" ->
      tt_Key transfer <> "" ->
      (t <> TokenTransferTypeMint -> tt_From transfer <> "") ->
      (t <> TokenTransferTypeBurn -> tt_To transfer <> "") ->
      big_String (tt_Amount transfer) <> "" ->
      big_SetString10 (big_String (tt_Amount transfer))
      = Some (tt_Amount transfer) ->
      json_Unmarshal_tokenData
        (json_Marshal_tokenData (transferTokenData transfer))
      = Some (transferTokenData transfer) ->
      exists lines r,
        handleTokenTransfer ft' now' t data w'
        = (TokensTransferred (callbacks ft') (calls w') r,
           called (logged w' lines) [CallTokensTransferred r]) /\
        tokens.tr_PoolLocator r = poolLocator /\
        tt_Type (tokens.tr_TokenTransfer r) = t /\
        tt_Amount (tokens.tr_TokenTransfer r) = tt_Amount transfer /\
        tt_Key (tokens.tr_TokenTransfer r) = tt_Key transfer /\
        tt_TokenIndex (tokens.tr_TokenTransfer r) = tt_TokenIndex transfer /\
        tt_From (tokens.tr_TokenTransfer r)
        = match t with
          | TokenTransferTypeMint => ""
          | _ => tt_From transfer
          end /\
        tt_To (tokens.tr_TokenTransfer r)
        = match t with
          | TokenTransferTypeBurn => ""
          | _ => tt_To transfer
          end /\
        tt_Message (tokens.tr_TokenTransfer r) = tt_Message transfer /\
        tt_MessageHash (tokens.tr_TokenTransfer r) = tt_MessageHash transfer /\
        tx_ID (tt_TX (tokens.tr_TokenTransfer r)) = tx_ID (tt_TX transfer) /\
        (tx_Type (tt_TX transfer) <> "" ->
         tt_TX (tokens.tr_TokenTransfer r) = tt_TX transfer)) /\
    (forall ft' now' data w',
      confirms data rq ->
      poolLocator = "" \/ tt_Key transfer = "" \/
      big_String (tt_Amount transfer) = "" \/
      (t <> TokenTransferTypeMint /\ tt_From transfer = "") \/
      (t <> TokenTransferTypeBurn /\ tt_To transfer = "") ->
      exists lines,
        handleTokenTransfer ft' now' t data w' = (None, logged w' lines)).
Proof.
  assert (Drop : forall t rq ft' now' data w',
             rq_PoolLocator rq = poolLocator ->
             rq_From rq = match t with
                          | TokenTransferTypeMint => ""
                          | _ => tt_From transfer
                          end ->
             rq_To rq = match t with
                        | TokenTransferTypeBurn => ""
                        | _ => tt_To transfer
                        end ->
             rq_Amount rq = big_String (tt_Amount transfer) ->
             rq_Signer rq = tt_Key transfer ->
             confirms data rq ->
             poolLocator = "" \/ tt_Key transfer = "" \/
             big_String (tt_Amount transfer) = "" \/
             (t <> TokenTransferTypeMint /\ tt_From transfer = "") \/
             (t <> TokenTransferTypeBurn /\ tt_To transfer = "") ->
             exists lines,
               handleTokenTransfer ft' now' t data w' = (None, logged w' lines)).
  { intros t rq ft' now' data w' El Ef Eto Ea Es
      (_ & Cl & _ & Cf & Cto & Ca & Cs & _) Missing.
    rewrite El in Cl. rewrite Ef in Cf. rewrite Eto in Cto.
    rewrite Ea in Ca. rewrite Es in Cs.
    destruct (handleTokenTransfer_run ft' now' t data w')
      as [(lines & E & _) | (lines & r & amount & _ & Hp & _)].
    { exists lines. exact E. }
    exfalso. destruct Hp as (_ & Hl & Hk & Hv & Hf & Hto).
    destruct Missing as [M | [M | [M | [[Nt M] | [Nt M]]]]].
    - apply Hl. rewrite Cl. exact M.
    - apply Hk. rewrite Cs. exact M.
    - apply Hv. rewrite Ca. exact M.
    - apply (Hf Nt). rewrite Cf. destruct t; [reflexivity | exact M | exact M].
    - apply (Hto Nt). rewrite Cto. destruct t; [exact M | reflexivity | exact M]. }
  assert (Back : forall t rq ft' now' data w',
             rq_Type rq = t ->
             rq_PoolLocator rq = poolLocator ->
             rq_TokenIndex rq = tt_TokenIndex transfer ->
             rq_From rq = match t with
                          | TokenTransferTypeMint => ""
                          | _ => tt_From transfer
                          end ->
             rq_To rq = match t with
                        | TokenTransferTypeBurn => ""
                        | _ => tt_To transfer
                        end ->
             rq_Amount rq = big_String (tt_Amount transfer) ->
             rq_Signer rq = tt_Key transfer ->
             rq_Data rq = json_Marshal_tokenData (transferTokenData transfer) ->
             confirms data rq ->
             poolLocator <> "" ->
             tt_Key transfer <> "" ->
             (t <> TokenTransferTypeMint -> tt_From transfer <> "") ->
             (t <> TokenTransferTypeBurn -> tt_To transfer <> "") ->
             big_String (tt_Amount transfer) <> "" ->
             big_SetString10 (big_String (tt_Amount transfer))
             = Some (tt_Amount transfer) ->
             json_Unmarshal_tokenData
               (json_Marshal_tokenData (transferTokenData transfer))
             = Some (transferTokenData transfer) ->
             exists lines r,
               handleTokenTransfer ft' now' t data w'
               = (TokensTransferred (callbacks ft') (calls w') r,
                  called (logged w' lines) [CallTokensTransferred r]) /\
               tokens.tr_PoolLocator r = poolLocator /\
               tt_Type (tokens.tr_TokenTransfer r) = t /\
               tt_Amount (tokens.tr_TokenTransfer r) = tt_Amount transfer /\
               tt_Key (tokens.tr_TokenTransfer r) = tt_Key transfer /\
               tt_TokenIndex (tokens.tr_TokenTransfer r)
               = tt_TokenIndex transfer /\
               tt_From (tokens.tr_TokenTransfer r)
               = match t with
                 | TokenTransferTypeMint => ""
                 | _ => tt_From transfer
                 end /\
               tt_To (tokens.tr_TokenTransfer r)
               = match t with
                 | TokenTransferTypeBurn => ""
                 | _ => tt_To transfer
                 end /\
               tt_Message (tokens.tr_TokenTransfer r) = tt_Message transfer /\
               tt_MessageHash (tokens.tr_TokenTransfer r)
               = tt_MessageHash transfer /\
               tx_ID (tt_TX (tokens.tr_TokenTransfer r))
               = tx_ID (tt_TX transfer) /\
               (tx_Type (tt_TX transfer) <> "" ->
                tt_TX (tokens.tr_TokenTransfer r) = tt_TX transfer)).
  { intros t rq ft' now' data w' Et El Ei Ef Eto Ea Es Ed
      (Hs & Cl & Ci & Cf & Cto & Ca & Cs & Cd) Hl Hk Hf Hto Hne Hamount Hjson.
    rewrite El in Cl. rewrite Ei in Ci. rewrite Ef in Cf. rewrite Eto in Cto.
    rewrite Ea in Ca. rewrite Es in Cs. rewrite Ed in Cd.
    assert (Hp : transferFieldsPresent t data).
    { unfold transferFieldsPresent. rewrite Cl, Cs, Ca, Cf, Cto.
      repeat split; try assumption.
      - intros Hm. destruct t; [contradiction Hm; reflexivity | | ];
          apply Hf; discriminate.
      - intros Hb. destruct t; [ | contradiction Hb; reflexivity | ];
          apply Hto; discriminate. }
    assert (Ham : big_SetString10 (GetString data "amount")
                  = Some (tt_Amount transfer)) by (rewrite Ca; exact Hamount).
    destruct (handleTokenTransfer_fields ft' now' t data w' _ Hp Ham)
      as (lines & r & E & Epl & _ & Er).
    exists lines, r. split; [exact E|]. rewrite Er, Epl. simpl.
    rewrite payloadTX_payloadData. unfold payloadData.
    rewrite Cd, Hjson. simpl.
    repeat split; try assumption; try reflexivity.
    intros Hkind. apply emptyb_false in Hkind. rewrite Hkind.
    destruct (tt_TX transfer); reflexivity. }
  intros op t [E | [E | [E | []]]]; inversion E; subst op t; clear E.
  - eexists _, _, _. split; [reflexivity|]. split; [reflexivity|].
    split; [reflexivity|]. split; intros ft' now' data w'.
    + apply Back; reflexivity.
    + apply Drop; reflexivity.
  - eexists _, _, _. split; [reflexivity|]. split; [reflexivity|].
    split; [reflexivity|]. split; intros ft' now' data w'.
    + apply Back; reflexivity.
    + apply Drop; reflexivity.
  - eexists _, _, _. split; [reflexivity|]. split; [reflexivity|].
    split; [reflexivity|]. split; intros ft' now' data w'.
    + apply Back; reflexivity.
    + apply Drop; reflexivity.
Qed.

(** X12.  The same for an approval.  [TokensApproval] posts one request
    and checks none of its arguments.  Take an approval event that
    confirms that request: its fields are those that were sent, and it
    has a subject.  When the command had a pool locator, a signer key and
    an operator, and the JSON library reads back the [tokenData] it
    wrote, the record handed to the node has the pool, the signer, the
    operator, the flag and the transaction identifier of the command (and
    its transaction kind when it is not empty).  When the command lacked
    one of those three, the decoder drops the event: no callback is made
    and no error returned. *)
Theorem approval_command_round_trip (ft : FFTokens) (opID : option UUID)
    (poolLocator : string) (approval : fftypes.TokenApproval) (w : World) :
  let sent :=
    {| td_TX := tx_ID (ta_TX approval); td_TXType := tx_Type (ta_TX approval);
       td_Message := None; td_MessageHash := None |} in
  exists body,
    TokensApproval ft opID poolLocator approval w
    = (submitResponse
         (Post (client ft) (calls w) "/api/v1/approval" (BodyTokenApproval body)),
       called w [HTTPPost "/api/v1/approval" (BodyTokenApproval body)]) /\
    (forall ft' now' data w',
      confirmsApproval data body ->
      poolLocator <> "" ->
      ta_Key approval <> "" ->
      ta_Operator approval <> "" ->
      json_Unmarshal_tokenData (json_Marshal_tokenData sent) = Some sent ->
      exists lines r,
        handleTokenApproval ft' now' data w'
        = (TokensApproved (callbacks ft') (calls w') r,
           called (logged w' lines) [CallTokensApproved r]) /\
        tokens.apv_PoolLocator r = poolLocator /\
        ta_Key (tokens.apv_TokenApproval r) = ta_Key approval /\
        ta_Operator (tokens.apv_TokenApproval r) = ta_Operator approval /\
        ta_Approved (tokens.apv_TokenApproval r) = ta_Approved approval /\
        tx_ID (ta_TX (tokens.apv_TokenApproval r)) = tx_ID (ta_TX approval) /\
        (tx_Type (ta_TX approval) <> "" ->
         ta_TX (tokens.apv_TokenApproval r) = ta_TX approval)) /\
    (forall ft' now' data w',
      confirmsApproval data body ->
      poolLocator = "" \/ ta_Key approval = "" \/ ta_Operator approval = "" ->
      exists lines,
        handleTokenApproval ft' now' data w' = (None, logged w' lines)).
Proof.
  intros sent. eexists. split; [reflexivity|]. split.
  - intros ft' now' data w' (Hs & Cl & Cs & Co & Ca & Cd) Hl Hk Ho Hjson.
    simpl in Cl, Cs, Co, Ca, Cd.
    assert (Hp : approvalFieldsPresent data).
    { unfold approvalFieldsPresent. rewrite Cl, Cs, Co.
      repeat split; assumption. }
    destruct (handleTokenApproval_fields ft' now' data w' Hp)
      as (lines & r & E & Epl & _ & Er).
    exists lines, r. split; [exact E|]. rewrite Er, Epl. simpl.
    rewrite payloadTX_payloadData. unfold payloadData.
    fold sent in Cd. rewrite Cd, Hjson. simpl.
    repeat split; try assumption; try reflexivity.
    intros Hkind. apply emptyb_false in Hkind. rewrite Hkind.
    destruct (ta_TX approval); reflexivity.
  - intros ft' now' data w' (_ & Cl & Cs & Co & _) Missing.
    simpl in Cl, Cs, Co.
    destruct (handleTokenApproval_run ft' now' data w')
      as [[E _] | (lines & r & _ & Hp & _)].
    { eexists. exact E. }
    exfalso. destruct Hp as (_ & Hl & Hk & Ho).
    destruct Missing as [M | [M | M]].
    + apply Hl. rewrite Cl. exact M.
    + apply Hk. rewrite Cs. exact M.
    + apply Ho. rewrite Co. exact M.
Qed.

(** X13.  A synchronous answer completes the operation whether or not it
    names a pool.  When create-pool or activate-pool is answered 200 with
    a JSON object, the operation reports completion; the node is told of
    a pool, once and after the request, only if the object has a type and
    a locator, and otherwise completion is reported with no error
    although no pool was handed over. *)
Theorem completion_without_pool (ft : FFTokens) (now : FFTime)
    (opID : option UUID) (pool : fftypes.TokenPool) (w : World) :
  forall op, In op [CreateTokenPool; ActivateTokenPool] ->
  exists path body,
    let res := Post (client ft) (calls w) path body in
    let w1 := called w [HTTPPost path body] in
    forall obj,
      ~ transportFailure res ->
      res_StatusCode res = 200 ->
      json_Unmarshal_JSONObject (res_Body res) = Some obj ->
      ((GetString obj "type" = "" \/ GetString obj "poolLocator" = "") ->
       exists lines,
         op ft now opID pool w = ((true, None), logged w1 lines))
      /\
      (GetString obj "type" <> "" -> GetString obj "poolLocator" <> "" ->
       exists lines created,
         op ft now opID pool w
         = ((true, TokenPoolCreated (callbacks ft) (calls w1) created),
            called (logged w1 lines) [CallTokenPoolCreated created]) /\
         tokens.tp_Type created = GetString obj "type" /\
         tokens.tp_PoolLocator created = GetString obj "poolLocator" /\
         tokens.tp_Connector created = configuredName ft).
Proof.
  assert (G : forall res w1 obj,
             ~ transportFailure res ->
             res_StatusCode res = 200 ->
             json_Unmarshal_JSONObject (res_Body res) = Some obj ->
             ((GetString obj "type" = "" \/ GetString obj "poolLocator" = "") ->
              exists lines,
                poolResponse ft now res w1 = ((true, None), logged w1 lines))
             /\
             (GetString obj "type" <> "" -> GetString obj "poolLocator" <> "" ->
              exists lines created,
                poolResponse ft now res w1
                = ((true, TokenPoolCreated (callbacks ft) (calls w1) created),
                   called (logged w1 lines) [CallTokenPoolCreated created]) /\
                tokens.tp_Type created = GetString obj "type" /\
                tokens.tp_PoolLocator created = GetString obj "poolLocator" /\
                tokens.tp_Connector created = configuredName ft)).
  { intros res w1 obj F S U.
    destruct (poolResponse_cases ft now res w1)
      as [[F' _] | [(_ & S' & _) | [(_ & _ & U' & _) | (obj' & _ & _ & U' & E)]]];
      try contradiction; try congruence.
    assert (obj' = obj) as -> by congruence. rewrite E.
    destruct (handleTokenPoolCreate_run ft now obj w1)
      as [[E' Why] | (lines & created & E' & Ht & Hl & Et & El & Ec & _)];
      rewrite E'.
    - split.
      + intros _. eexists. reflexivity.
      + intros Ht Hl. destruct Why; contradiction.
    - split.
      + intros [H | H]; contradiction.
      + intros _ _. exists lines, created. repeat split; assumption. }
  intros op [<- | [<- | []]].
  - eexists _, _. unfold CreateTokenPool, bind, post. rewrite perform_run.
    intros obj. apply G.
  - eexists _, _. unfold ActivateTokenPool, bind, post. rewrite perform_run.
    intros obj. apply G.
Qed.

(** *** Initialisation *)

Context {W : Wiring}.

(** X14.  [Init] starts the event loop when and only when it returns no
    error.  Without a URL it returns the missing-configuration error
    before any client is made; with one it makes the REST client and asks
    for the websocket client, whose error, if any, it returns as it came,
    the loop not started. *)
Theorem Init_all_or_nothing (name : string) (prefix : Prefix)
    (callbacks : Callbacks) :
  let r := Init name prefix callbacks in
  (init_eventLoop r = true <-> init_err r = None) /\
  (prefix_GetString prefix HTTPConfigURL = "" ->
   init_err r = Some (MissingPluginConfig "url" "tokens.fftokens") /\
   f_client (init_fields r) = None /\
   f_wsconn (init_fields r) = None /\
   init_wsConfig r = None) /\
  (prefix_GetString prefix HTTPConfigURL <> "" ->
   exists cfg,
     init_wsConfig r = Some cfg /\
     f_client (init_fields r) = Some (ffresty_New prefix) /\
     f_wsconn (init_fields r) = fst (wsclient_New cfg) /\
     init_err r = option_map WSClientError (snd (wsclient_New cfg))).
Proof.
  intros r. subst r. unfold Init.
  destruct (emptyb (prefix_GetString prefix HTTPConfigURL)) eqn:U.
  - apply emptyb_true in U. split; [|split].
    + simpl. split; discriminate.
    + intros _. repeat split; reflexivity.
    + intros N. contradiction.
  - apply emptyb_false in U. cbv zeta.
    match goal with
    | |- context [wsclient_New ?c] => set (cfg := c)
    end.
    destruct (wsclient_New cfg) as [ws [e|]] eqn:N; (split; [|split]).
    + simpl. split; discriminate.
    + intros E. contradiction.
    + intros _. exists cfg. rewrite N. repeat split; reflexivity.
    + simpl. split; reflexivity.
    + intros E. contradiction.
    + intros _. exists cfg. rewrite N. repeat split; reflexivity.
Qed.

(** X15.  The websocket client is never asked for an empty path: [Init]
    hands it the configured path when there is one and "/api/ws" when
    there is none, and the other settings as they were generated. *)
Theorem Init_websocket_path (name : string) (prefix : Prefix)
    (callbacks : Callbacks) :
  prefix_GetString prefix HTTPConfigURL <> "" ->
  exists cfg,
    init_wsConfig (Init name prefix callbacks) = Some cfg /\
    WSKeyPath cfg <> "" /\
    (WSKeyPath (GenerateConfigFromPrefix prefix) <> "" ->
     cfg = GenerateConfigFromPrefix prefix) /\
    (WSKeyPath (GenerateConfigFromPrefix prefix) = "" ->
     WSKeyPath cfg = "/api/ws") /\
    WSSettings cfg = WSSettings (GenerateConfigFromPrefix prefix).
Proof.
  intros U. apply emptyb_false in U. unfold Init. rewrite U. cbv zeta.
  match goal with
  | |- context [wsclient_New ?c] => set (cfg := c)
  end.
  exists cfg. split.
  { destruct (wsclient_New cfg) as [ws [e|]]; reflexivity. }
  subst cfg.
  destruct (emptyb (WSKeyPath (GenerateConfigFromPrefix prefix))) eqn:K.
  - apply emptyb_true in K. repeat split; try reflexivity.
    + discriminate.
    + intros N. contradiction.
  - apply emptyb_false in K. repeat split; try reflexivity; try assumption.
    intros N. contradiction.
Qed.

(** X16.  Every record names the connector it came through.  Once [Init]
    has succeeded, the plugin it has filled keeps the callbacks and the
    name it was given, and each record it later hands to the node, for a
    pool, for a transfer or for an approval, carries that name as its
    connector. *)
Theorem records_carry_the_configured_name (name : string) (prefix : Prefix)
    (callbacks0 : Callbacks) (ft : FFTokens) (now : FFTime)
    (data : JSONObject) (w : World) :
  ready (init_fields (Init name prefix callbacks0)) = Some ft ->
  configuredName ft = name /\
  callbacks ft = callbacks0 /\
  (forall pool,
      In (CallTokenPoolCreated pool)
        (callsSince w (snd (handleTokenPoolCreate ft now data w))) ->
      tokens.tp_Connector pool = name) /\
  (forall t transfer,
      In (CallTokensTransferred transfer)
        (callsSince w (snd (handleTokenTransfer ft now t data w))) ->
      tt_Connector (tokens.tr_TokenTransfer transfer) = name) /\
  (forall approval,
      In (CallTokensApproved approval)
        (callsSince w (snd (handleTokenApproval ft now data w))) ->
      ta_Connector (tokens.apv_TokenApproval approval) = name).
Proof.
  intros R.
  assert (En : configuredName ft = name /\ callbacks ft = callbacks0).
  { unfold Init in R.
    destruct (emptyb (prefix_GetString prefix HTTPConfigURL));
      [discriminate R|].
    cbv zeta in R.
    match type of R with
    | context [wsclient_New ?c] => destruct (wsclient_New c) as [[ws|] [e|]]
    end; simpl in R; try discriminate R;
      injection R as <-; split; reflexivity. }
  destruct En as [En Ec]. split; [exact En|]. split; [exact Ec|].
  split; [|split].
  - intros pool.
    destruct (handleTokenPoolCreate_run ft now data w)
      as [[E _] | (lines & pool' & E & _ & _ & _ & _ & Econn & _)];
      rewrite E; cbn [snd]; autorewrite with runs.
    + intros [].
    + intros [[= <-] | []]. rewrite Econn. exact En.
  - intros t transfer.
    destruct (handleTokenTransfer_run ft now t data w)
      as [(lines & E & _) | (lines & r & amount & E & Hp & Ha & _)].
    + rewrite E. cbn [snd]. autorewrite with runs. intros [].
    + destruct (handleTokenTransfer_fields ft now t data w amount Hp Ha)
        as (lines' & r' & E' & _ & _ & Er).
      rewrite E'. cbn [snd]. autorewrite with runs.
      intros [[= <-] | []]. rewrite Er. exact En.
  - intros approval.
    destruct (handleTokenApproval_run ft now data w)
      as [[E _] | (lines & r & E & Hp & _)].
    + rewrite E. cbn [snd]. autorewrite with runs. intros [].
    + destruct (handleTokenApproval_fields ft now data w Hp)
        as (lines' & r' & E' & _ & _ & Er).
      rewrite E'. cbn [snd]. autorewrite with runs.
      intros [[= <-] | []]. rewrite Er. exact En.
Qed.

End Runs.

(* ================================================================== *)
(** ** Whole runs and commands on concrete frames                      *)
(* ================================================================== *)

Import Scenarios.

Lemma ft_healthy : healthy ft.
Proof. repeat split. Qed.

(** A receipt, a pool frame and a mint frame in front of a node that
    accepts everything: the loop is still waiting, and has acknowledged
    the pool frame and the mint frame, in that order. *)
Lemma eventLoop_healthy_run_witness :
  healthy ft /\ framesOnly threeFrames /\
  fst (@eventLoop Reference.platform ft threeFrames start) = Waiting /\
  sentFrames
    (callsSince start (snd (@eventLoop Reference.platform ft threeFrames start)))
  = @acksDue Reference.platform threeFrames.
Proof.
  assert (F : framesOnly threeFrames) by (repeat constructor).
  split; [exact ft_healthy|]. split; [exact F|].
  exact (@eventLoop_healthy_run Reference.platform ft threeFrames start
           ft_healthy F).
Defined.

(** The context is cancelled after the pool frame: the loop returns with
    the connection closed, and the mint frame behind is never looked at. *)
Lemma eventLoop_stops_cleanly_witness :
  exists w1 line,
    @eventLoop Reference.platform ft [Received 1 poolFrame] start
    = (Waiting, w1) /\
    @eventLoop Reference.platform ft
      ([Received 1 poolFrame] ++ CtxDone :: [Received 2 mintFrame]) start
    = (Exited, called (logged w1 [(Debug, line)]) [WSClose]).
Proof.
  exists (snd (@eventLoop Reference.platform ft [Received 1 poolFrame] start)).
  assert (E : @eventLoop Reference.platform ft [Received 1 poolFrame] start
              = (Waiting,
                 snd (@eventLoop Reference.platform ft [Received 1 poolFrame]
                        start)))
    by (vm_compute; reflexivity).
  destruct (@eventLoop_stops_cleanly Reference.platform ft
              [Received 1 poolFrame] [Received 2 mintFrame] CtxDone start _ E
              (or_introl eq_refl)) as [line Stop].
  exists line. split; [exact E | exact Stop].
Defined.

(** A frame of an unknown kind, with an identifier, is acknowledged. *)
Lemma unknown_kind_is_acknowledged_witness :
  @json_Unmarshal_wsEvent Reference.platform strangeFrame
  = Some strangeEnvelope /\
  knownKind (ws_Event strangeEnvelope) = false /\
  exists lines,
    @eventLoop Reference.platform ft [Received 3 strangeFrame] start
    = match Send (wsconn ft) (calls start)
              (@ackOf Reference.platform strangeEnvelope) with
      | None =>
          @eventLoop Reference.platform ft []
            (called (logged start lines)
               [WSSend (@ackOf Reference.platform strangeEnvelope)])
      | Some _ =>
          (Exited,
           exited (called (logged start lines)
                     [WSSend (@ackOf Reference.platform strangeEnvelope)]))
      end.
Proof.
  assert (U : @json_Unmarshal_wsEvent Reference.platform strangeFrame
              = Some strangeEnvelope) by (vm_compute; reflexivity).
  split; [exact U|]. split; [reflexivity|].
  apply (proj1 (@unknown_kind_is_acknowledged Reference.platform ft 3
                  strangeFrame strangeEnvelope [] start U eq_refl)).
  discriminate.
Defined.

(** The one call made for the pool frame is [TokenPoolCreated]. *)
Lemma dispatch_routing_witness :
  exists pool,
    In (CallTokenPoolCreated pool)
      (callsSince start
         (snd (@dispatch Reference.platform ft 1 poolEnvelope start))) /\
    ws_Event poolEnvelope = messageTokenPool.
Proof.
  assert (C : exists pool,
             callsSince start
               (snd (@dispatch Reference.platform ft 1 poolEnvelope start))
             = [CallTokenPoolCreated pool])
    by (eexists; vm_compute; reflexivity).
  destruct C as [pool C]. exists pool.
  assert (I : In (CallTokenPoolCreated pool)
                (callsSince start
                   (snd (@dispatch Reference.platform ft 1 poolEnvelope start))))
    by (rewrite C; left; reflexivity).
  split; [exact I|].
  exact (@dispatch_routing Reference.platform ft 1 poolEnvelope start
           (CallTokenPoolCreated pool) I).
Defined.

(** Garbage between the pool frame and the mint frame changes none of the
    calls. *)
Lemma malformed_frame_is_transparent_witness :
  @json_Unmarshal_wsEvent Reference.platform garbage = None /\
  calls (snd (@eventLoop Reference.platform ft
                ([Received 1 poolFrame]
                 ++ Received 2 garbage :: [Received 2 mintFrame]) start))
  = calls (snd (@eventLoop Reference.platform ft
                  ([Received 1 poolFrame] ++ [Received 2 mintFrame]) start)).
Proof.
  assert (U : @json_Unmarshal_wsEvent Reference.platform garbage = None)
    by (vm_compute; reflexivity).
  split; [exact U|].
  exact (proj2 (@malformed_frame_is_transparent Reference.platform ft
                  [Received 1 poolFrame] [Received 2 mintFrame] 2 garbage
                  start U)).
Defined.

(** A pool whose correlation data is not JSON is reported all the same,
    as a pool of no known transaction. *)
Lemma unreadable_data_is_tolerated_witness :
  @json_Unmarshal_tokenData Reference.platform
    (GetString poolWithBrokenData "data") = None /\
  exists lines pool,
    @handleTokenPoolCreate Reference.platform ft 0 poolWithBrokenData start
    = (None, called (logged start lines) [CallTokenPoolCreated pool]) /\
    tokens.tp_TX pool = {| tx_ID := None; tx_Type := "token_pool" |}.
Proof.
  assert (U : @json_Unmarshal_tokenData Reference.platform
                (GetString poolWithBrokenData "data") = None)
    by (vm_compute; reflexivity).
  split; [exact U|].
  apply (proj1 (@unreadable_data_is_tolerated Reference.platform ft 0
                  poolWithBrokenData start U)).
  - vm_compute. discriminate.
  - vm_compute. discriminate.
Defined.


(** The pool frame leaves the loop waiting, so the mint frame behind it is
    processed from where the pool frame has left the world. *)
Lemma eventLoop_composes_witness :
  exists w1,
    @eventLoop Reference.platform ft [Received 1 poolFrame] start
    = (Waiting, w1) /\
    @eventLoop Reference.platform ft
      ([Received 1 poolFrame] ++ [Received 2 mintFrame]) start
    = @eventLoop Reference.platform ft [Received 2 mintFrame] w1.
Proof.
  exists (snd (@eventLoop Reference.platform ft [Received 1 poolFrame] start)).
  assert (E : @eventLoop Reference.platform ft [Received 1 poolFrame] start
              = (Waiting,
                 snd (@eventLoop Reference.platform ft [Received 1 poolFrame]
                        start)))
    by (vm_compute; reflexivity).
  split; [exact E|].
  exact (proj1 (@eventLoop_composes Reference.platform ft
                  [Received 1 poolFrame] [Received 2 mintFrame] start _) E).
Defined.

(** A receipt never makes the switch fail. *)
Lemma dispatch_one_callback_witness :
  ws_Event receiptEnvelope = messageReceipt /\
  fst (@dispatch Reference.platform ft 0 receiptEnvelope start) = None.
Proof.
  split; [reflexivity|].
  exact (proj2 (@dispatch_one_callback Reference.platform ft 0 receiptEnvelope
                  start) eq_refl).
Defined.

(** The mint of [aTransfer] in "pool1", confirmed by the connector. *)
Lemma transfer_command_round_trip_witness :
  In (@MintTokens Reference.platform, TokenTransferTypeMint)
    (@transferOperations Reference.platform) /\
  exists lines r,
    @handleTokenTransfer Reference.platform ft 5 TokenTransferTypeMint
      mintConfirmation start
    = (TokensTransferred (callbacks ft) (calls start) r,
       called (logged start lines) [CallTokensTransferred r]) /\
    tokens.tr_PoolLocator r = "pool1" /\
    tt_Amount (tokens.tr_TokenTransfer r) = tt_Amount aTransfer /\
    tt_Key (tokens.tr_TokenTransfer r) = tt_Key aTransfer /\
    tt_To (tokens.tr_TokenTransfer r) = tt_To aTransfer /\
    tt_TX (tokens.tr_TokenTransfer r) = tt_TX aTransfer.
Proof.
  assert (I : In (@MintTokens Reference.platform, TokenTransferTypeMint)
                (@transferOperations Reference.platform))
    by (left; reflexivity).
  split; [exact I|].
  destruct (@transfer_command_round_trip Reference.platform ft (Some opID)
              "pool1" aTransfer start _ _ I)
    as (path & body & rq & E & Rq & _ & Back & _).
  apply (f_equal (fun r => calls (snd r))) in E. vm_compute in E.
  injection E as <- <-. simpl in Rq. injection Rq as <-.
  destruct (Back ft 5 mintConfirmation start)
    as (lines & r & Er & Epl & _ & Ea & Ek & _ & _ & Eto & _ & _ & _ & Etx).
  - repeat split; try (vm_compute; reflexivity). vm_compute. discriminate.
  - discriminate.
  - discriminate.
  - intros N. contradiction.
  - intros _. discriminate.
  - vm_compute. discriminate.
  - vm_compute. reflexivity.
  - vm_compute. reflexivity.
  - exists lines, r. split; [exact Er|]. split; [exact Epl|].
    split; [exact Ea|]. split; [exact Ek|]. split; [exact Eto|].
    apply Etx. discriminate.
Defined.

(** The approval [anApproval] in "pool1", confirmed by the connector. *)
Lemma approval_command_round_trip_witness :
  exists lines r,
    @handleTokenApproval Reference.platform ft 5 approvalConfirmation start
    = (TokensApproved (callbacks ft) (calls start) r,
       called (logged start lines) [CallTokensApproved r]) /\
    tokens.apv_PoolLocator r = "pool1" /\
    ta_Key (tokens.apv_TokenApproval r) = ta_Key anApproval /\
    ta_Operator (tokens.apv_TokenApproval r) = ta_Operator anApproval /\
    ta_Approved (tokens.apv_TokenApproval r) = ta_Approved anApproval /\
    ta_TX (tokens.apv_TokenApproval r) = ta_TX anApproval.
Proof.
  destruct (@approval_command_round_trip Reference.platform ft (Some opID)
              "pool1" anApproval start)
    as (body & E & Back & _).
  apply (f_equal (fun r => calls (snd r))) in E. vm_compute in E.
  injection E as <-.
  destruct (Back ft 5 approvalConfirmation start)
    as (lines & r & Er & Epl & Ek & Eo & Ea & _ & Etx).
  - repeat split; try (vm_compute; reflexivity). vm_compute. discriminate.
  - discriminate.
  - discriminate.
  - discriminate.
  - vm_compute. reflexivity.
  - exists lines, r. split; [exact Er|]. split; [exact Epl|].
    split; [exact Ek|]. split; [exact Eo|]. split; [exact Ea|].
    apply Etx. discriminate.
Defined.

(** A connector that answers 200 with an empty object: the pool is
    complete, and the node hears nothing of it. *)
Lemma completion_without_pool_witness :
  In (@CreateTokenPool Reference.platform)
    [@CreateTokenPool Reference.platform;
     @ActivateTokenPool Reference.platform] /\
  exists w1 lines,
    @CreateTokenPool Reference.platform ftEmptyAnswer 0 (Some opID)
      (poolToCreate "token_pool") start
    = ((true, None), logged w1 lines).
Proof.
  assert (I : In (@CreateTokenPool Reference.platform)
                [@CreateTokenPool Reference.platform;
                 @ActivateTokenPool Reference.platform])
    by (left; reflexivity).
  split; [exact I|].
  destruct (@completion_without_pool Reference.platform ftEmptyAnswer 0
              (Some opID) (poolToCreate "token_pool") start _ I)
    as (path & body & Done).
  exists (called start [HTTPPost path body]).
  assert (F : ~ transportFailure
                  (Post (client ftEmptyAnswer) (calls start) path body)).
  { intros [F | F]; [apply F; reflexivity | apply F; simpl; lia]. }
  assert (D : @json_Unmarshal_JSONObject Reference.platform
                (res_Body (Post (client ftEmptyAnswer) (calls start) path body))
              = Some ∅) by (vm_compute; reflexivity).
  apply (proj1 (Done ∅ F eq_refl D)).
  left. reflexivity.
Defined.

(** A configuration with a URL, on the test bench: everything is built
    and the loop is started. *)
Lemma Init_all_or_nothing_witness :
  prefix_GetString aPrefix (@HTTPConfigURL bench) <> "" /\
  exists cfg,
    init_wsConfig (@Init bench "erc1155" aPrefix nodeAccepting) = Some cfg /\
    f_client (init_fields (@Init bench "erc1155" aPrefix nodeAccepting))
    = Some (@ffresty_New bench aPrefix) /\
    f_wsconn (init_fields (@Init bench "erc1155" aPrefix nodeAccepting))
    = fst (@wsclient_New bench cfg) /\
    init_err (@Init bench "erc1155" aPrefix nodeAccepting)
    = option_map WSClientError (snd (@wsclient_New bench cfg)).
Proof.
  assert (U : prefix_GetString aPrefix (@HTTPConfigURL bench) <> "")
    by discriminate.
  split; [exact U|].
  exact (proj2 (proj2 (@Init_all_or_nothing bench "erc1155" aPrefix
                         nodeAccepting)) U).
Defined.

(** No websocket path is configured on the bench, so the client is asked
    for "/api/ws". *)
Lemma Init_websocket_path_witness :
  prefix_GetString aPrefix (@HTTPConfigURL bench) <> "" /\
  exists cfg,
    init_wsConfig (@Init bench "erc1155" aPrefix nodeAccepting) = Some cfg /\
    WSKeyPath cfg = "/api/ws" /\
    WSSettings cfg = [("ws.heartbeatInterval", "30s")].
Proof.
  assert (U : prefix_GetString aPrefix (@HTTPConfigURL bench) <> "")
    by discriminate.
  split; [exact U|].
  destruct (@Init_websocket_path bench "erc1155" aPrefix nodeAccepting U)
    as (cfg & E & _ & _ & Default & Rest).
  exists cfg. split; [exact E|]. split; [|exact Rest].
  apply Default. reflexivity.
Defined.

(** The plugin that [Init] fills on the bench is [ft], and the pool it
    reports for the pool payload is a pool of "erc1155". *)
Lemma records_carry_the_configured_name_witness :
  ready (init_fields (@Init bench "erc1155" aPrefix nodeAccepting)) = Some ft /\
  configuredName ft = "erc1155" /\
  callbacks ft = nodeAccepting /\
  exists pool,
    In (CallTokenPoolCreated pool)
      (callsSince start
         (snd (@handleTokenPoolCreate Reference.platform ft 1 poolPayload
                 start))) /\
    tokens.tp_Connector pool = "erc1155".
Proof.
  assert (R : ready (init_fields (@Init bench "erc1155" aPrefix nodeAccepting))
              = Some ft) by reflexivity.
  split; [exact R|].
  destruct (@records_carry_the_configured_name Reference.platform bench
              "erc1155" aPrefix nodeAccepting ft 1 poolPayload start R)
    as (En & Ec & Pool & _).
  split; [exact En|]. split; [exact Ec|].
  assert (C : exists pool,
             callsSince start
               (snd (@handleTokenPoolCreate Reference.platform ft 1
                       poolPayload start))
             = [CallTokenPoolCreated pool])
    by (eexists; vm_compute; reflexivity).
  destruct C as [pool C]. exists pool.
  assert (I : In (CallTokenPoolCreated pool)
                (callsSince start
                   (snd (@handleTokenPoolCreate Reference.platform ft 1
                           poolPayload start))))
    by (rewrite C; left; reflexivity).
  split; [exact I | exact (Pool pool I)].
Defined.
